(** * Document-processing pipeline: the Step Functions state machine

    The repository's only control flow is the state machine that
    [DocumentProcessingCdkStack] builds with the CDK [stepfunctions]
    constructs.  This development embeds

    - the JSON data that flows between states,
    - the constructs the stack uses ([LambdaInvoke] with the retrier it
      adds to a task, [Pass], [Choice] with [Condition.numberEquals],
      [Condition.isPresent], [Condition.stringGreaterThan] and
      [Condition.and], [Succeed], [Fail]), with the run-time meaning the
      Amazon States Language gives them,
    - the [definition] chain of the stack, state by state, in its current
      revision ([Stack]) and in the earlier one that has no image
      descriptions ([StackV0]),

    and proves properties of every execution of that definition, whatever
    the Lambda workers answer, call by call.  The workers themselves, the
    payload store behind them and the service that hosts the machine (its
    clock, its stop request) are outside the repository's code and
    outside this model. *)

From Stdlib Require Import ZArith List String Ascii Bool Arith Lia.
Import ListNotations.
Local Open Scope string_scope.
Local Open Scope list_scope.
Set Warnings "-register-all".

(* ================================================================== *)
(** * Amazon States Language: data, constructs and interpreter *)
(* ================================================================== *)

Module ASL.

(** JSON values.  The only numbers the machine inspects are the integer
    status codes of the workers, so numbers are integers. *)
Inductive json : Type :=
| JNull
| JBool (b : bool)
| JNum (n : Z)
| JStr (s : string)
| JArr (items : list json)
| JObj (fields : list (string * json)).

(** A reference path [$.a.b] is the list of its field names; [$] is []. *)
Definition Path := list string.

Fixpoint field (k : string) (fs : list (string * json)) : option json :=
  match fs with
  | [] => None
  | (k', v) :: fs' => if String.eqb k k' then Some v else field k fs'
  end.

Fixpoint lookup (p : Path) (j : json) : option json :=
  match p with
  | [] => Some j
  | k :: p' =>
      match j with
      | JObj fs =>
          match field k fs with
          | Some v => lookup p' v
          | None => None
          end
      | _ => None
      end
  end.

Arguments lookup : simpl nomatch.

(** [TaskInput.fromObject] payloads and [Pass] parameters: an object whose
    leaves are literals or paths ([JsonPath.stringAt], [JsonPath.numberAt],
    [JsonPath.entirePayload], or a key written with the [.$] suffix). *)
Inductive Template : Type :=
| Lit (j : json)
| At (p : Path)
| Obj (fields : list (string * Template)).

(** Rendering fails ([None]) when a path selects nothing in the input. *)
Fixpoint render (t : Template) (input : json) : option json :=
  match t with
  | Lit j => Some j
  | At p => lookup p input
  | Obj fs =>
      let fix fields (fs : list (string * Template)) :=
        match fs with
        | [] => Some []
        | (k, t') :: fs' =>
            match render t' input with
            | Some v =>
                match fields fs' with
                | Some r => Some ((k, v) :: r)
                | None => None
                end
            | None => None
            end
        end in
      match fields fs with
      | Some r => Some (JObj r)
      | None => None
      end
  end.

(** Choice conditions, named as in [stepfunctions.Condition]. *)
Module Condition.

Inductive t : Type :=
| numberEquals (variable : Path) (value : Z)
| isPresent (variable : Path)
| stringGreaterThan (variable : Path) (value : string)
| and (conditions : list t).

(** [StringGreaterThan] orders strings character by character.  The only
    constant compared against is the ASCII string 204800, for which the
    order on bytes and the order on UTF-16 code units agree. *)
Definition string_gtb (a b : string) : bool :=
  match String.compare a b with
  | Gt => true
  | _ => false
  end.

(** [None] is the run-time error of a comparison whose variable selects
    nothing; a value of the wrong type makes the comparison false;
    [and] stops at its first false or failing operand. *)
Fixpoint eval (c : t) (input : json) : option bool :=
  match c with
  | numberEquals p n =>
      match lookup p input with
      | Some (JNum v) => Some (Z.eqb v n)
      | Some _ => Some false
      | None => None
      end
  | isPresent p =>
      match lookup p input with
      | Some _ => Some true
      | None => Some false
      end
  | stringGreaterThan p s =>
      match lookup p input with
      | Some (JStr v) => Some (string_gtb v s)
      | Some _ => Some false
      | None => None
      end
  | and cs =>
      let fix all (cs : list t) :=
        match cs with
        | [] => Some true
        | c' :: cs' =>
            match eval c' input with
            | Some true => all cs'
            | other => other
            end
        end in
      all cs
  end.

End Condition.

Inductive LambdaFunction : Type :=
| textractProcessorLambda
| metadataExtractorLambda
| imageDescriptionGeneratorLambda
| bedrockKnowledgeBaseLambda
| payloadUtilsLambda
| retrievePayloadLambda.

(** What a Lambda invocation comes back with: the function's return value,
    or an error (an exception of the function, an error of the Lambda
    service, a time-out of the task). *)
Inductive WorkerResult : Type :=
| Returned (payload : json)
| Raised (error cause : string).

(** How an execution ends.  [OutOfFuel] is not an outcome of the machine,
    only of an interpreter run that was given too few steps. *)
Inductive Outcome : Type :=
| Succeeded (output : json)
| Failed (error cause : string)
| OutOfFuel.

Definition States_Runtime : string := "States.Runtime".
Definition States_NoChoiceMatched : string := "States.NoChoiceMatched".

Definition runtimeFailure (cause : string) : Outcome :=
  Failed States_Runtime cause.

(** The task result of the [lambda:invoke] integration, of which the
    machine reads the [Payload] field only. *)
Definition invokeResult (v : json) : json :=
  JObj [("ExecutedVersion", JStr "$LATEST"); ("Payload", v);
        ("StatusCode", JNum 200)].

(** [cdk.Duration], in seconds. *)
Definition Duration := Z.
Definition seconds (n : Z) : Duration := n.
Definition minutes (n : Z) : Duration := (60 * n)%Z.

(** [RetryProps]: the error names a retrier takes, the pause before the
    first retry, the number of retries, and the factor by which the pause
    grows from one retry to the next. *)
Record RetryProps : Type := mkRetryProps {
  errors : list string;
  interval : Duration;
  maxAttempts : nat;
  backoffRate : Z
}.

(** The retrier that the [LambdaInvoke] construct adds to its task unless
    the stack passes [retryOnServiceExceptions: false], which it does for
    no task: the transient errors of the Lambda service are retried. *)
Definition retryOnServiceExceptions : option RetryProps :=
  Some (mkRetryProps
          ["Lambda.ClientExecutionTimeoutException"; "Lambda.ServiceException";
           "Lambda.AWSLambdaException"; "Lambda.SdkClientException"]
          (seconds 2) 6 2).

(** Whether the retrier of a task takes an answer: an error whose name
    it lists. *)
Definition retries (retry : option RetryProps) (r : WorkerResult) : bool :=
  match retry, r with
  | Some props, Raised error _ => existsb (String.eqb error) (errors props)
  | _, _ => false
  end.

(** The calls of one task.  [w n] is what call number [n] of the worker
    comes back with, the first call being number 0.  From call [n] on,
    with [retriesLeft] retries left: an answer that the retrier takes is
    followed by another call, as long as a retry is left.  The result is the
    answers that were retried, in order, and the answer the task ends
    with. *)
Fixpoint attempt (retry : option RetryProps) (w : nat -> WorkerResult)
  (retriesLeft n : nat) : list WorkerResult * WorkerResult :=
  match retriesLeft with
  | 0 => ([], w n)
  | S retriesLeft' =>
      if retries retry (w n)
      then let (again, ended) := attempt retry w retriesLeft' (S n) in
           (w n :: again, ended)
      else ([], w n)
  end.

Definition invoke (retry : option RetryProps) (w : nat -> WorkerResult)
  : list WorkerResult * WorkerResult :=
  attempt retry w
    (match retry with Some props => maxAttempts props | None => 0 end) 0.

(** The answer a task ends with. *)
Definition final (retry : option RetryProps) (w : nat -> WorkerResult)
  : WorkerResult :=
  snd (invoke retry w).

Section Machine.

(** State names. *)
Variable N : Type.

Inductive State : Type :=
| LambdaInvoke (lambdaFunction : LambdaFunction) (payload : Template)
               (outputPath : Path) (retry : option RetryProps) (next : N)
| Pass (parameters : Template) (next : N)
| Choice (whens : list (Condition.t * N)) (otherwise : option N)
| Succeed
| Fail (error cause : string).

(** One call of a worker: the task state, the request sent and what came
    back. *)
Record Invocation : Type := mkInvocation {
  stage : N;
  request : json;
  response : WorkerResult
}.

Inductive Next : Type :=
| Goto (s : N) (data : json)
| Halt (o : Outcome).

(** One state of an execution.  At a task state whose worker was called,
    [invocation] is the call whose answer the task ended with and
    [retried] the calls before it, whose errors the retrier took. *)
Record Event : Type := mkEvent {
  state : N;
  invocation : option Invocation;
  retried : list Invocation
}.

Record Run : Type := mkRun {
  trace : list Event;
  outcome : Outcome
}.

Definition visited (r : Run) : list N := map state (trace r).

Fixpoint invocations (tr : list Event) : list Invocation :=
  match tr with
  | [] => []
  | e :: tr' =>
      match invocation e with
      | Some i => i :: invocations tr'
      | None => invocations tr'
      end
  end.

(** The history has one entry per task state whose worker was called,
    with the answer the task ended with. *)
Definition history (r : Run) : list Invocation := invocations (trace r).

(** Every call of a worker, the retried ones included, in order. *)
Definition callsAt (e : Event) : list Invocation :=
  retried e ++ match invocation e with
               | Some i => [i]
               | None => []
               end.

Definition attempts (r : Run) : list Invocation :=
  flat_map callsAt (trace r).

(** What an event records of the calls of its state when no task has
    more than [k] retries: at most [k] retried calls before the one the
    task ended with, all of them calls of that one task, and none where
    no worker was called. *)
Definition recorded (k : nat) (e : Event) : Prop :=
  match invocation e with
  | Some inv =>
      List.length (retried e) <= k
      /\ forall i, In i (retried e) -> stage i = stage inv
  | None => retried e = []
  end.

(** The first rule of a Choice that matches, in order. *)
Fixpoint select (whens : list (Condition.t * N)) (input : json)
  : option (option N) :=
  match whens with
  | [] => Some None
  | (c, s) :: whens' =>
      match Condition.eval c input with
      | Some true => Some (Some s)
      | Some false => select whens' input
      | None => None
      end
  end.

(** The states of the machine and the answers of the workers: what the
    call number [n] of the worker behind a task state comes back with for
    a request, the calls of one task numbered from 0.  No state of the
    stack is entered twice, so this covers every behaviour of the workers
    within one execution. *)
Variable m : N -> State.
Variable ws : N -> json -> nat -> WorkerResult.

(** One state, as the Amazon States Language runs it.
    - [LambdaInvoke] renders its payload against the input, and fails the
      execution when a path of the payload selects nothing; it calls the
      worker, again with the same request while the retrier takes the
      error that came back and a retry is left; an error that is left
      fails the execution, for the stack declares no catcher; the task
      result replaces the input and [outputPath] selects the output from
      it.
    - [Pass] outputs its rendered parameters.
    - [Choice] hands its input unchanged to the target of the first rule
      that holds, else to the default.
    - [Succeed] and [Fail] end the execution. *)
Definition step (s : N) (input : json) : option Invocation * Next :=
  match m s with
  | LambdaInvoke _ payload outputPath retry next =>
      match render payload input with
      | None => (None, Halt (runtimeFailure "Parameters"))
      | Some p =>
          (Some (mkInvocation s p (final retry (ws s p))),
           match final retry (ws s p) with
           | Raised e c => Halt (Failed e c)
           | Returned v =>
               match lookup outputPath (invokeResult v) with
               | Some out => Goto next out
               | None => Halt (runtimeFailure "OutputPath")
               end
           end)
      end
  | Pass parameters next =>
      match render parameters input with
      | Some out => (None, Goto next out)
      | None => (None, Halt (runtimeFailure "Parameters"))
      end
  | Choice whens otherwise =>
      match select whens input with
      | None => (None, Halt (runtimeFailure "Variable"))
      | Some (Some s') => (None, Goto s' input)
      | Some None =>
          match otherwise with
          | Some s' => (None, Goto s' input)
          | None => (None, Halt (Failed States_NoChoiceMatched ""))
          end
      end
  | Succeed => (None, Halt (Succeeded input))
  | Fail error cause => (None, Halt (Failed error cause))
  end.

(** The calls that a task retried before the one that [step] reports. *)
Definition retriedAt (s : N) (input : json) : list Invocation :=
  match m s with
  | LambdaInvoke _ payload _ retry _ =>
      match render payload input with
      | Some p => map (mkInvocation s p) (fst (invoke retry (ws s p)))
      | None => []
      end
  | _ => []
  end.

(** The answer the task at a state ends with, for a request. *)
Definition answer (s : N) (p : json) : WorkerResult :=
  match m s with
  | LambdaInvoke _ _ _ retry _ => final retry (ws s p)
  | _ => ws s p 0
  end.

Fixpoint exec (fuel : nat) (s : N) (input : json) : Run :=
  match fuel with
  | 0 => mkRun [] OutOfFuel
  | S fuel' =>
      match step s input with
      | (i, Halt o) => mkRun [mkEvent s i (retriedAt s input)] o
      | (i, Goto s' d) =>
          let r := exec fuel' s' d in
          mkRun (mkEvent s i (retriedAt s input) :: trace r) (outcome r)
      end
  end.

(** The same executions as a relation: [execs s input tr o] when the
    machine entered at [s] with [input] runs through [tr] and ends in [o]. *)
Inductive execs : N -> json -> list Event -> Outcome -> Prop :=
| execs_halt s input i o :
    step s input = (i, Halt o) ->
    execs s input [mkEvent s i (retriedAt s input)] o
| execs_goto s input i s' d tr o :
    step s input = (i, Goto s' d) ->
    execs s' d tr o ->
    execs s input (mkEvent s i (retriedAt s input) :: tr) o.

(** The states a state can hand over to. *)
Definition successors (st : State) : list N :=
  match st with
  | LambdaInvoke _ _ _ _ next => [next]
  | Pass _ next => [next]
  | Choice whens otherwise =>
      map snd whens ++ match otherwise with Some s => [s] | None => [] end
  | Succeed => []
  | Fail _ _ => []
  end.

Definition isTask (st : State) : bool :=
  match st with
  | LambdaInvoke _ _ _ _ _ => true
  | _ => false
  end.

Definition isTerminal (st : State) : bool :=
  match st with
  | Succeed | Fail _ _ => true
  | _ => false
  end.

(** The shape of a trace: the states entered and, for each, whether a
    worker was called there. *)
Definition called (e : Event) : bool :=
  match invocation e with
  | Some _ => true
  | None => false
  end.

Definition shape (tr : list Event) : list (N * bool) :=
  map (fun e => (state e, called e)) tr.

(** All shapes a run from [s] can have within [fuel] steps: a run stops
    at any state (a terminal one, or a run-time failure), a task that
    hands over has called its worker, no other state calls one. *)
Fixpoint shapes (fuel : nat) (s : N) : list (list (N * bool)) :=
  match fuel with
  | 0 => []
  | S fuel' =>
      let onward := flat_map (shapes fuel') (successors (m s)) in
      if isTask (m s)
      then [(s, false)] :: [(s, true)] :: map (cons (s, true)) onward
      else [(s, false)] :: map (cons (s, false)) onward
  end.

End Machine.

Arguments LambdaInvoke {N}.
Arguments Pass {N}.
Arguments Choice {N}.
Arguments Succeed {N}.
Arguments Fail {N}.
Arguments Goto {N}.
Arguments Halt {N}.
Arguments mkInvocation {N}.
Arguments stage {N}.
Arguments request {N}.
Arguments response {N}.
Arguments mkEvent {N}.
Arguments state {N}.
Arguments invocation {N}.
Arguments retried {N}.
Arguments callsAt {N}.
Arguments attempts {N}.
Arguments recorded {N}.
Arguments retriedAt {N}.
Arguments answer {N}.
Arguments mkRun {N}.
Arguments trace {N}.
Arguments outcome {N}.
Arguments visited {N}.
Arguments invocations {N}.
Arguments history {N}.
Arguments select {N}.
Arguments step {N}.
Arguments exec {N}.
Arguments execs {N}.
Arguments successors {N}.
Arguments isTask {N}.
Arguments isTerminal {N}.
Arguments called {N}.
Arguments shape {N}.
Arguments shapes {N}.

Record StateMachineProps (N : Type) : Type := mkStateMachine {
  startState : N;
  states : N -> State N;
  timeout : Duration;
  tracingEnabled : bool
}.

Arguments mkStateMachine {N}.
Arguments startState {N}.
Arguments states {N}.
Arguments timeout {N}.
Arguments tracingEnabled {N}.

End ASL.

(* ================================================================== *)
(** * The stack's state machine *)
(* ================================================================== *)

Module Stack.
Import ASL.

(** The construct ids of the states, in the order the stack creates them. *)
Inductive StateName : Type :=
| ProcessDocumentWithTextract
| StoreTextractResult
| ExtractProcessedKeyLarge
| ExtractProcessedKey
| ExtractAndStoreMetadata
| GenerateImageDescriptionsLarge
| GenerateImageDescriptionsNormal
| StoreMetadataResult
| RetrievePayload
| ExtractMetadataForBedrockLarge
| ExtractMetadataForBedrock
| AddToBedrockKnowledgeBase
| ProcessingSucceeded
| ProcessingFailed
| CheckTextractProcessing
| CheckTextractPayloadSize
| CheckMetadataExtraction
| CheckMetadataPayloadSize
| MapImageDescriptionFieldsLarge
| MapImageDescriptionFieldsNormal
| CheckBedrockIntegration.

Scheme Equality for StateName.

Section Definition_.

(** [this.processedBucket.bucketName], known at deployment only. *)
Variable processedBucket_bucketName : string.

Definition textractTask :=
  LambdaInvoke (N:=StateName) textractProcessorLambda (At []) ["Payload"]
    retryOnServiceExceptions.

Definition storeTextractResultTask :=
  LambdaInvoke (N:=StateName) payloadUtilsLambda
    (Obj [("operation", Lit (JStr "store")); ("payload", At [])])
    ["Payload"] retryOnServiceExceptions.

Definition extractProcessedKeyLargeState :=
  Pass (N:=StateName)
    (Obj [("processed_bucket", Lit (JStr processedBucket_bucketName));
          ("processed_key", At ["payload_reference"; "key"]);
          ("original_status_code", At ["original_status_code"])]).

Definition extractProcessedKeyState :=
  Pass (N:=StateName)
    (Obj [("processed_bucket", Lit (JStr processedBucket_bucketName));
          ("processed_key", Lit (JStr "dummy-key"));
          ("original_status_code", At ["statusCode"])]).

Definition metadataTask :=
  LambdaInvoke (N:=StateName) metadataExtractorLambda
    (Obj [("processed_bucket", At ["processed_bucket"]);
          ("processed_key", At ["processed_key"])])
    ["Payload"] retryOnServiceExceptions.

Definition createImageDescriptionTask :=
  LambdaInvoke (N:=StateName) imageDescriptionGeneratorLambda
    (Obj [("document_id", At ["metadata"; "document_id"]);
          ("metadata_id", At ["metadata"; "id"])])
    ["Payload"] retryOnServiceExceptions.

Definition storeMetadataResultTask :=
  LambdaInvoke (N:=StateName) payloadUtilsLambda
    (Obj [("operation", Lit (JStr "store")); ("payload", At [])])
    ["Payload"] retryOnServiceExceptions.

Definition retrievePayloadTask :=
  LambdaInvoke (N:=StateName) retrievePayloadLambda (At []) ["Payload"]
    retryOnServiceExceptions.

Definition extractMetadataForBedrockLargeState :=
  Pass (N:=StateName)
    (Obj [("processed_bucket", At ["processed_bucket"]);
          ("processed_key", At ["processed_key"]);
          ("document_id", At ["document_id"]);
          ("metadata", Obj [("document_id", At ["document_id"]);
                            ("id", At ["metadata_id"])])]).

Definition extractMetadataForBedrockState :=
  Pass (N:=StateName)
    (Obj [("processed_bucket", At ["metadata"; "processed_bucket"]);
          ("processed_key", At ["metadata"; "processed_key"]);
          ("document_id", At ["metadata"; "document_id"])]).

Definition mapImageDescriptionFields :=
  Pass (N:=StateName)
    (Obj [("processed_bucket", At ["processed_bucket"]);
          ("processed_key", At ["processed_key"]);
          ("document_id", At ["document_id"]);
          ("statusCode", At ["statusCode"]);
          ("operation", Lit (JStr "add_document_to_knowledge_base"))]).

(** No payload and no output path: the whole input goes in, the whole
    task result, with its [Payload] field, comes out. *)
Definition bedrockTask :=
  LambdaInvoke (N:=StateName) bedrockKnowledgeBaseLambda (At []) []
    retryOnServiceExceptions.

Definition successState : State StateName := Succeed.

Definition failureState : State StateName :=
  Fail "DocumentProcessingError" "Document processing failed".

(** The chain [definition]: every state with the transitions that [next],
    [when], [otherwise] and [afterwards] give it. *)
Definition definition (s : StateName) : State StateName :=
  match s with
  | ProcessDocumentWithTextract => textractTask CheckTextractProcessing
  | CheckTextractProcessing =>
      Choice [(Condition.numberEquals ["statusCode"] 200,
               CheckTextractPayloadSize)]
             (Some ProcessingFailed)
  | CheckTextractPayloadSize =>
      Choice [(Condition.and [Condition.isPresent ["body"];
                              Condition.stringGreaterThan ["body"] "204800"],
               StoreTextractResult)]
             (Some ExtractProcessedKey)
  | StoreTextractResult => storeTextractResultTask ExtractProcessedKeyLarge
  | ExtractProcessedKeyLarge =>
      extractProcessedKeyLargeState ExtractAndStoreMetadata
  | ExtractProcessedKey => extractProcessedKeyState ExtractAndStoreMetadata
  | ExtractAndStoreMetadata => metadataTask CheckMetadataExtraction
  | CheckMetadataExtraction =>
      Choice [(Condition.numberEquals ["statusCode"] 200,
               CheckMetadataPayloadSize)]
             (Some ProcessingFailed)
  | CheckMetadataPayloadSize =>
      Choice [(Condition.and [Condition.isPresent ["body"];
                              Condition.stringGreaterThan ["body"] "204800"],
               StoreMetadataResult)]
             (Some ExtractMetadataForBedrock)
  | StoreMetadataResult => storeMetadataResultTask RetrievePayload
  | RetrievePayload => retrievePayloadTask ExtractMetadataForBedrockLarge
  | ExtractMetadataForBedrockLarge =>
      extractMetadataForBedrockLargeState GenerateImageDescriptionsLarge
  | GenerateImageDescriptionsLarge =>
      createImageDescriptionTask MapImageDescriptionFieldsLarge
  | MapImageDescriptionFieldsLarge =>
      mapImageDescriptionFields AddToBedrockKnowledgeBase
  | ExtractMetadataForBedrock =>
      extractMetadataForBedrockState GenerateImageDescriptionsNormal
  | GenerateImageDescriptionsNormal =>
      createImageDescriptionTask MapImageDescriptionFieldsNormal
  | MapImageDescriptionFieldsNormal =>
      mapImageDescriptionFields AddToBedrockKnowledgeBase
  | AddToBedrockKnowledgeBase => bedrockTask CheckBedrockIntegration
  | CheckBedrockIntegration =>
      Choice [(Condition.numberEquals ["Payload"; "statusCode"] 200,
               ProcessingSucceeded)]
             (Some ProcessingFailed)
  | ProcessingSucceeded => successState
  | ProcessingFailed => failureState
  end.

Definition documentProcessingStateMachine : StateMachineProps StateName :=
  mkStateMachine ProcessDocumentWithTextract definition (minutes 30) true.

(** An execution: the machine run from its start state on the trigger's
    input.  One step of fuel per declared state is more than any path
    needs. *)
Definition fuel : nat := 21.

Definition run (ws : StateName -> json -> nat -> WorkerResult) (input : json)
  : Run StateName :=
  exec (states documentProcessingStateMachine) ws fuel
       (startState documentProcessingStateMachine) input.

End Definition_.

(** The four stage workers of the pipeline; the payload store's tasks,
    the passes and the choices are not stages. *)
Inductive StageRole : Type :=
| Extractor
| MetadataExtractor
| Captioner
| Ingestor.

Definition role (fn : LambdaFunction) : option StageRole :=
  match fn with
  | textractProcessorLambda => Some Extractor
  | metadataExtractorLambda => Some MetadataExtractor
  | imageDescriptionGeneratorLambda => Some Captioner
  | bedrockKnowledgeBaseLambda => Some Ingestor
  | payloadUtilsLambda | retrievePayloadLambda => None
  end.

(** A height of every state above the terminal ones; every transition
    goes down. *)
Definition rank (s : StateName) : nat :=
  match s with
  | ProcessingSucceeded | ProcessingFailed => 0
  | CheckBedrockIntegration => 1
  | AddToBedrockKnowledgeBase => 2
  | MapImageDescriptionFieldsLarge | MapImageDescriptionFieldsNormal => 3
  | GenerateImageDescriptionsLarge | GenerateImageDescriptionsNormal => 4
  | ExtractMetadataForBedrockLarge | ExtractMetadataForBedrock => 5
  | RetrievePayload => 6
  | StoreMetadataResult => 7
  | CheckMetadataPayloadSize => 8
  | CheckMetadataExtraction => 9
  | ExtractAndStoreMetadata => 10
  | ExtractProcessedKeyLarge | ExtractProcessedKey => 11
  | StoreTextractResult => 12
  | CheckTextractPayloadSize => 13
  | CheckTextractProcessing => 14
  | ProcessDocumentWithTextract => 15
  end.

End Stack.

(* ================================================================== *)
(** * The earlier revision of the stack, without image descriptions *)
(* ================================================================== *)

Module StackV0.
Import ASL.

Inductive StateName : Type :=
| ProcessDocumentWithTextract
| StoreTextractResult
| ExtractProcessedKeyLarge
| ExtractProcessedKey
| ExtractAndStoreMetadata
| StoreMetadataResult
| ExtractMetadataForBedrockLarge
| ExtractMetadataForBedrock
| AddToBedrockKnowledgeBase
| ProcessingSucceeded
| ProcessingFailed
| CheckTextractProcessing
| CheckTextractPayloadSize
| CheckMetadataExtraction
| CheckMetadataPayloadSize
| CheckBedrockIntegration.

Scheme Equality for StateName.

Section Definition_.

Variable processedBucket_bucketName : string.

Definition textractTask :=
  LambdaInvoke (N:=StateName) textractProcessorLambda (At []) ["Payload"]
    retryOnServiceExceptions.

Definition storeTextractResultTask :=
  LambdaInvoke (N:=StateName) payloadUtilsLambda
    (Obj [("operation", Lit (JStr "store")); ("payload", At [])])
    ["Payload"] retryOnServiceExceptions.

Definition extractProcessedKeyLargeState :=
  Pass (N:=StateName)
    (Obj [("processed_bucket", Lit (JStr processedBucket_bucketName));
          ("processed_key", At ["payload_reference"; "key"]);
          ("original_status_code", At ["original_status_code"])]).

Definition extractProcessedKeyState :=
  Pass (N:=StateName)
    (Obj [("processed_bucket", Lit (JStr processedBucket_bucketName));
          ("processed_key", Lit (JStr "dummy-key"));
          ("original_status_code", At ["statusCode"])]).

Definition metadataTask :=
  LambdaInvoke (N:=StateName) metadataExtractorLambda
    (Obj [("processed_bucket", At ["processed_bucket"]);
          ("processed_key", At ["processed_key"])])
    ["Payload"] retryOnServiceExceptions.

Definition storeMetadataResultTask :=
  LambdaInvoke (N:=StateName) payloadUtilsLambda
    (Obj [("operation", Lit (JStr "store")); ("payload", At [])])
    ["Payload"] retryOnServiceExceptions.

Definition extractMetadataForBedrockLargeState :=
  Pass (N:=StateName)
    (Obj [("processed_bucket", At ["processed_bucket"]);
          ("processed_key", At ["payload_reference"; "key"]);
          ("document_id", At ["metadata"; "document_id"])]).

Definition extractMetadataForBedrockState :=
  Pass (N:=StateName)
    (Obj [("processed_bucket", At ["metadata"; "processed_bucket"]);
          ("processed_key", At ["metadata"; "processed_key"]);
          ("document_id", At ["metadata"; "document_id"])]).

Definition bedrockTask :=
  LambdaInvoke (N:=StateName) bedrockKnowledgeBaseLambda
    (Obj [("operation", Lit (JStr "add_document_to_knowledge_base"));
          ("processed_bucket", At ["processed_bucket"]);
          ("processed_key", At ["processed_key"]);
          ("document_id", At ["document_id"])])
    ["Payload"] retryOnServiceExceptions.

Definition successState : State StateName := Succeed.

Definition failureState : State StateName :=
  Fail "DocumentProcessingError" "Document processing failed".

Definition definition (s : StateName) : State StateName :=
  match s with
  | ProcessDocumentWithTextract => textractTask CheckTextractProcessing
  | CheckTextractProcessing =>
      Choice [(Condition.numberEquals ["statusCode"] 200,
               CheckTextractPayloadSize)]
             (Some ProcessingFailed)
  | CheckTextractPayloadSize =>
      Choice [(Condition.and [Condition.isPresent ["body"];
                              Condition.stringGreaterThan ["body"] "204800"],
               StoreTextractResult)]
             (Some ExtractProcessedKey)
  | StoreTextractResult => storeTextractResultTask ExtractProcessedKeyLarge
  | ExtractProcessedKeyLarge =>
      extractProcessedKeyLargeState ExtractAndStoreMetadata
  | ExtractProcessedKey => extractProcessedKeyState ExtractAndStoreMetadata
  | ExtractAndStoreMetadata => metadataTask CheckMetadataExtraction
  | CheckMetadataExtraction =>
      Choice [(Condition.numberEquals ["statusCode"] 200,
               CheckMetadataPayloadSize)]
             (Some ProcessingFailed)
  | CheckMetadataPayloadSize =>
      Choice [(Condition.and [Condition.isPresent ["body"];
                              Condition.stringGreaterThan ["body"] "204800"],
               StoreMetadataResult)]
             (Some ExtractMetadataForBedrock)
  | StoreMetadataResult =>
      storeMetadataResultTask ExtractMetadataForBedrockLarge
  | ExtractMetadataForBedrockLarge =>
      extractMetadataForBedrockLargeState AddToBedrockKnowledgeBase
  | ExtractMetadataForBedrock =>
      extractMetadataForBedrockState AddToBedrockKnowledgeBase
  | AddToBedrockKnowledgeBase => bedrockTask CheckBedrockIntegration
  | CheckBedrockIntegration =>
      Choice [(Condition.numberEquals ["statusCode"] 200,
               ProcessingSucceeded)]
             (Some ProcessingFailed)
  | ProcessingSucceeded => successState
  | ProcessingFailed => failureState
  end.

Definition documentProcessingStateMachine : StateMachineProps StateName :=
  mkStateMachine ProcessDocumentWithTextract definition (minutes 30) true.

Definition fuel : nat := 16.

Definition run (ws : StateName -> json -> nat -> WorkerResult) (input : json)
  : Run StateName :=
  exec (states documentProcessingStateMachine) ws fuel
       (startState documentProcessingStateMachine) input.

End Definition_.

Definition rank (s : StateName) : nat :=
  match s with
  | ProcessingSucceeded | ProcessingFailed => 0
  | CheckBedrockIntegration => 1
  | AddToBedrockKnowledgeBase => 2
  | ExtractMetadataForBedrockLarge | ExtractMetadataForBedrock => 3
  | StoreMetadataResult => 4
  | CheckMetadataPayloadSize => 5
  | CheckMetadataExtraction => 6
  | ExtractAndStoreMetadata => 7
  | ExtractProcessedKeyLarge | ExtractProcessedKey => 8
  | StoreTextractResult => 9
  | CheckTextractPayloadSize => 10
  | CheckTextractProcessing => 11
  | ProcessDocumentWithTextract => 12
  end.

Definition mem (s : StateName) (l : list StateName) : bool :=
  existsb (StateName_beq s) l.

Definition calls (sh : list (StateName * bool)) : nat :=
  List.length (filter snd sh).

(** The bounds on the history in this revision: 3 entries on the
    all-inline path and 5 with both outputs externalized, once the check
    of the ingestor is reached; never more. *)
Definition historyBound (sh : list (StateName * bool)) : bool :=
  let l := map fst sh in
  let inline := mem ExtractProcessedKey l && mem ExtractMetadataForBedrock l in
  let large := mem StoreTextractResult l && mem StoreMetadataResult l in
  implb inline (Nat.leb (calls sh) 3)
  && implb (inline && mem CheckBedrockIntegration l) (Nat.eqb (calls sh) 3)
  && implb (large && mem CheckBedrockIntegration l) (Nat.eqb (calls sh) 5)
  && Nat.leb (calls sh) 5.

(** Small outputs, every stage answering 200. *)
Definition wsInline (s : StateName) (req : json) (attempt : nat)
  : WorkerResult :=
  match s with
  | ProcessDocumentWithTextract =>
      Returned (JObj [("statusCode", JNum 200); ("body", JStr "1")])
  | ExtractAndStoreMetadata =>
      Returned
        (JObj [("statusCode", JNum 200);
               ("metadata", JObj [("processed_bucket", JStr "processed");
                                  ("processed_key", JStr "doc.json");
                                  ("document_id", JStr "doc-1")])])
  | AddToBedrockKnowledgeBase => Returned (JObj [("statusCode", JNum 200)])
  | _ => Raised "Lambda.Unknown" "no worker behind this state"
  end.

End StackV0.

(* ================================================================== *)
(** * Vocabulary of the statements *)
(* ================================================================== *)

Module Props.
Import ASL Stack.

(** The branch a size decision hands over to. *)
Inductive Branch : Type := Inline | Externalize.

(** The size guard as the specification words it: externalize exactly
    when the serialized payload has more characters than the threshold. *)
Definition threshold : Z := 204800.

Definition sizeGuard_spec (serialized : string) : Branch :=
  if Z.ltb threshold (Z.of_nat (String.length serialized))
  then Externalize else Inline.

(** The size guard as [CheckTextractPayloadSize] and
    [CheckMetadataPayloadSize] have it: the rule of the Choice. *)
Definition sizeGuard (output : json) : option Branch :=
  match
    Condition.eval
      (Condition.and [Condition.isPresent ["body"];
                      Condition.stringGreaterThan ["body"] "204800"])
      output
  with
  | Some true => Some Externalize
  | Some false => Some Inline
  | None => None
  end.

(** The request a task state sends to its worker on a given input. *)
Definition requestAt (b : string)
  (ws : StateName -> json -> nat -> WorkerResult)
  (s : StateName) (input : json) : option json :=
  match fst (step (definition b) ws s input) with
  | Some i => Some (request i)
  | None => None
  end.

Definition allStates : list StateName :=
  [ProcessDocumentWithTextract; StoreTextractResult; ExtractProcessedKeyLarge;
   ExtractProcessedKey; ExtractAndStoreMetadata;
   GenerateImageDescriptionsLarge; GenerateImageDescriptionsNormal;
   StoreMetadataResult; RetrievePayload; ExtractMetadataForBedrockLarge;
   ExtractMetadataForBedrock; AddToBedrockKnowledgeBase; ProcessingSucceeded;
   ProcessingFailed; CheckTextractProcessing; CheckTextractPayloadSize;
   CheckMetadataExtraction; CheckMetadataPayloadSize;
   MapImageDescriptionFieldsLarge; MapImageDescriptionFieldsNormal;
   CheckBedrockIntegration].

Definition terminalStates (b : string) : list StateName :=
  filter (fun s => isTerminal (definition b s)) allStates.

(** The stages whose status code a Choice examines, each with that Choice. *)
Definition statusCheck (s : StateName) : option StateName :=
  match s with
  | ProcessDocumentWithTextract => Some CheckTextractProcessing
  | ExtractAndStoreMetadata => Some CheckMetadataExtraction
  | AddToBedrockKnowledgeBase => Some CheckBedrockIntegration
  | _ => None
  end.

(** The cause the specification expects of a failed stage. *)
Definition namesStage (cause : string) : Prop :=
  exists name,
    cause = ("stage " ++ name ++ " returned non-success status")%string.

Definition mem (s : StateName) (l : list StateName) : bool :=
  existsb (StateName_beq s) l.

Definition states_of (sh : list (StateName * bool)) : list StateName :=
  map fst sh.

Definition calls (sh : list (StateName * bool)) : nat :=
  List.length (filter snd sh).

Definition allInline (l : list StateName) : bool :=
  mem ExtractProcessedKey l && mem ExtractMetadataForBedrock l.

Definition bothExternalized (l : list StateName) : bool :=
  mem StoreTextractResult l && mem StoreMetadataResult l.

(** What the history of a run may look like, on each of the two
    branch combinations. *)
Definition historyBound (sh : list (StateName * bool)) : bool :=
  let l := states_of sh in
  implb (allInline l) (Nat.leb (calls sh) 4)
  && implb (bothExternalized l) (Nat.leb (calls sh) 7)
  && implb (bothExternalized l && mem CheckBedrockIntegration l)
           (Nat.eqb (calls sh) 7)
  && Nat.leb (calls sh) 7.

(** Worker answers used as concrete executions. *)
Definition ok200 (body : string) : json :=
  JObj [("statusCode", JNum 200); ("body", JStr body)].

Definition described (code : Z) : json :=
  JObj [("statusCode", JNum code); ("processed_bucket", JStr "processed");
        ("processed_key", JStr "doc.json"); ("document_id", JStr "doc-1")].

(** Both outputs externalized; the captioner answers [code]. *)
Definition wsExternalized (code : Z) (s : StateName) (req : json)
  (attempt : nat) : WorkerResult :=
  match s with
  | ProcessDocumentWithTextract => Returned (ok200 "{}")
  | StoreTextractResult =>
      Returned (JObj [("payload_reference", JObj [("key", JStr "payloads/1")]);
                      ("original_status_code", JNum 200)])
  | ExtractAndStoreMetadata => Returned (ok200 "{}")
  | StoreMetadataResult =>
      Returned (JObj [("payload_reference", JObj [("key", JStr "payloads/2")])])
  | RetrievePayload =>
      Returned (JObj [("processed_bucket", JStr "processed");
                      ("processed_key", JStr "doc.json");
                      ("document_id", JStr "doc-1");
                      ("metadata_id", JStr "meta-1")])
  | GenerateImageDescriptionsLarge => Returned (described code)
  | GenerateImageDescriptionsNormal => Returned (described code)
  | AddToBedrockKnowledgeBase => Returned (JObj [("statusCode", JNum 200)])
  | _ => Raised "Lambda.Unknown" "no worker behind this state"
  end.

(** Both outputs small and complete: the all-inline path. *)
Definition metadata200 : json :=
  JObj [("statusCode", JNum 200);
        ("metadata", JObj [("processed_bucket", JStr "processed");
                           ("processed_key", JStr "doc.json");
                           ("document_id", JStr "doc-1");
                           ("id", JStr "meta-1")])].

Definition wsInline (s : StateName) (req : json) (attempt : nat)
  : WorkerResult :=
  match s with
  | ProcessDocumentWithTextract => Returned (ok200 "1")
  | ExtractAndStoreMetadata => Returned metadata200
  | GenerateImageDescriptionsLarge => Returned (described 200)
  | GenerateImageDescriptionsNormal => Returned (described 200)
  | AddToBedrockKnowledgeBase => Returned (JObj [("statusCode", JNum 200)])
  | _ => Raised "Lambda.Unknown" "no worker behind this state"
  end.

(** The extractor, or the metadata extractor, answers 500. *)
Definition status500 : json := JObj [("statusCode", JNum 500)].

Definition wsExtractorFails (s : StateName) (req : json) (attempt : nat)
  : WorkerResult :=
  match s with
  | ProcessDocumentWithTextract => Returned status500
  | _ => wsInline s req attempt
  end.

Definition wsMetadataFails (s : StateName) (req : json) (attempt : nat)
  : WorkerResult :=
  match s with
  | ExtractAndStoreMetadata => Returned status500
  | _ => wsInline s req attempt
  end.

(** The outcome of the one [Fail] state. *)
Definition failed : Outcome :=
  Failed "DocumentProcessingError" "Document processing failed".

(** The step of a status check: 200 goes on, everything else goes to
    [ProcessingFailed], a missing status is a run-time failure. *)
Definition statusChoice (p : Path) (yes : StateName) (input : json)
  : option (Invocation StateName) * Next StateName :=
  (None,
   match Condition.eval (Condition.numberEquals p 200) input with
   | Some true => Goto yes input
   | Some false => Goto ProcessingFailed input
   | None => Halt (runtimeFailure "Variable")
   end).

(** The step of a size decision, by the rule [sizeGuard]. *)
Definition sizeChoice (large small : StateName) (input : json)
  : option (Invocation StateName) * Next StateName :=
  (None,
   match sizeGuard input with
   | Some Externalize => Goto large input
   | Some Inline => Goto small input
   | None => Halt (runtimeFailure "Variable")
   end).

(** The stage role of the worker behind a state, if it has one. *)
Definition workerRole (b : string) (s : StateName) : option StageRole :=
  match definition b s with
  | LambdaInvoke fn _ _ _ _ => role fn
  | _ => None
  end.

(** The extractor answers 200 without a body. *)
Definition status200 : json := JObj [("statusCode", JNum 200)].


(** The first stage worker that a state leads to, through passes and the
    tasks of the payload store. *)
Fixpoint nextStage (b : string) (fuel : nat) (s : StateName)
  : option (StateName * StageRole) :=
  match fuel with
  | 0 => None
  | S fuel' =>
      match definition b s with
      | LambdaInvoke fn _ _ _ next =>
          match role fn with
          | Some r => Some (s, r)
          | None => nextStage b fuel' next
          end
      | Pass _ next => nextStage b fuel' next
      | _ => None
      end
  end.









(** A body of [n] characters, all of them [c]; one of 204801 digits 1,
    a character more than the threshold, and one of 204800 digits 9,
    exactly the threshold. *)
Fixpoint chars (c : ascii) (n : nat) : string :=
  match n with
  | 0 => EmptyString
  | S n' => String c (chars c n')
  end.

Definition longBody : string := chars "1" (N.to_nat 204801).

Definition boundaryBody : string := chars "9" (N.to_nat 204800).

End Props.

(* ================================================================== *)
(** * Data flow, workers and budgets of the stack's machine *)
(* ================================================================== *)

Module Flow.
Import ASL Stack Props.

(** The Lambda function behind a task state. *)
Definition lambdaAt (b : string) (s : StateName) : option LambdaFunction :=
  match definition b s with
  | LambdaInvoke fn _ _ _ _ => Some fn
  | _ => None
  end.

Definition LambdaFunction_eqb (f g : LambdaFunction) : bool :=
  match f, g with
  | textractProcessorLambda, textractProcessorLambda
  | metadataExtractorLambda, metadataExtractorLambda
  | imageDescriptionGeneratorLambda, imageDescriptionGeneratorLambda
  | bedrockKnowledgeBaseLambda, bedrockKnowledgeBaseLambda
  | payloadUtilsLambda, payloadUtilsLambda
  | retrievePayloadLambda, retrievePayloadLambda => true
  | _, _ => false
  end.

(** The [timeout] of each [lambda.Function] of the stack. *)
Definition lambdaTimeout (fn : LambdaFunction) : Duration :=
  match fn with
  | textractProcessorLambda => minutes 15
  | metadataExtractorLambda => minutes 10
  | imageDescriptionGeneratorLambda => minutes 15
  | bedrockKnowledgeBaseLambda => minutes 10
  | payloadUtilsLambda => minutes 2
  | retrievePayloadLambda => minutes 2
  end.

(** How often a Lambda function is behind the states of a list. *)
Definition callsOf (b : string) (fn : LambdaFunction) (l : list StateName)
  : nat :=
  List.length
    (filter (fun s => match lambdaAt b s with
                      | Some g => LambdaFunction_eqb fn g
                      | None => false
                      end) l).

(** The time the workers behind the states of a list may take within
    their own timeouts. *)
Fixpoint workerBudget (b : string) (l : list StateName) : Duration :=
  match l with
  | [] => 0%Z
  | s :: l' =>
      (match lambdaAt b s with
       | Some fn => lambdaTimeout fn
       | None => 0
       end + workerBudget b l')%Z
  end.

(** The states of a shape at which a worker was called. *)
Definition calledStates (sh : list (StateName * bool)) : list StateName :=
  map fst (filter snd sh).

Definition callLimit (fn : LambdaFunction) : nat :=
  match fn with
  | payloadUtilsLambda => 2
  | _ => 1
  end.

Definition allLambdas : list LambdaFunction :=
  [textractProcessorLambda; metadataExtractorLambda;
   imageDescriptionGeneratorLambda; bedrockKnowledgeBaseLambda;
   payloadUtilsLambda; retrievePayloadLambda].

Definition withinCallLimits (b : string) (sh : list (StateName * bool))
  : bool :=
  forallb (fun fn => Nat.leb (callsOf b fn (calledStates sh)) (callLimit fn))
          allLambdas.

Definition withinBudgets (b : string) (sh : list (StateName * bool)) : bool :=
  Z.leb (workerBudget b (calledStates sh)) (minutes 56)
  && implb (mem AddToBedrockKnowledgeBase (calledStates sh))
           (Z.leb (minutes 50) (workerBudget b (calledStates sh))).

(** The two paths that end in [ProcessingSucceeded] through the
    externalized metadata branch. *)
Definition metadataTail : list StateName :=
  [ExtractAndStoreMetadata; CheckMetadataExtraction;
   CheckMetadataPayloadSize; StoreMetadataResult; RetrievePayload;
   ExtractMetadataForBedrockLarge; GenerateImageDescriptionsLarge;
   MapImageDescriptionFieldsLarge; AddToBedrockKnowledgeBase;
   CheckBedrockIntegration; ProcessingSucceeded].

Definition successPathInline : list StateName :=
  [ProcessDocumentWithTextract; CheckTextractProcessing;
   CheckTextractPayloadSize; ExtractProcessedKey] ++ metadataTail.

Definition successPathExternalized : list StateName :=
  [ProcessDocumentWithTextract; CheckTextractProcessing;
   CheckTextractPayloadSize; StoreTextractResult; ExtractProcessedKeyLarge]
  ++ metadataTail.

Definition sameStates (l l' : list StateName) : bool :=
  if list_eq_dec StateName_eq_dec l l' then true else false.

Definition endsIn (s : StateName) (l : list StateName) : bool :=
  match rev l with
  | x :: _ => StateName_beq s x
  | [] => false
  end.

(** A shape that ends in [ProcessingSucceeded] without the inline branch
    of the metadata decision is one of the two paths. *)
Definition successShape (sh : list (StateName * bool)) : bool :=
  let l := states_of sh in
  implb (endsIn ProcessingSucceeded l && negb (mem ExtractMetadataForBedrock l))
        (sameStates l successPathInline
         || sameStates l successPathExternalized).

(** The extractor answers without a status code. *)
Definition wsNoStatus (s : StateName) (req : json) (attempt : nat)
  : WorkerResult :=
  match s with
  | ProcessDocumentWithTextract => Returned (JObj [("body", JStr "text")])
  | _ => wsInline s req attempt
  end.


(** What the input of each state looks like in every execution. *)
Definition oversized (output : json) : Prop :=
  lookup ["statusCode"] output = Some (JNum 200)
  /\ exists body,
       lookup ["body"] output = Some (JStr body)
       /\ Condition.string_gtb body "204800" = true.

Definition inputAt (b : string) (s : StateName) (input : json) : Prop :=
  match s with
  | CheckTextractPayloadSize | CheckMetadataPayloadSize =>
      lookup ["statusCode"] input = Some (JNum 200)
  | StoreTextractResult | StoreMetadataResult => oversized input
  | ExtractProcessedKey | ExtractMetadataForBedrock =>
      lookup ["statusCode"] input = Some (JNum 200)
      /\ sizeGuard input = Some Inline
  | ExtractAndStoreMetadata =>
      exists key code,
        input = JObj [("processed_bucket", JStr b); ("processed_key", key);
                      ("original_status_code", code)]
  | GenerateImageDescriptionsLarge =>
      exists bucket key doc id,
        input = JObj [("processed_bucket", bucket); ("processed_key", key);
                      ("document_id", doc);
                      ("metadata", JObj [("document_id", doc); ("id", id)])]
  | GenerateImageDescriptionsNormal =>
      exists bucket key doc,
        input = JObj [("processed_bucket", bucket); ("processed_key", key);
                      ("document_id", doc)]
  | AddToBedrockKnowledgeBase =>
      exists bucket key doc code,
        input = JObj [("processed_bucket", bucket); ("processed_key", key);
                      ("document_id", doc); ("statusCode", code);
                      ("operation", JStr "add_document_to_knowledge_base")]
  | CheckBedrockIntegration => exists v, input = invokeResult v
  | ProcessingSucceeded =>
      exists v,
        input = invokeResult v /\ lookup ["statusCode"] v = Some (JNum 200)
  | _ => True
  end.

End Flow.

(* ================================================================== *)
(** * The inline Python handlers *)
(* ================================================================== *)

(** The two Lambda functions whose code the stacks carry inline work on
    the JSON values of their events.  What they need of Python is here:
    exceptions, subscripts, [dict.get], iteration and [str.split]. *)
Module Py.
Import ASL.

(** Exceptions with the text that [str] gives them.  [KeyError] carries
    the [repr] of the key. *)
Inductive Exn : Type :=
| KeyError (key : string)
| IndexError (message : string)
| TypeError (message : string)
| AttributeError (message : string)
| ClientError (message : string).

Definition str (e : Exn) : string :=
  match e with
  | KeyError key => key
  | IndexError m | TypeError m | AttributeError m | ClientError m => m
  end.

Inductive Result (A : Type) : Type :=
| Ok (a : A)
| Raise (e : Exn).

Arguments Ok {A}.
Arguments Raise {A}.

Definition bind {A B : Type} (r : Result A) (k : A -> Result B) : Result B :=
  match r with
  | Ok a => k a
  | Raise e => Raise e
  end.

(** [repr] of a key that is a plain word. *)
Definition repr (key : string) : string := ("'" ++ key ++ "'")%string.

Definition type_name (v : json) : string :=
  match v with
  | JNull => "NoneType"
  | JBool _ => "bool"
  | JNum _ => "int"
  | JStr _ => "str"
  | JArr _ => "list"
  | JObj _ => "dict"
  end.

(** A dict read from JSON keeps the last binding of a key. *)
Definition dict_get (fs : list (string * json)) (key : string)
  : option json :=
  field key (rev fs).

(** [v[key]] for a string key. *)
Definition getitem (v : json) (key : string) : Result json :=
  match v with
  | JObj fs =>
      match dict_get fs key with
      | Some x => Ok x
      | None => Raise (KeyError (repr key))
      end
  | JArr _ =>
      Raise (TypeError "list indices must be integers or slices, not str")
  | JStr _ => Raise (TypeError "string indices must be integers")
  | other =>
      Raise (TypeError
               ("'" ++ type_name other ++ "' object is not subscriptable"))
  end.

(** The first character of a string: its first byte and the continuation
    bytes that follow it. *)
Fixpoint continuation (s : string) : string :=
  match s with
  | EmptyString => EmptyString
  | String c s' =>
      if (Nat.leb 128 (nat_of_ascii c) && Nat.ltb (nat_of_ascii c) 192)%bool
      then String c (continuation s')
      else EmptyString
  end.

(** [v[0]]. *)
Definition getitem0 (v : json) : Result json :=
  match v with
  | JArr (x :: _) => Ok x
  | JArr [] => Raise (IndexError "list index out of range")
  | JStr (String c s) => Ok (JStr (String c (continuation s)))
  | JStr EmptyString => Raise (IndexError "string index out of range")
  | JObj _ => Raise (KeyError "0")
  | other =>
      Raise (TypeError
               ("'" ++ type_name other ++ "' object is not subscriptable"))
  end.

(** [v.get(key)], which only a dict has. *)
Definition get (v : json) (key : string) : Result (option json) :=
  match v with
  | JObj fs => Ok (dict_get fs key)
  | other =>
      Raise (AttributeError
               ("'" ++ type_name other
                ++ "' object has no attribute 'get'"))
  end.

(** The elements that [for x in v] runs through: the items of a list, the
    keys of a dict, the characters of a string (taken bytewise here: the
    handlers do with a character nothing that tells them apart). *)
Definition iterate (v : json) : Result (list json) :=
  match v with
  | JArr items => Ok items
  | JObj fs => Ok (map (fun kv => JStr (fst kv)) fs)
  | JStr s => Ok (map (fun c => JStr (String c EmptyString))
                      (list_ascii_of_string s))
  | other =>
      Raise (TypeError ("'" ++ type_name other ++ "' object is not iterable"))
  end.

(** [s.split(sep)] for a separator of one character. *)
Fixpoint split (sep : ascii) (s : string) : list string :=
  match s with
  | EmptyString => [EmptyString]
  | String c s' =>
      if Ascii.eqb c sep
      then EmptyString :: split sep s'
      else match split sep s' with
           | first :: others => String c first :: others
           | [] => [String c EmptyString]
           end
  end.

(** [json.dumps] of a string that needs no escaping. *)
Definition dumps_plain (s : string) : string :=
  (String (ascii_of_nat 34) s ++ String (ascii_of_nat 34) EmptyString)%string.

End Py.

(** The handler of [StateMachineTriggerFunction], inline in the earlier
    revision of the stack. *)
Module Trigger.
Import ASL Py.

Section Handler.

(** [urllib.parse.unquote_plus] on a [str], the function's environment
    variable, whether [boto3.client] raises, and what [start_execution]
    of the client does with a state machine and an input: [None] when it
    returns. *)
Variable unquote_plus : string -> string.
Variable STATE_MACHINE_ARN : string.
Variable boto3_client : option Exn.
Variable start_execution : string -> json -> option Exn.

(** What an invocation leaves behind: the calls of [start_execution],
    each with its input as the machine will read it, and the value
    returned or the exception raised. *)
Record Invoked : Type := mkInvoked {
  startCalls : list (string * json);
  returned : Result json
}.

Definition bucketOf (record : json) : Result json :=
  bind (getitem record "s3") (fun s3 =>
  bind (getitem s3 "bucket") (fun bucket =>
  getitem bucket "name")).

Definition keyOf (record : json) : Result json :=
  bind (getitem record "s3") (fun s3 =>
  bind (getitem s3 "object") (fun object =>
  getitem object "key")).

Definition unquoted (key : json) : Result string :=
  match key with
  | JStr k => Ok (unquote_plus k)
  | other =>
      Raise (AttributeError
               ("'" ++ type_name other
                ++ "' object has no attribute 'replace'"))
  end.

Definition started : json :=
  JObj [("statusCode", JNum 200);
        ("body", JStr (dumps_plain
                         "Started document processing state machine"))].

Definition lambda_handler (event : json) : Invoked :=
  match
    bind (getitem event "Records") (fun records =>
    bind (getitem0 records) (fun record =>
    bind (bucketOf record) (fun bucket =>
    bind (keyOf record) (fun key =>
    bind (unquoted key) (fun key' =>
    Ok (JObj [("bucket", bucket); ("key", JStr key')]))))))
  with
  | Raise e => mkInvoked [] (Raise e)
  | Ok input =>
      match boto3_client with
      | Some e => mkInvoked [] (Raise e)
      | None =>
          mkInvoked [(STATE_MACHINE_ARN, input)]
            match start_execution STATE_MACHINE_ARN input with
            | None => Ok started
            | Some e => Raise e
            end
      end
  end.

End Handler.

(** What [unquote_plus] does to a key without percent signs: every plus
    sign becomes a space. *)
Fixpoint plusToSpace (s : string) : string :=
  match s with
  | EmptyString => EmptyString
  | String c s' =>
      String (if Ascii.eqb c "+" then " "%char else c) (plusToSpace s')
  end.

(** An S3 event of one or more records. *)
Definition s3record (bucket key : string) : json :=
  JObj [("eventName", JStr "ObjectCreated:Put");
        ("s3", JObj [("bucket", JObj [("name", JStr bucket)]);
                     ("object", JObj [("key", JStr key);
                                      ("size", JNum 1024)])])].

Definition s3event (records : list json) : json :=
  JObj [("Records", JArr records)].

End Trigger.

(** The handler of [CreateInferenceProfileFunction], the custom resource
    of [BedrockInferenceProfile]. *)
Module InferenceProfile.
Import ASL Py.

Inductive Status : Type := SUCCESS | FAILED.

(** What the handler does to the world, in order.  [Send] is
    [cfnresponse.send] with its status and response data. *)
Inductive Effect : Type :=
| ListInferenceProfiles
| CreateInferenceProfile (inferenceProfileName copyFrom : string)
                         (tags : list (string * string))
| GetInferenceProfile (inferenceProfileIdentifier : json)
| Sleep (seconds : Z)
| Send (status : Status) (response_data : list (string * json)).

(** The Bedrock client: whether [boto3.client] raises, and what each call
    answers, the calls of [get_inference_profile] counted from 0. *)
Record Bedrock : Type := mkBedrock {
  boto3_client : option Exn;
  list_inference_profiles : Result json;
  create_inference_profile : Result json;
  get_inference_profile : nat -> Result json
}.

Definition inference_profile_name : string := "ClaudeInferenceProfile".

Definition model_id : string := "anthropic.claude-3-5-sonnet-20241022-v2:0".

Definition model_arn (region : string) : string :=
  ("arn:aws:bedrock:" ++ region ++ "::foundation-model/" ++ model_id)%string.

Definition default_inference_profile_arn (region : string) : string :=
  ("arn:aws:bedrock:" ++ region ++ ":361769603480:inference-profile/"
   ++ inference_profile_name)%string.

(** [context.invoked_function_arn.split(':')[3]]. *)
Definition regionOf (invoked_function_arn : string) : Result string :=
  match nth_error (split ":" invoked_function_arn) 3 with
  | Some region => Ok region
  | None => Raise (IndexError "list index out of range")
  end.

Definition arnData (arn : json) : list (string * json) :=
  [("InferenceProfileArn", arn)].

Definition orNone (v : option json) : json :=
  match v with
  | Some x => x
  | None => JNull
  end.

(** The loop over the listed profiles: the first one whose name is the
    profile name, or an exception on the way. *)
Fixpoint findProfile (profiles : list json) : Result (option json) :=
  match profiles with
  | [] => Ok None
  | profile :: others =>
      match get profile "name" with
      | Raise e => Raise e
      | Ok (Some (JStr name)) =>
          if String.eqb name inference_profile_name
          then match get profile "inferenceProfileArn" with
               | Ok arn => Ok (Some (orNone arn))
               | Raise e => Raise e
               end
          else findProfile others
      | Ok _ => findProfile others
      end
  end.

Definition existingProfile (B : Bedrock) : Result (option json) :=
  bind (list_inference_profiles B) (fun existing_profiles =>
  bind (get existing_profiles "inferenceProfiles") (fun listed =>
  bind (iterate (match listed with Some l => l | None => JArr [] end))
       findProfile)).

Definition isString (v : option json) (s : string) : bool :=
  match v with
  | Some (JStr x) => String.eqb x s
  | _ => false
  end.

(** The loop that waits for the profile: [retries] calls are left, [n]
    have been made.  Only the status READY ends it early; a failed
    status and a failing call cost a pause and a retry like any other. *)
Fixpoint wait (B : Bedrock) (arn : json) (retries n : nat) : list Effect :=
  match retries with
  | 0 => []
  | S retries' =>
      GetInferenceProfile arn ::
      match bind (get_inference_profile B n) (fun info => get info "status")
      with
      | Ok status =>
          if isString status "READY" then []
          else Sleep 10 :: wait B arn retries' (S n)
      | Raise _ => Sleep 10 :: wait B arn retries' (S n)
      end
  end.

Definition max_retries : nat := 10.

Definition create (B : Bedrock) (region : string) : list Effect :=
  CreateInferenceProfile inference_profile_name (model_arn region)
    [("project", "document-processing")] ::
  match bind (create_inference_profile B)
             (fun response => getitem response "inferenceProfileArn") with
  | Ok arn =>
      wait B arn max_retries 0 ++ [Send SUCCESS (arnData arn)]
  | Raise _ =>
      [Send SUCCESS
         (arnData (JStr (default_inference_profile_arn region)))]
  end.

Definition createOrUpdate (B : Bedrock) (region : string) : list Effect :=
  ListInferenceProfiles ::
  match existingProfile B with
  | Ok (Some arn) => [Send SUCCESS (arnData arn)]
  | Raise _ =>
      [Send SUCCESS
         (arnData (JStr (default_inference_profile_arn region)))]
  | Ok None => create B region
  end.

Definition failure (e : Exn) : list Effect :=
  [Send FAILED [("Error", JStr (str e))]].

Definition lambda_handler (B : Bedrock) (event : json)
  (invoked_function_arn : string) : list Effect :=
  match getitem event "RequestType" with
  | Raise e => failure e
  | Ok request_type =>
      match boto3_client B with
      | Some e => failure e
      | None =>
          match regionOf invoked_function_arn with
          | Raise e => failure e
          | Ok region =>
              if isString (Some request_type) "Create"
                 || isString (Some request_type) "Update"
              then createOrUpdate B region
              else if isString (Some request_type) "Delete"
              then [Send SUCCESS
                      (arnData (JStr (default_inference_profile_arn region)))]
              else []
          end
      end
  end.

(** Readings of a list of effects. *)
Definition isSend (e : Effect) : bool :=
  match e with Send _ _ => true | _ => false end.

Definition isBedrockCall (e : Effect) : bool :=
  match e with
  | ListInferenceProfiles | CreateInferenceProfile _ _ _
  | GetInferenceProfile _ => true
  | _ => false
  end.

Definition isGet (e : Effect) : bool :=
  match e with GetInferenceProfile _ => true | _ => false end.

Definition isCreate (e : Effect) : bool :=
  match e with CreateInferenceProfile _ _ _ => true | _ => false end.

Fixpoint slept (l : list Effect) : Z :=
  match l with
  | [] => 0%Z
  | Sleep seconds :: l' => (seconds + slept l')%Z
  | _ :: l' => slept l'
  end.

(** The timeout of the function, in seconds. *)
Definition functionTimeout : Duration := minutes 5.

(** [n] rounds of asking and pausing. *)
Fixpoint rounds (arn : json) (n : nat) : list Effect :=
  match n with
  | 0 => []
  | S n' => GetInferenceProfile arn :: Sleep 10 :: rounds arn n'
  end.

(** The status that the [n]-th call of [get_inference_profile] shows is
    not READY, or the call fails. *)
Definition notReady (B : Bedrock) (n : nat) : Prop :=
  match bind (get_inference_profile B n) (fun info => get info "status") with
  | Ok status => isString status "READY" = false
  | Raise _ => True
  end.

(** Events and answers used as concrete invocations. *)
Definition createEvent : json :=
  JObj [("RequestType", JStr "Create"); ("ResourceType", JStr "Custom")].

Definition functionArn : string :=
  "arn:aws:lambda:us-east-1:361769603480:function:CreateInferenceProfile".

Definition profileNamed (name arn : string) : json :=
  JObj [("name", JStr name); ("inferenceProfileArn", JStr arn)].

Definition bedrockFailing : Bedrock :=
  mkBedrock None
    (Ok (JObj [("inferenceProfiles", JArr [])]))
    (Ok (JObj [("inferenceProfileArn", JStr "arn:created")]))
    (fun _ => Ok (JObj [("status", JStr "FAILED")])).

Definition deleteEvent : json := JObj [("RequestType", JStr "Delete")].

Definition bedrockListing : Bedrock :=
  mkBedrock None
    (Ok (JObj [("inferenceProfiles",
               JArr [profileNamed "Other" "arn:other";
                     profileNamed "ClaudeInferenceProfile" "arn:first";
                     profileNamed "ClaudeInferenceProfile" "arn:second"])]))
    (Raise (ClientError "not called"))
    (fun _ => Raise (ClientError "not called")).

End InferenceProfile.

(* ================================================================== *)
(** * Facts about executions of any machine *)
(* ================================================================== *)

Module ASLFacts.
Import ASL.

Section Executions.

Context {N : Type} (m : N -> State N) (ws : N -> json -> nat -> WorkerResult).

Lemma select_In (whens : list (Condition.t * N)) input s' :
  select whens input = Some (Some s') -> In s' (map snd whens).
Proof.
  induction whens as [|[c s] whens IH]; simpl; [discriminate|].
  destruct (Condition.eval c input) as [[|]|]; intro H.
  - inversion H; subst; now left.
  - right; auto.
  - discriminate.
Qed.

(** A step hands over to a successor of the state only. *)
Lemma step_goto_successor s input i s' d :
  step m ws s input = (i, Goto s' d) -> In s' (successors (m s)).
Proof.
  unfold step.
  destruct (m s) as [fn p op rt nx|p nx|whens other| |e c]; simpl.
  - destruct (render p input); [|discriminate].
    destruct (final rt (ws s j)); [|discriminate].
    destruct (lookup op _); [|discriminate].
    intro H; inversion H; subst; now left.
  - destruct (render p input); [|discriminate].
    intro H; inversion H; subst; now left.
  - destruct (select whens input) as [[t|]|] eqn:E.
    + intro H; inversion H; subst.
      apply in_or_app; left; eapply select_In; eauto.
    + destruct other; [|discriminate].
      intro H; inversion H; subst.
      apply in_or_app; right; now left.
    + discriminate.
  - discriminate.
  - discriminate.
Qed.

(** No state halts the machine for lack of fuel. *)
Lemma step_halt_outcome s input i o :
  step m ws s input = (i, Halt o) -> o <> OutOfFuel.
Proof.
  unfold step, runtimeFailure.
  destruct (m s) as [fn p op rt nx|p nx|whens other| |e c].
  - destruct (render p input); [|intro H; inversion H; discriminate].
    destruct (final rt (ws s j)).
    + destruct (lookup op _); intro H; inversion H; discriminate.
    + intro H; inversion H; discriminate.
  - destruct (render p input); intro H; inversion H; discriminate.
  - destruct (select whens input) as [[t|]|]; try destruct other;
      intro H; inversion H; discriminate.
  - intro H; inversion H; discriminate.
  - intro H; inversion H; discriminate.
Qed.

(** Only a task calls a worker, under its own name; a task that hands
    over has called it. *)
Lemma step_invocation s input i nx :
  step m ws s input = (Some i, nx) ->
  isTask (m s) = true /\ stage i = s
  /\ response i = answer m ws s (request i).
Proof.
  unfold step, answer.
  destruct (m s) as [fn p op rt nx'|p nx'|whens other| |e c]; simpl.
  - destruct (render p input); [|discriminate].
    intro H; inversion H; subst; simpl; auto.
  - destruct (render p input); discriminate.
  - destruct (select whens input) as [[t|]|]; try destruct other; discriminate.
  - discriminate.
  - discriminate.
Qed.

(** A state that reports no call has retried none. *)
Lemma step_not_called s input nx :
  step m ws s input = (None, nx) -> retriedAt m ws s input = [].
Proof.
  unfold step, retriedAt.
  destruct (m s) as [fn p op rt nx'|p nx'|whens other| |e c];
    try reflexivity.
  destruct (render p input); [discriminate|reflexivity].
Qed.

Lemma step_called s input s' d :
  isTask (m s) = true -> step m ws s input <> (None, Goto s' d).
Proof.
  unfold step.
  destruct (m s) as [fn p op rt nx'|p nx'|whens other| |e c]; simpl;
    try discriminate.
  intros _. destruct (render p input); discriminate.
Qed.

Lemma exec_S fuel s input :
  exec m ws (S fuel) s input =
  match step m ws s input with
  | (i, Halt o) => mkRun [mkEvent s i (retriedAt m ws s input)] o
  | (i, Goto s' d) =>
      mkRun (mkEvent s i (retriedAt m ws s input)
             :: trace (exec m ws fuel s' d))
            (outcome (exec m ws fuel s' d))
  end.
Proof. reflexivity. Qed.

(** The interpreter and the relation describe the same executions. *)
Lemma exec_execs fuel : forall s input,
  outcome (exec m ws fuel s input) <> OutOfFuel ->
  execs m ws s input (trace (exec m ws fuel s input))
        (outcome (exec m ws fuel s input)).
Proof.
  induction fuel as [|fuel IH]; intros s input.
  - simpl. congruence.
  - rewrite exec_S.
    destruct (step m ws s input) as [i [s' d|o]] eqn:E; simpl; intro H.
    + eapply execs_goto; eauto.
    + now apply execs_halt.
Qed.

Lemma execs_exec s input tr o :
  execs m ws s input tr o ->
  forall fuel, List.length tr <= fuel -> exec m ws fuel s input = mkRun tr o.
Proof.
  induction 1 as [s input i o E|s input i s' d tr o E _ IH]; intros fuel Hlen;
    simpl in Hlen; (destruct fuel as [|fuel]; [lia|]); rewrite exec_S, E.
  - reflexivity.
  - rewrite IH by lia. reflexivity.
Qed.

Lemma execs_det s input tr o :
  execs m ws s input tr o ->
  forall tr' o', execs m ws s input tr' o' -> tr = tr' /\ o = o'.
Proof.
  induction 1 as [s input i o E|s input i s' d tr o E _ IH];
    intros tr' o' H'; inversion H'; subst;
    match goal with
    | H1 : step _ _ _ _ = _, H2 : step _ _ _ _ = _ |- _ =>
        rewrite H1 in H2; inversion H2; subst
    end.
  - auto.
  - match goal with H : execs _ _ _ _ _ _ |- _ =>
      destruct (IH _ _ H); subst; auto end.
Qed.

Lemma execs_outcome s input tr o :
  execs m ws s input tr o -> o <> OutOfFuel.
Proof.
  induction 1; eauto using step_halt_outcome.
Qed.

Lemma execs_head s input tr o :
  execs m ws s input tr o ->
  exists i tl,
    tr = mkEvent s i (retriedAt m ws s input) :: tl
    /\ fst (step m ws s input) = i.
Proof.
  destruct 1 as [s input i o E|s input i s' d tr o E _];
    exists i; eexists; rewrite E; split; reflexivity.
Qed.

(** Every later part of an execution is an execution of its own. *)
Lemma execs_suffix s input tr o :
  execs m ws s input tr o ->
  forall pre e post, tr = pre ++ e :: post ->
  exists input', execs m ws (state e) input' (e :: post) o.
Proof.
  induction 1 as [s input i o E|s input i s' d tr o E H IH];
    intros pre e post Heq.
  - destruct pre as [|x pre]; simpl in Heq.
    + inversion Heq; subst; simpl. exists input. now apply execs_halt.
    + inversion Heq. destruct pre; discriminate.
  - destruct pre as [|x pre]; simpl in Heq.
    + inversion Heq; subst; simpl. exists input. eapply execs_goto; eauto.
    + inversion Heq; subst. eapply IH; eauto.
Qed.

(** The shape of an execution is one of the shapes of the graph. *)
Lemma execs_shape s input tr o :
  execs m ws s input tr o ->
  forall fuel, List.length tr <= fuel -> In (shape tr) (shapes m fuel s).
Proof.
  induction 1 as [s input i o E|s input i s' d tr o E H IH];
    intros fuel Hlen; simpl in Hlen; (destruct fuel as [|fuel]; [lia|]);
    simpl.
  - destruct i as [i|].
    + apply step_invocation in E as (-> & _ & _). right; now left.
    + destruct (isTask (m s)); now left.
  - assert (Hin : In (shape tr) (flat_map (shapes m fuel) (successors (m s)))).
    { apply in_flat_map. exists s'. split.
      - eapply step_goto_successor; eauto.
      - apply IH; lia. }
    destruct i as [i|].
    + apply step_invocation in E as (-> & _ & _).
      right; right. now apply in_map.
    + destruct (isTask (m s)) eqn:T.
      * exfalso. eapply step_called; eauto.
      * right. now apply in_map.
Qed.

Lemma invocations_shape (tr : list (Event N)) :
  List.length (invocations tr) = List.length (filter snd (shape tr)).
Proof.
  induction tr as [|e tr IH]; simpl; [reflexivity|].
  unfold called. destruct (invocation e); simpl; now rewrite IH.
Qed.

Lemma invocations_app (tr1 tr2 : list (Event N)) :
  invocations (tr1 ++ tr2) = invocations tr1 ++ invocations tr2.
Proof.
  induction tr1 as [|e tr1 IH]; simpl; [reflexivity|].
  destruct (invocation e); simpl; now rewrite IH.
Qed.

Lemma invocations_In (tr : list (Event N)) i :
  In i (invocations tr) -> exists e, In e tr /\ invocation e = Some i.
Proof.
  induction tr as [|e tr IH]; simpl; [intros []|].
  destruct (invocation e) as [j|] eqn:E.
  - intros [<-|H]; [exists e; auto|].
    destruct (IH H) as (e' & He' & Hi). exists e'; auto.
  - intro H. destruct (IH H) as (e' & He' & Hi). exists e'; auto.
Qed.

(** Every entry of the history names the state it was made at. *)
Lemma execs_stage s input tr o :
  execs m ws s input tr o ->
  forall e i, In e tr -> invocation e = Some i -> stage i = state e.
Proof.
  induction 1 as [s input i o E|s input i s' d tr o E H IH];
    intros e j Hin Hj.
  - destruct Hin as [<-|[]]. simpl in *. subst i.
    now apply step_invocation in E.
  - destruct Hin as [<-|Hin]; [|eauto].
    simpl in *. subst i. now apply step_invocation in E.
Qed.

Section Rank.

Variable rank : N -> nat.
Hypothesis rank_decreases :
  forall s s', In s' (successors (m s)) -> rank s' < rank s.

(** On a graph whose transitions all go down, a run never lacks fuel
    once it has more fuel than the height of its first state. *)
Lemma exec_terminates fuel : forall s input,
  rank s < fuel -> outcome (exec m ws fuel s input) <> OutOfFuel.
Proof.
  induction fuel as [|fuel IH]; intros s input Hlt; [lia|].
  rewrite exec_S.
  destruct (step m ws s input) as [i [s' d|o]] eqn:E; simpl.
  - apply IH. apply step_goto_successor in E. apply rank_decreases in E. lia.
  - eapply step_halt_outcome; eauto.
Qed.

Lemma execs_rank s input tr o :
  execs m ws s input tr o ->
  forall e, In e tr -> rank (state e) <= rank s.
Proof.
  induction 1 as [s input i o E|s input i s' d tr o E H IH]; intros e Hin.
  - destruct Hin as [<-|[]]; simpl; lia.
  - destruct Hin as [<-|Hin]; simpl; [lia|].
    apply IH in Hin. apply step_goto_successor in E.
    apply rank_decreases in E. lia.
Qed.

Lemma execs_rank_split s input tr o :
  execs m ws s input tr o ->
  forall pre e post, tr = pre ++ e :: post ->
  forall x, In x pre -> rank (state e) < rank (state x).
Proof.
  induction 1 as [s input i o E|s input i s' d tr o E H IH];
    intros pre e post Heq x Hx.
  - destruct pre as [|y pre]; [destruct Hx|].
    inversion Heq. destruct pre; discriminate.
  - destruct pre as [|y pre]; [destruct Hx|].
    inversion Heq; subst. destruct Hx as [<-|Hx]; simpl.
    + assert (Hin : In e (pre ++ e :: post)) by (apply in_elt).
      eapply execs_rank in Hin; eauto.
      apply step_goto_successor in E. apply rank_decreases in E. lia.
    + eapply IH; eauto.
Qed.

(** ... and never enters a state twice. *)
Lemma execs_NoDup s input tr o :
  execs m ws s input tr o -> NoDup (map state tr).
Proof.
  induction 1 as [s input i o E|s input i s' d tr o E H IH]; simpl.
  - constructor; [intros []|constructor].
  - constructor; [|assumption].
    intro Hin. apply in_map_iff in Hin as (e & He & Hin).
    eapply execs_rank in Hin; eauto.
    apply step_goto_successor in E. apply rank_decreases in E.
    rewrite He in Hin. lia.
Qed.

End Rank.

End Executions.

Lemma exec_length {N : Type} (m : N -> State N)
  (ws : N -> json -> nat -> WorkerResult) :
  forall fuel s input, List.length (trace (exec m ws fuel s input)) <= fuel.
Proof.
  induction fuel as [|fuel IH]; intros s input; [simpl; lia|].
  rewrite exec_S.
  destruct (step m ws s input) as [i [s' d|o]]; simpl; [|lia].
  specialize (IH s' d). lia.
Qed.

Lemma lookup_Payload (p : Path) (v : json) :
  lookup ("Payload" :: p) (invokeResult v) = lookup p v.
Proof. reflexivity. Qed.

(** A status that is not the number 200 fails [numberEquals ... 200]. *)
Lemma numberEquals_200_false (p : Path) (j v : json) :
  lookup p j = Some v -> v <> JNum 200 ->
  Condition.eval (Condition.numberEquals p 200) j = Some false.
Proof.
  intros H Hv. simpl. rewrite H.
  destruct v; try reflexivity.
  destruct (Z.eqb_spec n 200); [subst; contradiction|reflexivity].
Qed.

Lemma numberEquals_200_true (p : Path) (j : json) :
  lookup p j = Some (JNum 200) ->
  Condition.eval (Condition.numberEquals p 200) j = Some true.
Proof. intros H. simpl. now rewrite H. Qed.

End ASLFacts.

(* ================================================================== *)
(** * Facts about the stack's machine *)
(* ================================================================== *)

Module StackFacts.
Import ASL ASLFacts Stack Props.

(** Every transition of [definition] goes down in [rank]: the graph has
    no cycle. *)
Lemma definition_rank b s s' :
  In s' (successors (definition b s)) -> rank s' < rank s.
Proof.
  destruct s; simpl; intuition (subst; simpl; lia).
Qed.

Lemma run_eq b ws input :
  run b ws input
  = exec (definition b) ws fuel ProcessDocumentWithTextract input.
Proof. reflexivity. Qed.

Lemma run_terminates b ws input : outcome (run b ws input) <> OutOfFuel.
Proof.
  rewrite run_eq. apply exec_terminates with (rank := rank).
  - apply definition_rank.
  - simpl. unfold fuel. lia.
Qed.

Lemma run_execs b ws input :
  execs (definition b) ws ProcessDocumentWithTextract input
        (trace (run b ws input)) (outcome (run b ws input)).
Proof.
  pose proof (run_terminates b ws input) as H.
  rewrite run_eq in *. now apply exec_execs.
Qed.

Lemma run_shape b ws input :
  In (shape (trace (run b ws input)))
     (shapes (definition b) fuel ProcessDocumentWithTextract).
Proof.
  eapply execs_shape; [apply run_execs|].
  rewrite run_eq. apply exec_length.
Qed.

Lemma mem_In s l : mem s l = true <-> In s l.
Proof.
  unfold mem. rewrite existsb_exists. split.
  - intros (x & Hx & E). apply internal_StateName_dec_bl in E. now subst.
  - intro H. exists s. split; [assumption|].
    now apply internal_StateName_dec_lb.
Qed.

Lemma states_of_shape (tr : list (Event StateName)) :
  states_of (shape tr) = map state tr.
Proof.
  unfold states_of, shape. rewrite map_map. reflexivity.
Qed.

(** Every shape of the graph obeys the bounds on the history. *)
Lemma shapes_historyBound b :
  forallb historyBound (shapes (definition b) fuel ProcessDocumentWithTextract)
  = true.
Proof. vm_compute. reflexivity. Qed.

Lemma run_historyBound b ws input :
  historyBound (shape (trace (run b ws input))) = true.
Proof.
  pose proof (shapes_historyBound b) as H.
  rewrite forallb_forall in H. apply H, run_shape.
Qed.

(** What [historyBound] says of a run, in terms of its history. *)
Lemma historyBound_unpack (r : Run StateName) :
  historyBound (shape (trace r)) = true ->
  List.length (history r) = calls (shape (trace r))
  /\ List.length (history r) <= 7
  /\ (In ExtractProcessedKey (visited r) ->
      In ExtractMetadataForBedrock (visited r) ->
      List.length (history r) <= 4)
  /\ (In StoreTextractResult (visited r) ->
      In StoreMetadataResult (visited r) ->
      List.length (history r) <= 7
      /\ (In CheckBedrockIntegration (visited r) ->
          List.length (history r) = 7)).
Proof.
  destruct r as [tr o]. unfold history, visited. cbn [trace].
  intro H.
  assert (Hn : List.length (invocations tr) = calls (shape tr))
    by apply invocations_shape.
  unfold historyBound in H. rewrite states_of_shape, <- Hn in H.
  rewrite !andb_true_iff in H. destruct H as [[[H1 H2] H3] H4].
  apply Nat.leb_le in H4.
  split; [exact Hn|]. split; [exact H4|]. split.
  - intros A B. apply mem_In in A, B.
    unfold allInline in H1. rewrite A, B in H1. now apply Nat.leb_le.
  - intros A B. apply mem_In in A, B. split; [exact H4|].
    intro C. apply mem_In in C.
    unfold bothExternalized in H3. rewrite A, B, C in H3.
    now apply Nat.eqb_eq.
Qed.

(** ** The states one by one *)

Lemma step_ProcessingFailed b ws input :
  step (definition b) ws ProcessingFailed input = (None, Halt failed).
Proof. reflexivity. Qed.

Lemma step_textractTask b ws input :
  step (definition b) ws ProcessDocumentWithTextract input =
  (Some (mkInvocation ProcessDocumentWithTextract input
           (answer (definition b) ws ProcessDocumentWithTextract input)),
   match answer (definition b) ws ProcessDocumentWithTextract input with
   | Returned v => Goto CheckTextractProcessing v
   | Raised e c => Halt (Failed e c)
   end).
Proof.
  unfold step, answer; simpl.
  destruct (final _ (ws ProcessDocumentWithTextract input)); reflexivity.
Qed.

Lemma step_metadataTask b ws input :
  step (definition b) ws ExtractAndStoreMetadata input =
  match render (Obj [("processed_bucket", At ["processed_bucket"]);
                     ("processed_key", At ["processed_key"])]) input with
  | Some p =>
      (Some (mkInvocation ExtractAndStoreMetadata p
               (answer (definition b) ws ExtractAndStoreMetadata p)),
       match answer (definition b) ws ExtractAndStoreMetadata p with
       | Returned v => Goto CheckMetadataExtraction v
       | Raised e c => Halt (Failed e c)
       end)
  | None => (None, Halt (runtimeFailure "Parameters"))
  end.
Proof.
  unfold step, answer.
  change (definition b ExtractAndStoreMetadata)
    with (metadataTask CheckMetadataExtraction).
  unfold metadataTask.
  destruct (render _ input) as [p|]; [|reflexivity].
  destruct (final _ (ws ExtractAndStoreMetadata p)); reflexivity.
Qed.

Lemma step_bedrockTask b ws input :
  step (definition b) ws AddToBedrockKnowledgeBase input =
  (Some (mkInvocation AddToBedrockKnowledgeBase input
           (answer (definition b) ws AddToBedrockKnowledgeBase input)),
   match answer (definition b) ws AddToBedrockKnowledgeBase input with
   | Returned v => Goto CheckBedrockIntegration (invokeResult v)
   | Raised e c => Halt (Failed e c)
   end).
Proof.
  unfold step, answer; simpl.
  destruct (final _ (ws AddToBedrockKnowledgeBase input)); reflexivity.
Qed.

Lemma step_CheckTextractProcessing b ws input :
  step (definition b) ws CheckTextractProcessing input =
  statusChoice ["statusCode"] CheckTextractPayloadSize input.
Proof.
  unfold step, statusChoice.
  change (definition b CheckTextractProcessing)
    with (Choice [(Condition.numberEquals ["statusCode"] 200,
                   CheckTextractPayloadSize)] (Some ProcessingFailed)).
  unfold select.
  destruct (Condition.eval _ input) as [[|]|]; reflexivity.
Qed.

Lemma step_CheckMetadataExtraction b ws input :
  step (definition b) ws CheckMetadataExtraction input =
  statusChoice ["statusCode"] CheckMetadataPayloadSize input.
Proof.
  unfold step, statusChoice.
  change (definition b CheckMetadataExtraction)
    with (Choice [(Condition.numberEquals ["statusCode"] 200,
                   CheckMetadataPayloadSize)] (Some ProcessingFailed)).
  unfold select.
  destruct (Condition.eval _ input) as [[|]|]; reflexivity.
Qed.

Lemma step_CheckBedrockIntegration b ws input :
  step (definition b) ws CheckBedrockIntegration input =
  statusChoice ["Payload"; "statusCode"] ProcessingSucceeded input.
Proof.
  unfold step, statusChoice.
  change (definition b CheckBedrockIntegration)
    with (Choice [(Condition.numberEquals ["Payload"; "statusCode"] 200,
                   ProcessingSucceeded)] (Some ProcessingFailed)).
  unfold select.
  destruct (Condition.eval _ input) as [[|]|]; reflexivity.
Qed.

Lemma step_CheckTextractPayloadSize b ws input :
  step (definition b) ws CheckTextractPayloadSize input =
  sizeChoice StoreTextractResult ExtractProcessedKey input.
Proof.
  unfold step, sizeChoice, sizeGuard.
  change (definition b CheckTextractPayloadSize)
    with (Choice [(Condition.and
                     [Condition.isPresent ["body"];
                      Condition.stringGreaterThan ["body"] "204800"],
                   StoreTextractResult)] (Some ExtractProcessedKey)).
  unfold select.
  destruct (Condition.eval _ input) as [[|]|]; reflexivity.
Qed.

Lemma step_CheckMetadataPayloadSize b ws input :
  step (definition b) ws CheckMetadataPayloadSize input =
  sizeChoice StoreMetadataResult ExtractMetadataForBedrock input.
Proof.
  unfold step, sizeChoice, sizeGuard.
  change (definition b CheckMetadataPayloadSize)
    with (Choice [(Condition.and
                     [Condition.isPresent ["body"];
                      Condition.stringGreaterThan ["body"] "204800"],
                   StoreMetadataResult)] (Some ExtractMetadataForBedrock)).
  unfold select.
  destruct (Condition.eval _ input) as [[|]|]; reflexivity.
Qed.

(** What the rule does: it orders the text of the body against the text
    204800; a missing body, or a body that is no string, stays inline. *)
Lemma sizeGuard_cases (output : json) :
  sizeGuard output =
  match lookup ["body"] output with
  | Some (JStr body) =>
      Some (if Condition.string_gtb body "204800" then Externalize else Inline)
  | _ => Some Inline
  end.
Proof.
  unfold sizeGuard. cbn [Condition.eval].
  destruct (lookup ["body"] output) as [[| | |body| |]|]; try reflexivity.
  destruct (Condition.string_gtb body "204800"); reflexivity.
Qed.

(** ** A stage that answers with a status other than 200 *)

Lemma statusChoice_failed p yes input v :
  lookup p input = Some v -> v <> JNum 200 ->
  statusChoice p yes input = (None, Goto ProcessingFailed input).
Proof.
  intros H Hv. unfold statusChoice.
  now rewrite (numberEquals_200_false _ _ _ H Hv).
Qed.

Lemma execs_to_failed b ws chk input tr o :
  step (definition b) ws chk input = (None, Goto ProcessingFailed input) ->
  execs (definition b) ws chk input tr o ->
  tr = [mkEvent chk None []; mkEvent ProcessingFailed None []] /\ o = failed.
Proof.
  intros E H.
  inversion H as [? ? ? ? E1|? ? ? ? ? ? ? E1 H1]; subst;
    rewrite E in E1; inversion E1; subst.
  inversion H1 as [? ? ? ? E2|? ? ? ? ? ? ? E2 H2]; subst;
    rewrite step_ProcessingFailed in E2; inversion E2; subst.
  rewrite (step_not_called _ _ _ _ _ E). auto.
Qed.

(** The check that follows a checked stage, on the stage's answer. *)
Lemma checked_stage_step b ws t chk input req out nx :
  statusCheck t = Some chk ->
  step (definition b) ws t input
  = (Some (mkInvocation t req (Returned out)), nx) ->
  exists data,
    nx = Goto chk data /\
    forall v, lookup ["statusCode"] out = Some v -> v <> JNum 200 ->
      step (definition b) ws chk data = (None, Goto ProcessingFailed data).
Proof.
  intros Hchk E.
  destruct t; simpl in Hchk; try discriminate; inversion Hchk; subst chk.
  - rewrite step_textractTask in E. inversion E as [[H1 H2 H3]].
    rewrite H2. exists out. split; [reflexivity|]. intros v Hv Hne.
    rewrite step_CheckTextractProcessing.
    eapply statusChoice_failed; eauto.
  - rewrite step_metadataTask in E.
    destruct (render _ input) as [p|]; [|discriminate].
    inversion E as [[H1 H2 H3]].
    rewrite H2. exists out. split; [reflexivity|]. intros v Hv Hne.
    rewrite step_CheckMetadataExtraction.
    eapply statusChoice_failed; eauto.
  - rewrite step_bedrockTask in E. inversion E as [[H1 H2 H3]].
    rewrite H2. exists (invokeResult out). split; [reflexivity|].
    intros v Hv Hne.
    rewrite step_CheckBedrockIntegration.
    eapply statusChoice_failed; [|eassumption].
    rewrite lookup_Payload. assumption.
Qed.

Lemma checked_stage_execs b ws input tr o pre e post t chk req out v :
  execs (definition b) ws ProcessDocumentWithTextract input tr o ->
  tr = pre ++ e :: post ->
  invocation e = Some (mkInvocation t req (Returned out)) ->
  statusCheck t = Some chk ->
  lookup ["statusCode"] out = Some v -> v <> JNum 200 ->
  post = [mkEvent chk None []; mkEvent ProcessingFailed None []] /\ o = failed.
Proof.
  intros H Htr Hinv Hchk Hv Hne.
  destruct (execs_suffix _ _ _ _ _ _ H pre e post Htr) as [input' H'].
  destruct e as [s i rs]; simpl in *; subst i.
  inversion H' as [? ? ? ? E|? ? ? s' d ? ? E Hrest]; subst.
  - pose proof (step_invocation _ _ _ _ _ _ E) as (_ & Hs & _).
    simpl in Hs; subst s.
    destruct (checked_stage_step _ _ _ _ _ _ _ _ Hchk E) as (data & Hnx & _).
    discriminate.
  - pose proof (step_invocation _ _ _ _ _ _ E) as (_ & Hs & _).
    simpl in Hs; subst s.
    destruct (checked_stage_step _ _ _ _ _ _ _ _ Hchk E)
      as (data & Hnx & Hstep).
    inversion Hnx; subst.
    eapply execs_to_failed; eauto.
Qed.

Lemma checked_stage_failure b ws input pre e post t chk req out v :
  trace (run b ws input) = pre ++ e :: post ->
  invocation e = Some (mkInvocation t req (Returned out)) ->
  statusCheck t = Some chk ->
  lookup ["statusCode"] out = Some v -> v <> JNum 200 ->
  post = [mkEvent chk None []; mkEvent ProcessingFailed None []] /\
  outcome (run b ws input) = failed.
Proof.
  exact (checked_stage_execs b ws input _ _ pre e post t chk req out v
           (run_execs b ws input)).
Qed.

(** ** The passes around the metadata extractor *)

Lemma step_extractProcessedKeyState b ws out :
  step (definition b) ws ExtractProcessedKey out =
  match lookup ["statusCode"] out with
  | Some code =>
      (None,
       Goto ExtractAndStoreMetadata
         (JObj [("processed_bucket", JStr b);
                ("processed_key", JStr "dummy-key");
                ("original_status_code", code)]))
  | None => (None, Halt (runtimeFailure "Parameters"))
  end.
Proof.
  unfold step; simpl.
  destruct (lookup ["statusCode"] out); reflexivity.
Qed.

Lemma step_extractProcessedKeyLargeState b ws stored :
  step (definition b) ws ExtractProcessedKeyLarge stored =
  match lookup ["payload_reference"; "key"] stored,
        lookup ["original_status_code"] stored with
  | Some key, Some code =>
      (None,
       Goto ExtractAndStoreMetadata
         (JObj [("processed_bucket", JStr b);
                ("processed_key", key);
                ("original_status_code", code)]))
  | _, _ => (None, Halt (runtimeFailure "Parameters"))
  end.
Proof.
  unfold step; simpl.
  destruct (lookup ["payload_reference"; "key"] stored);
    destruct (lookup ["original_status_code"] stored); reflexivity.
Qed.

Lemma requestAt_metadataTask b ws bucket key code :
  requestAt b ws ExtractAndStoreMetadata
    (JObj [("processed_bucket", bucket); ("processed_key", key);
           ("original_status_code", code)])
  = Some (JObj [("processed_bucket", bucket); ("processed_key", key)]).
Proof. reflexivity. Qed.

(** ** The inline branch of the metadata decision *)

Lemma step_extractMetadataForBedrockState b ws out :
  step (definition b) ws ExtractMetadataForBedrock out =
  match lookup ["metadata"; "processed_bucket"] out,
        lookup ["metadata"; "processed_key"] out,
        lookup ["metadata"; "document_id"] out with
  | Some bucket, Some key, Some doc =>
      (None,
       Goto GenerateImageDescriptionsNormal
         (JObj [("processed_bucket", bucket); ("processed_key", key);
                ("document_id", doc)]))
  | _, _, _ => (None, Halt (runtimeFailure "Parameters"))
  end.
Proof.
  unfold step; simpl.
  destruct (lookup ["metadata"; "processed_bucket"] out);
    destruct (lookup ["metadata"; "processed_key"] out);
    destruct (lookup ["metadata"; "document_id"] out); reflexivity.
Qed.

(** The pass keeps three fields and drops [metadata], which the
    captioner's payload reads: the task fails before it calls its worker. *)
Lemma step_GenerateImageDescriptionsNormal b ws bucket key doc :
  step (definition b) ws GenerateImageDescriptionsNormal
    (JObj [("processed_bucket", bucket); ("processed_key", key);
           ("document_id", doc)])
  = (None, Halt (runtimeFailure "Parameters")).
Proof. reflexivity. Qed.

Lemma inline_metadata_branch b ws input tr o pre e post :
  execs (definition b) ws ProcessDocumentWithTextract input tr o ->
  tr = pre ++ e :: post ->
  state e = ExtractMetadataForBedrock ->
  invocations (e :: post) = [] /\
  incl (map state post) [GenerateImageDescriptionsNormal] /\
  o = runtimeFailure "Parameters".
Proof.
  intros H Htr Hst.
  destruct (execs_suffix _ _ _ _ _ _ H pre e post Htr) as [input' H'].
  rewrite Hst in H'.
  inversion H' as [? ? ? ? E|? ? ? s' d ? ? E Hrest]; subst;
    rewrite step_extractMetadataForBedrockState in E.
  - destruct (lookup ["metadata"; "processed_bucket"] input');
      [destruct (lookup ["metadata"; "processed_key"] input');
       [destruct (lookup ["metadata"; "document_id"] input')|]|];
      inversion E; subst; simpl; repeat split; auto; intros x [].
  - destruct (lookup ["metadata"; "processed_bucket"] input');
      [destruct (lookup ["metadata"; "processed_key"] input');
       [destruct (lookup ["metadata"; "document_id"] input')|]|];
      inversion E; subst.
    inversion Hrest as [? ? ? ? E2|? ? ? ? ? ? ? E2 H2]; subst;
      rewrite step_GenerateImageDescriptionsNormal in E2; inversion E2; subst.
    simpl. repeat split; auto. intros x [<-|[]]. now left.
Qed.

Lemma inline_metadata_execs b ws input tr o :
  execs (definition b) ws ProcessDocumentWithTextract input tr o ->
  In ExtractMetadataForBedrock (map state tr) ->
  o = Failed "States.Runtime" "Parameters"
  /\ (forall i, In i (invocations tr) ->
        workerRole b (stage i) <> Some Captioner
        /\ workerRole b (stage i) <> Some Ingestor)
  /\ ~ In AddToBedrockKnowledgeBase (map state tr).
Proof.
  intros Hex Hin.
  apply in_map_iff in Hin as (e & Hst & Hin).
  apply in_split in Hin as (pre & post & Htr).
  destruct (inline_metadata_branch _ _ _ _ _ _ _ _ Hex Htr Hst)
    as (Hinv & Hpost & Ho).
  assert (Hpre : forall x, In x pre -> 5 < rank (state x)).
  { intros x Hx.
    pose proof (execs_rank_split _ _ rank (definition_rank b) _ _ _ _ Hex
                  pre e post Htr x Hx) as Hr.
    rewrite Hst in Hr. exact Hr. }
  split; [exact Ho|]. split.
  - intros i Hi.
    assert (Hi' : In i (invocations pre)).
    { rewrite Htr, invocations_app, Hinv, app_nil_r in Hi. exact Hi. }
    apply invocations_In in Hi' as (x & Hx & Hxi).
    assert (Hs : stage i = state x).
    { eapply execs_stage; [exact Hex| |exact Hxi].
      rewrite Htr. apply in_or_app. now left. }
    apply Hpre in Hx. rewrite Hs.
    destruct (state x); simpl in Hx; try lia;
      split; unfold workerRole; simpl; discriminate.
  - rewrite Htr, map_app. simpl. intro H.
    apply in_app_or in H as [H|[H|H]].
    + apply in_map_iff in H as (x & Hx & Hxin).
      apply Hpre in Hxin. rewrite Hx in Hxin. simpl in Hxin. lia.
    + rewrite Hst in H. discriminate.
    + apply Hpost in H. destruct H as [H|[]]. discriminate.
Qed.

(** ** The wiring of the branches *)

(** In the graph, the two branches of each size decision lead to the same
    stage worker: the metadata extractor after the extraction decision,
    the captioner (at a task state of its own on each branch) and then the
    one ingestion task after the metadata decision. *)
Lemma branches_wired_alike b :
  nextStage b 5 StoreTextractResult
  = Some (ExtractAndStoreMetadata, MetadataExtractor)
  /\ nextStage b 5 ExtractProcessedKey
     = Some (ExtractAndStoreMetadata, MetadataExtractor)
  /\ nextStage b 5 StoreMetadataResult
     = Some (GenerateImageDescriptionsLarge, Captioner)
  /\ nextStage b 5 ExtractMetadataForBedrock
     = Some (GenerateImageDescriptionsNormal, Captioner)
  /\ nextStage b 5 MapImageDescriptionFieldsLarge
     = Some (AddToBedrockKnowledgeBase, Ingestor)
  /\ nextStage b 5 MapImageDescriptionFieldsNormal
     = Some (AddToBedrockKnowledgeBase, Ingestor).
Proof. repeat split. Qed.

(** ** An extractor output without a body *)








(** ** Two executions side by side *)






End StackFacts.

(* ================================================================== *)
(** * Facts about the earlier revision *)
(* ================================================================== *)

Module StackV0Facts.
Import ASL ASLFacts.

Lemma definition_rank_v0 b s s' :
  In s' (successors (StackV0.definition b s)) ->
  StackV0.rank s' < StackV0.rank s.
Proof.
  destruct s; simpl; intuition (subst; simpl; lia).
Qed.

Lemma run_eq_v0 b ws input :
  StackV0.run b ws input
  = exec (StackV0.definition b) ws StackV0.fuel
         StackV0.ProcessDocumentWithTextract input.
Proof. reflexivity. Qed.

Lemma run_execs_v0 b ws input :
  execs (StackV0.definition b) ws StackV0.ProcessDocumentWithTextract input
        (trace (StackV0.run b ws input)) (outcome (StackV0.run b ws input)).
Proof.
  rewrite run_eq_v0. apply exec_execs.
  apply exec_terminates with (rank := StackV0.rank).
  - apply definition_rank_v0.
  - simpl. unfold StackV0.fuel. lia.
Qed.

Lemma shapes_historyBound_v0 b :
  forallb StackV0.historyBound
    (shapes (StackV0.definition b) StackV0.fuel
            StackV0.ProcessDocumentWithTextract) = true.
Proof. vm_compute. reflexivity. Qed.

(** In the earlier revision no history has more than 5 entries, and
    every shape of an execution obeys [StackV0.historyBound]. *)
Lemma run_historyBound_v0 b ws input :
  StackV0.historyBound (shape (trace (StackV0.run b ws input))) = true
  /\ List.length (history (StackV0.run b ws input)) <= 5.
Proof.
  assert (H : StackV0.historyBound
                (shape (trace (StackV0.run b ws input))) = true).
  { pose proof (shapes_historyBound_v0 b) as H.
    rewrite forallb_forall in H. apply H.
    eapply execs_shape; [apply run_execs_v0|].
    rewrite run_eq_v0. apply exec_length. }
  split; [exact H|].
  generalize dependent (StackV0.run b ws input). intros [tr o] H.
  unfold history. cbn [trace] in *.
  unfold StackV0.historyBound in H.
  apply andb_true_iff in H as [_ H]. apply Nat.leb_le in H.
  unfold StackV0.calls in H. now rewrite invocations_shape.
Qed.

(** The all-inline execution of the earlier revision: three entries in
    the history, and it succeeds. *)
Lemma run_inline_v0 :
  let r := StackV0.run "processed" StackV0.wsInline JNull in
  map stage (history r)
  = [StackV0.ProcessDocumentWithTextract; StackV0.ExtractAndStoreMetadata;
     StackV0.AddToBedrockKnowledgeBase]
  /\ outcome r = Succeeded (JObj [("statusCode", JNum 200)]).
Proof. split; vm_compute; reflexivity. Qed.

End StackV0Facts.

(* ================================================================== *)
(** * The properties of the pipeline *)
(* ================================================================== *)

Import ASL ASLFacts Stack Props StackFacts.

(** ** Size guard *)

(** C1.  The size decision does not measure the body: it orders the text
    of the body against the text 204800.  A serialized payload of two
    characters, the empty object, is far below the threshold of 204800
    characters and yet both size decisions hand it to the store; a body
    of exactly 204800 digits 9 is externalized too, where the threshold
    keeps it inline; a body that begins with the digit 1 stays inline
    however long it is, for instance at 204801 characters, where the
    threshold asks for externalization. *)
Theorem C1_size_guard_orders_text_not_length :
  sizeGuard_spec "{}" = Inline
  /\ sizeGuard (ok200 "{}") = Some Externalize
  /\ (forall b ws,
        step (definition b) ws CheckTextractPayloadSize (ok200 "{}")
        = (None, Goto StoreTextractResult (ok200 "{}"))
        /\ step (definition b) ws CheckMetadataPayloadSize (ok200 "{}")
           = (None, Goto StoreMetadataResult (ok200 "{}")))
  /\ (Z.of_nat (String.length boundaryBody) = threshold
      /\ sizeGuard_spec boundaryBody = Inline
      /\ sizeGuard (ok200 boundaryBody) = Some Externalize)
  /\ (forall rest, sizeGuard (ok200 (String "1" rest)) = Some Inline)
  /\ (Z.of_nat (String.length longBody) = (threshold + 1)%Z
      /\ sizeGuard_spec longBody = Externalize
      /\ sizeGuard (ok200 longBody) = Some Inline
      /\ forall b ws,
           step (definition b) ws CheckTextractPayloadSize (ok200 longBody)
           = (None, Goto ExtractProcessedKey (ok200 longBody))).
Proof.
  assert (Hlong : sizeGuard (ok200 longBody) = Some Inline)
    by (vm_compute; reflexivity).
  split; [reflexivity|].
  split; [reflexivity|].
  split.
  { intros b ws.
    rewrite step_CheckTextractPayloadSize, step_CheckMetadataPayloadSize.
    split; reflexivity. }
  split; [repeat split; vm_compute; reflexivity|].
  split; [intro rest; reflexivity|].
  split; [vm_compute; reflexivity|].
  split; [vm_compute; reflexivity|].
  split; [exact Hlong|].
  intros b ws. rewrite step_CheckTextractPayloadSize.
  unfold sizeChoice. now rewrite Hlong.
Qed.

(** ** Status checks *)

(** C2, as the code has it.  When the extractor, the metadata extractor
    or the ingestor answers with a status code other than the number 200,
    the execution goes through that stage's status check to
    [ProcessingFailed] and ends there: no size decision, no later stage,
    no further worker call. *)
Theorem C2_checked_stage_failure_goes_to_failed
  b ws input pre e post t chk req out v :
  trace (run b ws input) = pre ++ e :: post ->
  invocation e = Some (mkInvocation t req (Returned out)) ->
  statusCheck t = Some chk ->
  lookup ["statusCode"] out = Some v -> v <> JNum 200 ->
  map state post = [chk; ProcessingFailed] /\ invocations post = [].
Proof.
  intros Htr Hinv Hchk Hv Hne.
  destruct (checked_stage_failure _ _ _ _ _ _ _ _ _ _ _ Htr Hinv Hchk Hv Hne)
    as [-> _].
  split; reflexivity.
Qed.

Lemma C2_checked_stage_failure_witness :
  let r := run "processed" wsMetadataFails JNull in
  trace r
  = firstn 4 (trace r)
    ++ mkEvent ExtractAndStoreMetadata
         (Some (mkInvocation ExtractAndStoreMetadata
                  (JObj [("processed_bucket", JStr "processed");
                         ("processed_key", JStr "dummy-key")])
                  (Returned status500)))
         []
    :: skipn 5 (trace r)
  /\ map state (skipn 5 (trace r))
     = [CheckMetadataExtraction; ProcessingFailed]
  /\ invocations (skipn 5 (trace r)) = [].
Proof.
  intro r.
  assert (Htr : trace r
    = firstn 4 (trace r)
      ++ mkEvent ExtractAndStoreMetadata
           (Some (mkInvocation ExtractAndStoreMetadata
                    (JObj [("processed_bucket", JStr "processed");
                           ("processed_key", JStr "dummy-key")])
                    (Returned status500)))
           []
      :: skipn 5 (trace r)) by (vm_compute; reflexivity).
  split; [exact Htr|].
  apply (C2_checked_stage_failure_goes_to_failed
           "processed" wsMetadataFails JNull _ _ _
           ExtractAndStoreMetadata CheckMetadataExtraction
           (JObj [("processed_bucket", JStr "processed");
                  ("processed_key", JStr "dummy-key")])
           status500 (JNum 500) Htr).
  - reflexivity.
  - reflexivity.
  - reflexivity.
  - discriminate.
Defined.

(** C2, as stated, fails at the captioner: its status code is examined by
    no Choice.  Here the captioner answers 500 and the execution goes on
    to the ingestor and succeeds. *)
Lemma C2_captioner_status_unchecked :
  let r := run "processed" (wsExternalized 500) JNull in
  In (mkInvocation GenerateImageDescriptionsLarge
        (JObj [("document_id", JStr "doc-1"); ("metadata_id", JStr "meta-1")])
        (Returned (described 500)))
     (history r)
  /\ lookup ["statusCode"] (described 500) = Some (JNum 500)
  /\ skipn 12 (visited r)
     = [MapImageDescriptionFieldsLarge; AddToBedrockKnowledgeBase;
        CheckBedrockIntegration; ProcessingSucceeded]
  /\ ~ In ProcessingFailed (visited r)
  /\ exists output, outcome r = Succeeded output.
Proof.
  intro r.
  split; [vm_compute; tauto|].
  split; [reflexivity|].
  split; [vm_compute; reflexivity|].
  split; [vm_compute; intuition discriminate|].
  eexists. vm_compute. reflexivity.
Qed.

(** C3, as the code has it.  When the extractor, the metadata extractor
    or the ingestor answers with a status code other than 200, the
    execution fails with the error DocumentProcessingError and the one
    cause text of the [Fail] state, the same for every stage. *)
Theorem C3_failure_cause_is_fixed
  b ws input pre e post t chk req out v :
  trace (run b ws input) = pre ++ e :: post ->
  invocation e = Some (mkInvocation t req (Returned out)) ->
  statusCheck t = Some chk ->
  lookup ["statusCode"] out = Some v -> v <> JNum 200 ->
  outcome (run b ws input)
  = Failed "DocumentProcessingError" "Document processing failed".
Proof.
  intros Htr Hinv Hchk Hv Hne.
  now destruct
    (checked_stage_failure _ _ _ _ _ _ _ _ _ _ _ Htr Hinv Hchk Hv Hne).
Qed.

Lemma C3_failure_cause_witness :
  let r := run "processed" wsExtractorFails JNull in
  trace r
  = [] ++ mkEvent ProcessDocumentWithTextract
            (Some (mkInvocation ProcessDocumentWithTextract JNull
                     (Returned status500)))
            []
       :: skipn 1 (trace r)
  /\ outcome r = Failed "DocumentProcessingError" "Document processing failed".
Proof.
  intro r.
  assert (Htr : trace r
    = [] ++ mkEvent ProcessDocumentWithTextract
              (Some (mkInvocation ProcessDocumentWithTextract JNull
                       (Returned status500)))
              []
         :: skipn 1 (trace r)) by (vm_compute; reflexivity).
  split; [exact Htr|].
  apply (C3_failure_cause_is_fixed
           "processed" wsExtractorFails JNull _ _ _
           ProcessDocumentWithTextract CheckTextractProcessing JNull
           status500 (JNum 500) Htr).
  - reflexivity.
  - reflexivity.
  - reflexivity.
  - discriminate.
Defined.

(** C3, as stated, fails: the failure cause does not name the stage.  A
    failing extractor and a failing metadata extractor leave the same
    cause, which is not of the form the claim gives. *)
Lemma C3_cause_does_not_name_stage :
  outcome (run "processed" wsExtractorFails JNull)
  = Failed "DocumentProcessingError" "Document processing failed"
  /\ outcome (run "processed" wsMetadataFails JNull)
     = Failed "DocumentProcessingError" "Document processing failed"
  /\ ~ namesStage "Document processing failed".
Proof.
  split; [vm_compute; reflexivity|].
  split; [vm_compute; reflexivity|].
  intros [name H]. simpl in H. discriminate.
Qed.

(** ** Terminal states *)

(** C4, as the code has it.  Every execution ends, and ends in exactly
    one of two ways: succeeded, or failed with an error and a cause. *)
Theorem C4_succeeded_or_failed b ws input :
  let o := outcome (run b ws input) in
  ((exists output, o = Succeeded output)
   \/ (exists error cause, o = Failed error cause))
  /\ ~ ((exists output, o = Succeeded output)
        /\ (exists error cause, o = Failed error cause)).
Proof.
  intro o. pose proof (run_terminates b ws input) as H. fold o in H.
  split.
  - destruct o as [output|error cause|]; [left|right|contradiction]; eauto.
  - intros [[output H1] [error [cause H2]]]. congruence.
Qed.

(** C4, as stated, fails: the definition has two terminal states, one
    [Succeed] and one [Fail]; there are no three distinct terminal states
    and none for a cancelled execution. *)
Lemma C4_two_terminal_states :
  terminalStates "processed" = [ProcessingSucceeded; ProcessingFailed]
  /\ ~ (exists s1 s2 s3,
          NoDup [s1; s2; s3]
          /\ incl [s1; s2; s3] (terminalStates "processed")).
Proof.
  split; [reflexivity|].
  intros (s1 & s2 & s3 & Hnd & Hincl).
  assert (H1 : In s1 (terminalStates "processed"))
    by (apply Hincl; simpl; auto).
  assert (H2 : In s2 (terminalStates "processed"))
    by (apply Hincl; simpl; auto).
  assert (H3 : In s3 (terminalStates "processed"))
    by (apply Hincl; simpl; auto).
  inversion Hnd as [|? ? N1 Hnd']; subst.
  inversion Hnd' as [|? ? N2 Hnd'']; subst.
  simpl in H1, H2, H3, N1, N2.
  intuition (subst; intuition congruence).
Qed.

(** ** History *)

(** C5, as the code has it.  The history has one entry per state whose
    worker was called.  It has at most 4 entries on the all-inline path
    and at most 7 on the path where both outputs are externalized:
    exactly 7 when that path reaches the check of the ingestor. *)
Theorem C5_history_bounds b ws input :
  let r := run b ws input in
  let n := List.length (history r) in
  n = calls (shape (trace r))
  /\ n <= 7
  /\ (In ExtractProcessedKey (visited r) ->
      In ExtractMetadataForBedrock (visited r) -> n <= 4)
  /\ (In StoreTextractResult (visited r) ->
      In StoreMetadataResult (visited r) ->
      n <= 7 /\ (In CheckBedrockIntegration (visited r) -> n = 7)).
Proof.
  intros r n. apply historyBound_unpack. apply run_historyBound.
Qed.

Lemma C5_history_bounds_witness :
  let r := run "processed" (wsExternalized 200) JNull in
  In StoreTextractResult (visited r)
  /\ In StoreMetadataResult (visited r)
  /\ In CheckBedrockIntegration (visited r)
  /\ List.length (history r) = 7.
Proof.
  intro r.
  assert (A : In StoreTextractResult (visited r)) by (vm_compute; tauto).
  assert (B : In StoreMetadataResult (visited r)) by (vm_compute; tauto).
  assert (C : In CheckBedrockIntegration (visited r)) by (vm_compute; tauto).
  repeat (split; [assumption|]).
  destruct (C5_history_bounds "processed" (wsExternalized 200) JNull)
    as (_ & _ & _ & H).
  destruct (H A B) as [_ H7]. exact (H7 C).
Defined.

(** C5, as stated, fails on both counts.  With both outputs externalized
    the history has 7 entries, more than 5; on the all-inline path it has
    2 entries, not 3. *)
Lemma C5_seven_entries_when_both_externalized :
  let r := run "processed" (wsExternalized 200) JNull in
  let r' := run "processed" wsInline JNull in
  In StoreTextractResult (visited r)
  /\ In StoreMetadataResult (visited r)
  /\ map stage (history r)
     = [ProcessDocumentWithTextract; StoreTextractResult;
        ExtractAndStoreMetadata; StoreMetadataResult; RetrievePayload;
        GenerateImageDescriptionsLarge; AddToBedrockKnowledgeBase]
  /\ ~ List.length (history r) <= 5
  /\ In ExtractProcessedKey (visited r')
  /\ In ExtractMetadataForBedrock (visited r')
  /\ map stage (history r')
     = [ProcessDocumentWithTextract; ExtractAndStoreMetadata]
  /\ List.length (history r') <> 3.
Proof.
  intros r r'.
  split; [vm_compute; tauto|].
  split; [vm_compute; tauto|].
  split; [vm_compute; reflexivity|].
  split; [vm_compute; lia|].
  split; [vm_compute; tauto|].
  split; [vm_compute; tauto|].
  split; [vm_compute; reflexivity|].
  vm_compute. discriminate.
Qed.

(** ** Convergence of the branches *)

(** C6.  The inline branch of the metadata decision does not reach the
    stage the externalize branch reaches.  Whatever the workers answer, an
    execution that enters [ExtractMetadataForBedrock] fails with a
    run-time error on the payload of the captioner's task: neither the
    captioner nor the ingestor is ever called. *)
Theorem C6_inline_metadata_branch_stops_before_captioner b ws input :
  In ExtractMetadataForBedrock (visited (run b ws input)) ->
  outcome (run b ws input) = Failed "States.Runtime" "Parameters"
  /\ (forall i, In i (history (run b ws input)) ->
        workerRole b (stage i) <> Some Captioner
        /\ workerRole b (stage i) <> Some Ingestor)
  /\ ~ In AddToBedrockKnowledgeBase (visited (run b ws input)).
Proof.
  exact (inline_metadata_execs b ws input _ _ (run_execs b ws input)).
Qed.

Lemma C6_inline_metadata_branch_witness :
  let r := run "processed" wsInline JNull in
  In ExtractMetadataForBedrock (visited r)
  /\ outcome r = Failed "States.Runtime" "Parameters"
  /\ ~ In AddToBedrockKnowledgeBase (visited r).
Proof.
  intro r.
  assert (A : In ExtractMetadataForBedrock (visited r))
    by (vm_compute; tauto).
  split; [exact A|].
  destruct (C6_inline_metadata_branch_stops_before_captioner
              "processed" wsInline JNull A) as (Ho & _ & Hn).
  split; assumption.
Defined.

(** ** Determinism *)



(** ** The key handed to the metadata extractor *)

(** C8.  On the inline branch the metadata extractor is sent the literal
    key dummy-key, whatever the extractor answered; on the externalize
    branch it is sent the key of the payload reference that the store
    returned. *)
Theorem C8_inline_processed_key_is_placeholder b ws :
  (forall out code,
     lookup ["statusCode"] out = Some code ->
     exists data,
       step (definition b) ws ExtractProcessedKey out
       = (None, Goto ExtractAndStoreMetadata data)
       /\ requestAt b ws ExtractAndStoreMetadata data
          = Some (JObj [("processed_bucket", JStr b);
                        ("processed_key", JStr "dummy-key")]))
  /\ (forall stored key code,
        lookup ["payload_reference"; "key"] stored = Some key ->
        lookup ["original_status_code"] stored = Some code ->
        exists data,
          step (definition b) ws ExtractProcessedKeyLarge stored
          = (None, Goto ExtractAndStoreMetadata data)
          /\ requestAt b ws ExtractAndStoreMetadata data
             = Some (JObj [("processed_bucket", JStr b);
                           ("processed_key", key)])).
Proof.
  split.
  - intros out code H. eexists. split.
    + rewrite step_extractProcessedKeyState, H. reflexivity.
    + apply requestAt_metadataTask.
  - intros stored key code Hk Hc. eexists. split.
    + rewrite step_extractProcessedKeyLargeState, Hk, Hc. reflexivity.
    + apply requestAt_metadataTask.
Qed.

Lemma C8_inline_processed_key_witness :
  lookup ["statusCode"] (ok200 "extracted text") = Some (JNum 200)
  /\ exists data,
       step (definition "processed") wsInline ExtractProcessedKey
            (ok200 "extracted text")
       = (None, Goto ExtractAndStoreMetadata data)
       /\ requestAt "processed" wsInline ExtractAndStoreMetadata data
          = Some (JObj [("processed_bucket", JStr "processed");
                        ("processed_key", JStr "dummy-key")]).
Proof.
  split; [reflexivity|].
  apply (proj1 (C8_inline_processed_key_is_placeholder "processed" wsInline)
           (ok200 "extracted text") (JNum 200)).
  reflexivity.
Defined.

(** ** Termination *)

(** C9.  Every execution ends and enters no state twice: every transition
    of the definition goes down in [rank], so the graph has no cycle.  The
    state machine is created with a time-out of 30 minutes. *)
Theorem C9_terminates_without_revisiting b ws input :
  outcome (run b ws input) <> OutOfFuel
  /\ NoDup (visited (run b ws input))
  /\ (forall s s', In s' (successors (definition b s)) -> rank s' < rank s)
  /\ timeout (documentProcessingStateMachine b) = minutes 30
  /\ minutes 30 = 1800%Z.
Proof.
  split; [apply run_terminates|].
  split; [exact (execs_NoDup _ _ rank (definition_rank b) _ _ _ _
                   (run_execs b ws input))|].
  split; [apply definition_rank|].
  split; reflexivity.
Qed.

(** ** An output without a body *)



(* ================================================================== *)
(** * Further facts about executions of any machine *)
(* ================================================================== *)

Module TraceFacts.
Import ASL ASLFacts.

(** ** The calls of one task *)

Section Attempts.

Variable retry : option RetryProps.
Variable w : nat -> WorkerResult.

(** No more retries than were left. *)
Lemma attempt_length k : forall n,
  List.length (fst (attempt retry w k n)) <= k.
Proof.
  induction k as [|k IH]; intro n; simpl; [lia|].
  destruct (retries retry (w n)); simpl; [|lia].
  specialize (IH (S n)).
  destruct (attempt retry w k (S n)) as [again ended]. simpl in *. lia.
Qed.



End Attempts.

Section Executions.

Context {N : Type} (m : N -> State N) (ws : N -> json -> nat -> WorkerResult).

(** Two neighbours of a trace: the first hands over to the second. *)
Lemma execs_adjacent s input tr o pre e1 e2 post :
  execs m ws s input tr o ->
  tr = pre ++ e1 :: e2 :: post ->
  exists input1 d,
    step m ws (state e1) input1 = (invocation e1, Goto (state e2) d)
    /\ execs m ws (state e2) d (e2 :: post) o.
Proof.
  intros H Htr.
  destruct (execs_suffix _ _ _ _ _ _ H pre e1 (e2 :: post) Htr)
    as [input1 H1].
  inversion H1 as [? ? ? ? E|? ? ? s' d ? ? E Hrest]; subst; simpl.
  pose proof (execs_head _ _ _ _ _ _ Hrest) as (i' & tl & Heq & _).
  inversion Heq; subst; simpl.
  exists input1, d. split; assumption.
Qed.

(** The last state of a trace is the one that ends the execution. *)
Lemma execs_last s input tr o :
  execs m ws s input tr o ->
  exists pre e input',
    tr = pre ++ [e]
    /\ step m ws (state e) input' = (invocation e, Halt o).
Proof.
  induction 1 as [s input i o E|s input i s' d tr o E H IH].
  - exists [], (mkEvent s i (retriedAt m ws s input)), input.
    split; [reflexivity|exact E].
  - destruct IH as (pre & e & input' & -> & Hs).
    exists (mkEvent s i (retriedAt m ws s input) :: pre), e, input'.
    split; [reflexivity|exact Hs].
Qed.

Lemma step_succeeded s input i out :
  step m ws s input = (i, Halt (Succeeded out)) ->
  m s = Succeed /\ out = input.
Proof.
  unfold step, runtimeFailure.
  destruct (m s) as [fn p op rt nx|p nx|whens other| |e c].
  - destruct (render p input); [|discriminate].
    destruct (final rt (ws s j)); [|discriminate].
    destruct (lookup op _); discriminate.
  - destruct (render p input); discriminate.
  - destruct (select whens input) as [[t|]|]; try destruct other;
      discriminate.
  - intro H; inversion H; auto.
  - discriminate.
Qed.

(** A worker that raises ends the execution with its own error. *)
Lemma step_raised s input inv nx error cause :
  step m ws s input = (Some inv, nx) ->
  response inv = Raised error cause ->
  nx = Halt (Failed error cause).
Proof.
  unfold step.
  destruct (m s) as [fn p op rt nx'|p nx'|whens other| |e c].
  - destruct (render p input); [|discriminate].
    intros H Hr. inversion H; subst; simpl in Hr. now rewrite Hr.
  - destruct (render p input); discriminate.
  - destruct (select whens input) as [[t|]|]; try destruct other;
      discriminate.
  - discriminate.
  - discriminate.
Qed.


(** What the event of a task records: the calls of the worker, all with
    the request that the task rendered. *)
Lemma step_calls s input inv nx :
  step m ws s input = (Some inv, nx) ->
  exists fn payload outputPath retry next,
    m s = LambdaInvoke fn payload outputPath retry next
    /\ stage inv = s
    /\ response inv = snd (invoke retry (ws s (request inv)))
    /\ retriedAt m ws s input
       = map (mkInvocation s (request inv))
             (fst (invoke retry (ws s (request inv)))).
Proof.
  unfold step, retriedAt, final.
  destruct (m s) as [fn p op rt nx'|p nx'|whens other| |e c].
  - destruct (render p input) as [req|]; [|discriminate].
    intro H. inversion H; subst; simpl.
    exists fn, p, op, rt, nx'. auto.
  - destruct (render p input); discriminate.
  - destruct (select whens input) as [[t|]|]; try destruct other;
      discriminate.
  - discriminate.
  - discriminate.
Qed.

Lemma execs_event s input tr o :
  execs m ws s input tr o ->
  forall e, In e tr ->
  exists input' nx,
    step m ws (state e) input' = (invocation e, nx)
    /\ retried e = retriedAt m ws (state e) input'.
Proof.
  induction 1 as [s input i o E|s input i s' d tr o E H IH]; intros e Hin.
  - destruct Hin as [<-|[]]. exists input, (Halt o). auto.
  - destruct Hin as [<-|Hin]; [|auto].
    exists input, (Goto s' d). auto.
Qed.

(** An event at a state other than the first one has a predecessor. *)
Lemma execs_predecessor s input tr o pre e post :
  execs m ws s input tr o ->
  tr = pre ++ e :: post ->
  state e <> s ->
  exists pre' e0, pre = pre' ++ [e0].
Proof.
  intros H Htr Hne.
  destruct pre as [|x pre].
  - exfalso. apply Hne.
    destruct (execs_head _ _ _ _ _ _ H) as (i & tl & Heq & _).
    rewrite Htr in Heq. inversion Heq; subst. reflexivity.
  - destruct (exists_last (l := x :: pre)) as (pre' & e0 & Heq);
      [discriminate|].
    exists pre', e0. exact Heq.
Qed.

(** A property of the inputs that every hand-over keeps holds at every
    state of an execution. *)
Section Invariant.

Variable Inv : N -> json -> Prop.
Hypothesis Inv_kept :
  forall s input i s' d,
    Inv s input -> step m ws s input = (i, Goto s' d) -> Inv s' d.

Lemma execs_events_inv s input tr o :
  execs m ws s input tr o -> Inv s input ->
  forall e, In e tr ->
  exists input' nx,
    Inv (state e) input'
    /\ step m ws (state e) input' = (invocation e, nx).
Proof.
  induction 1 as [s input i o E|s input i s' d tr o E H IH];
    intros HI e Hin.
  - destruct Hin as [<-|[]]. exists input, (Halt o). auto.
  - destruct Hin as [<-|Hin].
    + exists input, (Goto s' d). auto.
    + apply IH; eauto.
Qed.

Lemma execs_suffix_inv s input tr o :
  execs m ws s input tr o -> Inv s input ->
  forall pre e post, tr = pre ++ e :: post ->
  exists input',
    Inv (state e) input' /\ execs m ws (state e) input' (e :: post) o.
Proof.
  induction 1 as [s input i o E|s input i s' d tr o E H IH];
    intros HI pre e post Heq.
  - destruct pre as [|x pre]; simpl in Heq.
    + inversion Heq; subst; simpl. exists input.
      split; [assumption|now apply execs_halt].
    + inversion Heq. destruct pre; discriminate.
  - destruct pre as [|x pre]; simpl in Heq.
    + inversion Heq; subst; simpl. exists input.
      split; [assumption|eapply execs_goto; eauto].
    + inversion Heq; subst. eapply IH; eauto.
Qed.

Lemma execs_final_inv s input tr o :
  execs m ws s input tr o -> Inv s input ->
  exists s' input' i,
    Inv s' input' /\ step m ws s' input' = (i, Halt o).
Proof.
  induction 1 as [s input i o E|s input i s' d tr o E H IH]; intro HI.
  - exists s, input, i. auto.
  - apply IH. eauto.
Qed.

End Invariant.

(** The stages of the history are the states of the trace at which a
    worker was called, in order. *)
Lemma execs_history_stages s input tr o :
  execs m ws s input tr o ->
  map stage (invocations tr) = map fst (filter snd (shape tr)).
Proof.
  induction 1 as [s input i o E|s input i s' d tr o E H IH]; simpl;
    unfold called; simpl.
  - destruct i as [i|]; simpl; [|reflexivity].
    apply step_invocation in E as (_ & -> & _). reflexivity.
  - destruct i as [i|]; simpl; [|exact IH].
    apply step_invocation in E as (_ & -> & _). now rewrite IH.
Qed.

(** Four states in a row. *)
Lemma execs_three s input tr o pre e0 e1 e2 e3 post :
  execs m ws s input tr o ->
  tr = pre ++ e0 :: e1 :: e2 :: e3 :: post ->
  exists d0 d1 d2 d3 nx,
    step m ws (state e0) d0 = (invocation e0, Goto (state e1) d1)
    /\ step m ws (state e1) d1 = (invocation e1, Goto (state e2) d2)
    /\ step m ws (state e2) d2 = (invocation e2, Goto (state e3) d3)
    /\ step m ws (state e3) d3 = (invocation e3, nx).
Proof.
  intros H Htr.
  destruct (execs_suffix m ws _ _ _ _ H pre e0 _ Htr) as [d0 H0].
  inversion H0 as [|? ? ? ? d1 ? ? E0 R1]; subst.
  inversion R1 as [|? ? ? ? d2 ? ? E1 R2]; subst.
  inversion R2 as [|? ? ? ? d3 ? ? E2 R3]; subst.
  exists d0, d1, d2, d3.
  inversion R3 as [? ? ? ? E3|? ? ? ? ? ? ? E3 R4]; subst; simpl in *;
    eexists; repeat split; eassumption.
Qed.

Lemma invocations_intro (tr : list (Event N)) e i :
  In e tr -> invocation e = Some i -> In i (invocations tr).
Proof.
  induction tr as [|x tr IH]; simpl; [intros []|].
  intros [->|Hin] Hi.
  - rewrite Hi. now left.
  - destruct (invocation x); [right|]; auto.
Qed.

(** ** Calls and retries *)

Section Retries.

(** No task of the machine has more than [k] retries. *)
Variable k : nat.
Hypothesis retry_bound :
  forall s fn payload outputPath props next,
    m s = LambdaInvoke fn payload outputPath (Some props) next ->
    maxAttempts props <= k.

Lemma execs_recorded s input tr o :
  execs m ws s input tr o -> forall e, In e tr -> recorded k e.
Proof.
  intros H e Hin. unfold recorded.
  destruct (execs_event _ _ _ _ H e Hin) as (input' & nx & E & Hr).
  destruct (invocation e) as [inv|].
  - destruct (step_calls _ _ _ _ E)
      as (fn & p & op & rt & nx' & Hm & Hs & _ & Hret).
    rewrite Hr, Hret, length_map. split.
    + unfold invoke. destruct rt as [props|].
      * etransitivity; [apply attempt_length|]. eapply retry_bound; eauto.
      * etransitivity; [apply attempt_length|]. lia.
    + intros i Hi. apply in_map_iff in Hi as (r & <- & _). now rewrite Hs.
  - rewrite Hr. eapply step_not_called; eauto.
Qed.

Lemma filter_same_stage (g : N -> bool) (l : list (Invocation N)) s' :
  (forall i, In i l -> stage i = s') ->
  List.length (filter g (map stage l))
  = if g s' then List.length l else 0.
Proof.
  induction l as [|i l IH]; intro H; simpl.
  - now destruct (g s').
  - rewrite (H i) by now left.
    assert (Hl : forall j, In j l -> stage j = s')
      by (intros; apply H; now right).
    specialize (IH Hl). destruct (g s'); simpl; lia.
Qed.

(** The calls of a trace, retries included, against its history: at
    least as many, and at most [1 + k] times as many, at the states that
    [g] picks. *)
Lemma attempts_count (g : N -> bool) (tr : list (Event N)) :
  (forall e, In e tr -> recorded k e) ->
  List.length (filter g (map stage (invocations tr)))
  <= List.length (filter g (map stage (flat_map callsAt tr)))
  <= (1 + k) * List.length (filter g (map stage (invocations tr))).
Proof.
  induction tr as [|e tr IH]; intro H; [simpl; lia|].
  assert (IH' := IH (fun x Hx => H x (or_intror Hx))).
  pose proof (H e (or_introl eq_refl)) as He. unfold recorded in He.
  cbn [invocations flat_map].
  assert (Hc : callsAt e
               = retried e ++ match invocation e with
                              | Some i => [i]
                              | None => []
                              end) by reflexivity.
  rewrite Hc. clear Hc.
  destruct (invocation e) as [inv|].
  - destruct He as [Hk Hst].
    rewrite <- app_assoc, map_app, filter_app, length_app.
    rewrite (filter_same_stage g _ _ Hst). simpl.
    destruct (g (stage inv)); simpl; nia.
  - rewrite He. simpl. exact IH'.
Qed.

Lemma filter_all {A : Type} (l : list A) : filter (fun _ => true) l = l.
Proof. induction l; simpl; congruence. Qed.

Lemma attempts_length (tr : list (Event N)) :
  (forall e, In e tr -> recorded k e) ->
  List.length (invocations tr) <= List.length (flat_map callsAt tr)
  <= (1 + k) * List.length (invocations tr).
Proof.
  intro H. pose proof (attempts_count (fun _ => true) tr H) as Hc.
  rewrite !filter_all, !length_map in Hc. exact Hc.
Qed.

End Retries.

End Executions.

Lemma numberEquals_200_inv (p : Path) (j : json) :
  Condition.eval (Condition.numberEquals p 200) j = Some true ->
  lookup p j = Some (JNum 200).
Proof.
  simpl. destruct (lookup p j) as [[| |n| | |]|]; try discriminate.
  intro H. inversion H as [H1]. apply Z.eqb_eq in H1. now subst.
Qed.

End TraceFacts.

(* ================================================================== *)
(** * Data flow of the stack's machine *)
(* ================================================================== *)

Module FlowFacts.
Import ASL ASLFacts TraceFacts Stack Props StackFacts Flow.

(** ** The remaining states one by one *)

Lemma step_storeTask b ws s input :
  s = StoreTextractResult \/ s = StoreMetadataResult ->
  exists nx,
    step (definition b) ws s input
    = (Some (mkInvocation s
               (JObj [("operation", JStr "store"); ("payload", input)])
               (answer (definition b) ws s (JObj [("operation", JStr "store");
                            ("payload", input)]))),
       nx).
Proof.
  intros [-> | ->]; unfold step, answer; simpl; eexists; reflexivity.
Qed.

Lemma step_retrievePayloadTask b ws input :
  step (definition b) ws RetrievePayload input =
  (Some (mkInvocation RetrievePayload input
           (answer (definition b) ws RetrievePayload input)),
   match answer (definition b) ws RetrievePayload input with
   | Returned v => Goto ExtractMetadataForBedrockLarge v
   | Raised e c => Halt (Failed e c)
   end).
Proof.
  unfold step, answer; simpl.
  destruct (final _ (ws RetrievePayload input)); reflexivity.
Qed.

Lemma step_extractMetadataForBedrockLargeState b ws retrieved :
  step (definition b) ws ExtractMetadataForBedrockLarge retrieved =
  match lookup ["processed_bucket"] retrieved,
        lookup ["processed_key"] retrieved,
        lookup ["document_id"] retrieved,
        lookup ["metadata_id"] retrieved with
  | Some bucket, Some key, Some doc, Some id =>
      (None,
       Goto GenerateImageDescriptionsLarge
         (JObj [("processed_bucket", bucket); ("processed_key", key);
                ("document_id", doc);
                ("metadata", JObj [("document_id", doc); ("id", id)])]))
  | _, _, _, _ => (None, Halt (runtimeFailure "Parameters"))
  end.
Proof.
  unfold step; simpl.
  destruct (lookup ["processed_bucket"] retrieved);
    destruct (lookup ["processed_key"] retrieved);
    destruct (lookup ["document_id"] retrieved);
    destruct (lookup ["metadata_id"] retrieved); reflexivity.
Qed.

Lemma step_createImageDescriptionTask b ws bucket key doc id :
  let request := JObj [("document_id", doc); ("metadata_id", id)] in
  step (definition b) ws GenerateImageDescriptionsLarge
    (JObj [("processed_bucket", bucket); ("processed_key", key);
           ("document_id", doc);
           ("metadata", JObj [("document_id", doc); ("id", id)])])
  = (Some (mkInvocation GenerateImageDescriptionsLarge request
             (answer (definition b) ws GenerateImageDescriptionsLarge request)),
     match answer (definition b) ws GenerateImageDescriptionsLarge request with
     | Returned v => Goto MapImageDescriptionFieldsLarge v
     | Raised e c => Halt (Failed e c)
     end).
Proof.
  intro request. unfold step, answer; simpl. fold request.
  destruct (final _ (ws GenerateImageDescriptionsLarge request)); reflexivity.
Qed.

Lemma step_mapImageDescriptionFields b ws s described :
  s = MapImageDescriptionFieldsLarge \/ s = MapImageDescriptionFieldsNormal ->
  step (definition b) ws s described =
  match lookup ["processed_bucket"] described,
        lookup ["processed_key"] described,
        lookup ["document_id"] described,
        lookup ["statusCode"] described with
  | Some bucket, Some key, Some doc, Some code =>
      (None,
       Goto AddToBedrockKnowledgeBase
         (JObj [("processed_bucket", bucket); ("processed_key", key);
                ("document_id", doc); ("statusCode", code);
                ("operation", JStr "add_document_to_knowledge_base")]))
  | _, _, _, _ => (None, Halt (runtimeFailure "Parameters"))
  end.
Proof.
  intros [-> | ->]; unfold step; simpl;
    destruct (lookup ["processed_bucket"] described);
    destruct (lookup ["processed_key"] described);
    destruct (lookup ["document_id"] described);
    destruct (lookup ["statusCode"] described); reflexivity.
Qed.

Lemma sizeGuard_externalize output :
  lookup ["statusCode"] output = Some (JNum 200) ->
  sizeGuard output = Some Externalize -> oversized output.
Proof.
  intros Hs G. split; [exact Hs|].
  rewrite sizeGuard_cases in G.
  destruct (lookup ["body"] output) as [[| | |body| |]|]; try discriminate.
  exists body. split; [reflexivity|].
  destruct (Condition.string_gtb body "204800"); [reflexivity|discriminate].
Qed.

(** ** The inputs of the states *)

Ltac plain_step E :=
  unfold step in E; simpl in E;
  repeat match type of E with
         | context [match ?x with _ => _ end] => destruct x
         end;
  try discriminate; inversion E; subst; simpl; auto.

(** Every hand-over of the machine keeps [inputAt]. *)
Lemma inputAt_kept b ws s input i s' d :
  inputAt b s input ->
  step (definition b) ws s input = (i, Goto s' d) ->
  inputAt b s' d.
Proof.
  intros HI E. destruct s.
  - (* ProcessDocumentWithTextract *)
    rewrite step_textractTask in E.
    destruct (answer (definition b) ws ProcessDocumentWithTextract input);
      inversion E; subst.
    exact I.
  - (* StoreTextractResult *) plain_step E.
  - (* ExtractProcessedKeyLarge *)
    rewrite step_extractProcessedKeyLargeState in E.
    destruct (lookup ["payload_reference"; "key"] input) as [key|];
      [destruct (lookup ["original_status_code"] input) as [code|]|];
      inversion E; subst. simpl. eauto.
  - (* ExtractProcessedKey *)
    rewrite step_extractProcessedKeyState in E.
    destruct (lookup ["statusCode"] input) as [code|]; inversion E; subst.
    simpl. eauto.
  - (* ExtractAndStoreMetadata *)
    rewrite step_metadataTask in E.
    destruct (render _ input) as [p|]; [|discriminate].
    destruct (answer (definition b) ws ExtractAndStoreMetadata p);
      inversion E; subst. exact I.
  - (* GenerateImageDescriptionsLarge *)
    destruct HI as (bucket & key & doc & id & ->).
    rewrite step_createImageDescriptionTask in E.
    destruct (answer (definition b) ws GenerateImageDescriptionsLarge _);
      inversion E; subst.
    exact I.
  - (* GenerateImageDescriptionsNormal *)
    destruct HI as (bucket & key & doc & ->).
    rewrite step_GenerateImageDescriptionsNormal in E. discriminate.
  - (* StoreMetadataResult *) plain_step E.
  - (* RetrievePayload *)
    rewrite step_retrievePayloadTask in E.
    destruct (answer (definition b) ws RetrievePayload input);
      inversion E; subst. exact I.
  - (* ExtractMetadataForBedrockLarge *)
    rewrite step_extractMetadataForBedrockLargeState in E.
    destruct (lookup ["processed_bucket"] input) as [bucket|];
      [destruct (lookup ["processed_key"] input) as [key|];
       [destruct (lookup ["document_id"] input) as [doc|];
        [destruct (lookup ["metadata_id"] input) as [id|]|]|]|];
      inversion E; subst. simpl. eauto 6.
  - (* ExtractMetadataForBedrock *)
    rewrite step_extractMetadataForBedrockState in E.
    destruct (lookup ["metadata"; "processed_bucket"] input) as [bucket|];
      [destruct (lookup ["metadata"; "processed_key"] input) as [key|];
       [destruct (lookup ["metadata"; "document_id"] input) as [doc|]|]|];
      inversion E; subst. simpl. eauto.
  - (* AddToBedrockKnowledgeBase *)
    rewrite step_bedrockTask in E.
    destruct (answer (definition b) ws AddToBedrockKnowledgeBase input);
      inversion E; subst.
    simpl. eauto.
  - (* ProcessingSucceeded *) discriminate.
  - (* ProcessingFailed *) discriminate.
  - (* CheckTextractProcessing *)
    rewrite step_CheckTextractProcessing in E. unfold statusChoice in E.
    destruct (Condition.eval _ input) as [[|]|] eqn:C; inversion E; subst.
    + simpl. now apply numberEquals_200_inv.
    + exact I.
  - (* CheckTextractPayloadSize *)
    rewrite step_CheckTextractPayloadSize in E. unfold sizeChoice in E.
    simpl in HI.
    destruct (sizeGuard input) as [[|]|] eqn:G; inversion E; subst; simpl.
    + auto.
    + now apply sizeGuard_externalize.
  - (* CheckMetadataExtraction *)
    rewrite step_CheckMetadataExtraction in E. unfold statusChoice in E.
    destruct (Condition.eval _ input) as [[|]|] eqn:C; inversion E; subst.
    + simpl. now apply numberEquals_200_inv.
    + exact I.
  - (* CheckMetadataPayloadSize *)
    rewrite step_CheckMetadataPayloadSize in E. unfold sizeChoice in E.
    simpl in HI.
    destruct (sizeGuard input) as [[|]|] eqn:G; inversion E; subst; simpl.
    + auto.
    + now apply sizeGuard_externalize.
  - (* MapImageDescriptionFieldsLarge *)
    rewrite step_mapImageDescriptionFields in E by auto.
    destruct (lookup ["processed_bucket"] input) as [bucket|];
      [destruct (lookup ["processed_key"] input) as [key|];
       [destruct (lookup ["document_id"] input) as [doc|];
        [destruct (lookup ["statusCode"] input) as [code|]|]|]|];
      inversion E; subst. simpl. eauto 6.
  - (* MapImageDescriptionFieldsNormal *)
    rewrite step_mapImageDescriptionFields in E by auto.
    destruct (lookup ["processed_bucket"] input) as [bucket|];
      [destruct (lookup ["processed_key"] input) as [key|];
       [destruct (lookup ["document_id"] input) as [doc|];
        [destruct (lookup ["statusCode"] input) as [code|]|]|]|];
      inversion E; subst. simpl. eauto 6.
  - (* CheckBedrockIntegration *)
    destruct HI as [v ->].
    rewrite step_CheckBedrockIntegration in E. unfold statusChoice in E.
    destruct (Condition.eval _ (invokeResult v)) as [[|]|] eqn:C;
      inversion E; subst.
    + simpl. exists v. split; [reflexivity|].
      apply numberEquals_200_inv in C. now rewrite lookup_Payload in C.
    + exact I.
Qed.

Lemma execs_inputAt b ws input tr o e :
  execs (definition b) ws ProcessDocumentWithTextract input tr o ->
  In e tr ->
  exists input' nx,
    inputAt b (state e) input'
    /\ step (definition b) ws (state e) input' = (invocation e, nx).
Proof.
  intros H Hin.
  exact (execs_events_inv _ _ (inputAt b) (inputAt_kept b ws) _ _ _ _ H I
           e Hin).
Qed.

(** ** The status checks, case by case *)

Lemma statusChoice_cases p yes data v :
  lookup p data = v ->
  (v = Some (JNum 200)
   /\ statusChoice p yes data = (None, Goto yes data))
  \/ (v = None
      /\ statusChoice p yes data = (None, Halt (runtimeFailure "Variable")))
  \/ ((exists w, v = Some w /\ w <> JNum 200)
      /\ statusChoice p yes data = (None, Goto ProcessingFailed data)).
Proof.
  intro H. unfold statusChoice. cbn [Condition.eval]. rewrite H.
  destruct v as [[| |n| | |]|];
    try (right; right; split; [eexists; split; [reflexivity|discriminate]
                              |reflexivity]).
  - destruct (Z.eqb_spec n 200) as [->|Hn].
    + left. split; reflexivity.
    + right; right. split; [|reflexivity].
      eexists; split; [reflexivity|]. intro H'. inversion H'. contradiction.
  - right; left. split; reflexivity.
Qed.

(** After a checked stage has answered, its check decides on the status
    code of the answer alone. *)
Lemma checked_stage_gate b ws t chk input req out nx :
  statusCheck t = Some chk ->
  step (definition b) ws t input
  = (Some (mkInvocation t req (Returned out)), nx) ->
  exists data,
    nx = Goto chk data
    /\ ((lookup ["statusCode"] out = Some (JNum 200)
         /\ exists yes,
              step (definition b) ws chk data = (None, Goto yes data))
        \/ (lookup ["statusCode"] out = None
            /\ step (definition b) ws chk data
               = (None, Halt (runtimeFailure "Variable")))
        \/ ((exists w, lookup ["statusCode"] out = Some w /\ w <> JNum 200)
            /\ step (definition b) ws chk data
               = (None, Goto ProcessingFailed data))).
Proof.
  intros Hchk E.
  destruct t; simpl in Hchk; try discriminate; inversion Hchk; subst chk.
  - rewrite step_textractTask in E. inversion E as [[H1 H2 H3]].
    rewrite H2. exists out. split; [reflexivity|].
    rewrite step_CheckTextractProcessing.
    destruct (statusChoice_cases ["statusCode"] CheckTextractPayloadSize
                out _ eq_refl) as [[A B]|[[A B]|[A B]]]; eauto.
  - rewrite step_metadataTask in E.
    destruct (render _ input) as [p|]; [|discriminate].
    inversion E as [[H1 H2 H3]].
    rewrite H2. exists out. split; [reflexivity|].
    rewrite step_CheckMetadataExtraction.
    destruct (statusChoice_cases ["statusCode"] CheckMetadataPayloadSize
                out _ eq_refl) as [[A B]|[[A B]|[A B]]]; eauto.
  - rewrite step_bedrockTask in E. inversion E as [[H1 H2 H3]].
    rewrite H2. exists (invokeResult out). split; [reflexivity|].
    rewrite step_CheckBedrockIntegration.
    destruct (statusChoice_cases ["Payload"; "statusCode"]
                ProcessingSucceeded (invokeResult out) _
                (lookup_Payload ["statusCode"] out))
      as [[A B]|[[A B]|[A B]]]; eauto.
Qed.

Lemma definition_Succeed b s :
  definition b s = Succeed -> s = ProcessingSucceeded.
Proof. destruct s; simpl; intro H; try discriminate; reflexivity. Qed.

(** ** Executions that succeed *)

Lemma success_output b ws input tr out :
  execs (definition b) ws ProcessDocumentWithTextract input tr
        (Succeeded out) ->
  exists v, out = invokeResult v /\ lookup ["statusCode"] v = Some (JNum 200).
Proof.
  intro H.
  destruct (execs_final_inv _ _ (inputAt b) (inputAt_kept b ws) _ _ _ _ H I)
    as (s' & input' & i & HI & E).
  apply step_succeeded in E as [Hs ->].
  apply definition_Succeed in Hs. subst s'. exact HI.
Qed.

Lemma success_checked_stage b ws input tr out inv chk :
  execs (definition b) ws ProcessDocumentWithTextract input tr
        (Succeeded out) ->
  In inv (invocations tr) ->
  statusCheck (stage inv) = Some chk ->
  exists v,
    response inv = Returned v /\ lookup ["statusCode"] v = Some (JNum 200).
Proof.
  intros H Hin Hchk.
  apply invocations_In in Hin as (e & Hin & Hinv).
  apply in_split in Hin as (pre & post & Htr).
  destruct (execs_suffix _ _ _ _ _ _ H pre e post Htr) as [input' H'].
  destruct e as [s i rs]; simpl in *; subst i.
  inversion H' as [? ? ? ? E|? ? ? s' d ? ? E Hrest]; subst.
  - exfalso.
    pose proof (step_invocation _ _ _ _ _ _ E) as (Ht & _ & _).
    apply step_succeeded in E as [Hs _]. rewrite Hs in Ht. discriminate.
  - pose proof (step_invocation _ _ _ _ _ _ E) as (_ & Hs & _).
    destruct inv as [t req resp]; simpl in *; subst t.
    destruct resp as [v|error cause].
    + exists v. split; [reflexivity|].
      destruct (checked_stage_gate _ _ _ _ _ _ _ _ Hchk E)
        as (data & Hnx & [[A _]|[[_ B]|[_ B]]]).
      * exact A.
      * exfalso. inversion Hnx; subst.
        inversion Hrest as [? ? ? ? E2|? ? ? ? ? ? ? E2 H2]; subst;
          rewrite B in E2; discriminate.
      * exfalso. inversion Hnx; subst.
        destruct (execs_to_failed _ _ _ _ _ _ B Hrest) as [_ Hf].
        discriminate.
    + exfalso.
      pose proof (step_raised _ _ _ _ _ _ _ _ E eq_refl) as Hnx.
      discriminate.
Qed.

Lemma missing_status_execs b ws input tr o pre e post t chk req out :
  execs (definition b) ws ProcessDocumentWithTextract input tr o ->
  tr = pre ++ e :: post ->
  invocation e = Some (mkInvocation t req (Returned out)) ->
  statusCheck t = Some chk ->
  lookup ["statusCode"] out = None ->
  post = [mkEvent chk None []] /\ o = runtimeFailure "Variable".
Proof.
  intros H Htr Hinv Hchk Hnone.
  destruct (execs_suffix _ _ _ _ _ _ H pre e post Htr) as [input' H'].
  destruct e as [s i rs]; simpl in *; subst i.
  assert (Hgate : forall nx,
    step (definition b) ws s input'
    = (Some (mkInvocation t req (Returned out)), nx) ->
    exists data, nx = Goto chk data
      /\ step (definition b) ws chk data
         = (None, Halt (runtimeFailure "Variable"))).
  { intros nx E.
    pose proof (step_invocation _ _ _ _ _ _ E) as (_ & Hs & _).
    simpl in Hs; subst s.
    destruct (checked_stage_gate _ _ _ _ _ _ _ _ Hchk E)
      as (data & Hnx & [[A _]|[[_ B]|[[w [A _]] _]]]);
      try (rewrite Hnone in A; discriminate).
    exists data. auto. }
  inversion H' as [? ? ? ? E|? ? ? s' d ? ? E Hrest]; subst.
  - destruct (Hgate _ E) as (data & Hnx & _). discriminate.
  - destruct (Hgate _ E) as (data & Hnx & B). inversion Hnx; subst.
    inversion Hrest as [? ? ? ? E2|? ? ? ? ? ? ? E2 H2]; subst;
      rewrite B in E2; inversion E2; subst.
    rewrite (step_not_called _ _ _ _ _ B). auto.
Qed.

(** ** What the workers are sent *)

Lemma lambdaAt_store b s :
  lambdaAt b s = Some payloadUtilsLambda ->
  s = StoreTextractResult \/ s = StoreMetadataResult.
Proof. destruct s; simpl; intro H; try discriminate; auto. Qed.

Lemma lambdaAt_captioner b s :
  lambdaAt b s = Some imageDescriptionGeneratorLambda ->
  s = GenerateImageDescriptionsLarge \/ s = GenerateImageDescriptionsNormal.
Proof. destruct s; simpl; intro H; try discriminate; auto. Qed.

Lemma history_event b ws input tr o inv :
  execs (definition b) ws ProcessDocumentWithTextract input tr o ->
  In inv (invocations tr) ->
  exists input' nx,
    inputAt b (stage inv) input'
    /\ step (definition b) ws (stage inv) input' = (Some inv, nx).
Proof.
  intros H Hin.
  apply invocations_In in Hin as (e & Hin & Hinv).
  destruct (execs_inputAt _ _ _ _ _ _ H Hin) as (input' & nx & HI & E).
  rewrite Hinv in E.
  pose proof (step_invocation _ _ _ _ _ _ E) as (_ & Hs & _).
  rewrite Hs. eauto.
Qed.

Lemma captioner_request_execs b ws input tr o inv :
  execs (definition b) ws ProcessDocumentWithTextract input tr o ->
  In inv (invocations tr) ->
  lambdaAt b (stage inv) = Some imageDescriptionGeneratorLambda ->
  stage inv = GenerateImageDescriptionsLarge
  /\ exists doc id,
       request inv = JObj [("document_id", doc); ("metadata_id", id)].
Proof.
  intros H Hin Hfn.
  destruct (history_event _ _ _ _ _ _ H Hin) as (input' & nx & HI & E).
  apply lambdaAt_captioner in Hfn. destruct Hfn as [Hs|Hs]; rewrite Hs in *.
  - split; [reflexivity|].
    destruct HI as (bucket & key & doc & id & ->).
    rewrite step_createImageDescriptionTask in E.
    inversion E as [[Hinv Hnx]]. simpl. eauto.
  - exfalso. destruct HI as (bucket & key & doc & ->).
    rewrite step_GenerateImageDescriptionsNormal in E. discriminate.
Qed.

(** The store is sent the output of the stage before it. *)
Lemma store_payload_execs b ws input tr o inv :
  execs (definition b) ws ProcessDocumentWithTextract input tr o ->
  In inv (invocations tr) ->
  lambdaAt b (stage inv) = Some payloadUtilsLambda ->
  exists prev output,
    In prev (invocations tr)
    /\ (stage prev = ProcessDocumentWithTextract
        /\ stage inv = StoreTextractResult
        \/ stage prev = ExtractAndStoreMetadata
           /\ stage inv = StoreMetadataResult)
    /\ response prev = Returned output
    /\ oversized output
    /\ request inv = JObj [("operation", JStr "store"); ("payload", output)].
Proof.
  intros H Hin Hfn.
  apply invocations_In in Hin as (e3 & Hin & Hinv).
  assert (Hs3 : state e3 = stage inv).
  { symmetry. eapply execs_stage; eauto. }
  apply lambdaAt_store in Hfn. rewrite <- Hs3 in Hfn.
  apply in_split in Hin as (pre3 & post & Htr).
  destruct (execs_predecessor _ _ _ _ _ _ _ _ _ H Htr) as (pre2 & e2 & ->).
  { destruct Hfn as [-> | ->]; discriminate. }
  rewrite <- app_assoc in Htr. simpl in Htr.
  destruct (execs_adjacent _ _ _ _ _ _ _ _ _ _ H Htr) as (? & ? & E2 & _).
  assert (Hs2 : state e2 = CheckTextractPayloadSize
                /\ state e3 = StoreTextractResult
                \/ state e2 = CheckMetadataPayloadSize
                   /\ state e3 = StoreMetadataResult).
  { apply step_goto_successor in E2.
    destruct Hfn as [Hf|Hf]; rewrite Hf in *;
      destruct (state e2); simpl in E2; intuition discriminate. }
  clear E2.
  destruct (execs_predecessor _ _ _ _ _ _ _ _ _ H Htr) as (pre1 & e1 & ->).
  { destruct Hs2 as [[-> _]|[-> _]]; discriminate. }
  rewrite <- app_assoc in Htr. simpl in Htr.
  destruct (execs_adjacent _ _ _ _ _ _ _ _ _ _ H Htr) as (? & ? & E1 & _).
  assert (Hs1 : state e1 = CheckTextractProcessing
                /\ state e2 = CheckTextractPayloadSize
                /\ state e3 = StoreTextractResult
                \/ state e1 = CheckMetadataExtraction
                   /\ state e2 = CheckMetadataPayloadSize
                   /\ state e3 = StoreMetadataResult).
  { apply step_goto_successor in E1.
    destruct Hs2 as [[Hf Hg]|[Hf Hg]]; rewrite Hf in *;
      destruct (state e1); simpl in E1; intuition discriminate. }
  clear E1 Hs2.
  destruct (execs_predecessor _ _ _ _ _ _ _ _ _ H Htr) as (pre0 & e0 & ->).
  { destruct Hs1 as [[-> _]|[-> _]]; discriminate. }
  rewrite <- app_assoc in Htr. simpl in Htr.
  destruct (execs_three _ _ _ _ _ _ _ _ _ _ _ _ H Htr)
    as (d0 & d1 & d2 & d3 & nx & E0 & E1 & E2 & E3).
  assert (Hin0 : In e0 tr).
  { rewrite Htr. apply in_elt. }
  assert (Hs0 : state e0 = ProcessDocumentWithTextract
                /\ state e1 = CheckTextractProcessing
                /\ state e2 = CheckTextractPayloadSize
                /\ state e3 = StoreTextractResult
                \/ state e0 = ExtractAndStoreMetadata
                   /\ state e1 = CheckMetadataExtraction
                   /\ state e2 = CheckMetadataPayloadSize
                   /\ state e3 = StoreMetadataResult).
  { pose proof (step_goto_successor _ _ _ _ _ _ _ E0) as S0.
    destruct Hs1 as [[Hf Hg]|[Hf Hg]]; rewrite Hf in S0;
      destruct (state e0); simpl in S0; intuition discriminate. }
  clear Hs1 Hfn.
  destruct Hs0 as [(S0 & S1 & S2 & S3)|(S0 & S1 & S2 & S3)];
    rewrite S0, S1 in E0; rewrite S1, S2 in E1; rewrite S2, S3 in E2;
    rewrite S3 in E3.
  - rewrite step_textractTask in E0.
    destruct (answer (definition b) ws ProcessDocumentWithTextract d0)
      as [v|? ?] eqn:A0; inversion E0 as [[I0 D1]]; subst d1.
    rewrite step_CheckTextractProcessing in E1. unfold statusChoice in E1.
    destruct (Condition.eval _ v) as [[|]|] eqn:C1; inversion E1; subst d2.
    rewrite step_CheckTextractPayloadSize in E2. unfold sizeChoice in E2.
    destruct (sizeGuard v) as [[|]|] eqn:G; inversion E2; subst d3.
    destruct (step_storeTask b ws StoreTextractResult v (or_introl eq_refl))
      as [nx' E3'].
    rewrite E3', Hinv in E3. injection E3 as I3 _.
    rewrite <- I3. cbn [stage request response].
    exists (mkInvocation ProcessDocumentWithTextract d0 (Returned v)), v.
    split; [eapply invocations_intro; eauto|].
    split; [left; split; reflexivity|].
    split; [reflexivity|].
    split; [|reflexivity].
    apply sizeGuard_externalize; [|exact G].
    now apply numberEquals_200_inv.
  - rewrite step_metadataTask in E0.
    destruct (render _ d0) as [p|]; [|discriminate].
    destruct (answer (definition b) ws ExtractAndStoreMetadata p)
      as [v|? ?] eqn:A0; inversion E0 as [[I0 D1]]; subst d1.
    rewrite step_CheckMetadataExtraction in E1. unfold statusChoice in E1.
    destruct (Condition.eval _ v) as [[|]|] eqn:C1; inversion E1; subst d2.
    rewrite step_CheckMetadataPayloadSize in E2. unfold sizeChoice in E2.
    destruct (sizeGuard v) as [[|]|] eqn:G; inversion E2; subst d3.
    destruct (step_storeTask b ws StoreMetadataResult v (or_intror eq_refl))
      as [nx' E3'].
    rewrite E3', Hinv in E3. injection E3 as I3 _.
    rewrite <- I3. cbn [stage request response].
    exists (mkInvocation ExtractAndStoreMetadata p (Returned v)), v.
    split; [eapply invocations_intro; eauto|].
    split; [right; split; reflexivity|].
    split; [reflexivity|].
    split; [|reflexivity].
    apply sizeGuard_externalize; [|exact G].
    now apply numberEquals_200_inv.
Qed.

(** The ingestor is sent what the captioner answered. *)
Lemma ingestor_request_execs b ws input tr o inv :
  execs (definition b) ws ProcessDocumentWithTextract input tr o ->
  In inv (invocations tr) ->
  stage inv = AddToBedrockKnowledgeBase ->
  exists cap described bucket key doc code,
    In cap (invocations tr)
    /\ stage cap = GenerateImageDescriptionsLarge
    /\ response cap = Returned described
    /\ lookup ["processed_bucket"] described = Some bucket
    /\ lookup ["processed_key"] described = Some key
    /\ lookup ["document_id"] described = Some doc
    /\ lookup ["statusCode"] described = Some code
    /\ request inv
       = JObj [("processed_bucket", bucket); ("processed_key", key);
               ("document_id", doc); ("statusCode", code);
               ("operation", JStr "add_document_to_knowledge_base")].
Proof.
  intros H Hin Hst.
  apply invocations_In in Hin as (e3 & Hin & Hinv).
  assert (Hs3 : state e3 = AddToBedrockKnowledgeBase).
  { rewrite <- Hst. symmetry. eapply execs_stage; eauto. }
  apply in_split in Hin as (pre3 & post & Htr).
  destruct (execs_predecessor _ _ _ _ _ _ _ _ _ H Htr) as (pre2 & e2 & ->).
  { rewrite Hs3. discriminate. }
  rewrite <- app_assoc in Htr. simpl in Htr.
  destruct (execs_adjacent _ _ _ _ _ _ _ _ _ _ H Htr)
    as (input2 & d3 & E2 & _).
  assert (Hs2 : state e2 = MapImageDescriptionFieldsLarge
                \/ state e2 = MapImageDescriptionFieldsNormal).
  { apply step_goto_successor in E2. rewrite Hs3 in E2.
    destruct (state e2); simpl in E2; intuition discriminate. }
  destruct (execs_predecessor _ _ _ _ _ _ _ _ _ H Htr) as (pre1 & e1 & ->).
  { destruct Hs2 as [-> | ->]; discriminate. }
  rewrite <- app_assoc in Htr. simpl in Htr.
  destruct (execs_suffix_inv _ _ (inputAt b) (inputAt_kept b ws)
              _ _ _ _ H I pre1 e1 (e2 :: e3 :: post) Htr)
    as (input1 & HI1 & H1).
  clear E2 input2 d3.
  destruct e1 as [s1 i1], e2 as [s2 i2], e3 as [s3 i3]; simpl in *.
  subst s3 i3.
  inversion H1 as [|? ? ? ? d2 ? ? E1 Hrest2]; subst.
  inversion Hrest2 as [|? ? ? ? d3 ? ? E2 Hrest3]; subst.
  pose proof (execs_head _ _ _ _ _ _ Hrest3) as (i3 & tl3 & Heq3 & Hi3).
  inversion Heq3; subst i3 tl3. clear Heq3.
  assert (Hs1 : s1 = GenerateImageDescriptionsLarge
                \/ s1 = GenerateImageDescriptionsNormal).
  { apply step_goto_successor in E1.
    destruct Hs2 as [-> | ->]; destruct s1; simpl in E1;
      intuition discriminate. }
  destruct Hs1 as [-> | ->].
  2:{ exfalso. destruct HI1 as (bucket & key & doc & ->).
      rewrite step_GenerateImageDescriptionsNormal in E1. discriminate. }
  destruct HI1 as (bucket0 & key0 & doc0 & id0 & ->).
  rewrite step_createImageDescriptionTask in E1.
  inversion E1 as [[Hi1 Hnx1]]. clear E1.
  destruct (answer (definition b) ws GenerateImageDescriptionsLarge _)
    as [described|? ?] eqn:Hw; [|discriminate].
  inversion Hnx1; subst s2 d2. clear Hnx1 Hs2.
  rewrite step_mapImageDescriptionFields in E2 by auto.
  destruct (lookup ["processed_bucket"] described) as [bucket|] eqn:Lb;
    [destruct (lookup ["processed_key"] described) as [key|] eqn:Lk;
     [destruct (lookup ["document_id"] described) as [doc|] eqn:Ld;
      [destruct (lookup ["statusCode"] described) as [code|] eqn:Lc|]|]|];
    inversion E2; subst.
  match goal with
  | Hx : Some inv = fst _ |- _ =>
      rewrite step_bedrockTask in Hx; simpl in Hx; inversion Hx; subst
  end.
  eexists (mkInvocation GenerateImageDescriptionsLarge _ (Returned described)),
    described, bucket, key, doc, code.
  split.
  { rewrite invocations_app. apply in_or_app. right. simpl. now left. }
  repeat split; assumption || reflexivity.
Qed.

(** ** Paths, call counts and budgets, read off the graph *)

Lemma shapes_flow b :
  forallb (fun sh => successShape sh && withinCallLimits b sh
                     && withinBudgets b sh)
    (shapes (definition b) fuel ProcessDocumentWithTextract) = true.
Proof. vm_compute. reflexivity. Qed.

Lemma run_flow b ws input :
  let sh := shape (trace (run b ws input)) in
  successShape sh = true /\ withinCallLimits b sh = true
  /\ withinBudgets b sh = true.
Proof.
  intro sh. pose proof (shapes_flow b) as H.
  rewrite forallb_forall in H. specialize (H sh (run_shape b ws input)).
  rewrite !andb_true_iff in H. tauto.
Qed.

Lemma sameStates_eq l l' : sameStates l l' = true -> l = l'.
Proof.
  unfold sameStates. destruct (list_eq_dec StateName_eq_dec l l');
    [auto|discriminate].
Qed.

Lemma success_path (r : Run StateName) b ws input out :
  execs (definition b) ws ProcessDocumentWithTextract input
        (trace r) (outcome r) ->
  successShape (shape (trace r)) = true ->
  outcome r = Succeeded out ->
  visited r = successPathInline \/ visited r = successPathExternalized.
Proof.
  destruct r as [tr o]. unfold visited. cbn [trace outcome].
  intros H Hsh ->.
  unfold successShape in Hsh. rewrite states_of_shape in Hsh.
  assert (Hend : endsIn ProcessingSucceeded (map state tr) = true).
  { destruct (execs_last _ _ _ _ _ _ H) as (pre & e & input' & -> & E).
    apply step_succeeded in E as [Hs _]. apply definition_Succeed in Hs.
    unfold endsIn. rewrite map_app, rev_app_distr. simpl. now rewrite Hs. }
  assert (Hno : mem ExtractMetadataForBedrock (map state tr) = false).
  { destruct (mem ExtractMetadataForBedrock (map state tr)) eqn:M;
      [|reflexivity].
    apply mem_In in M.
    destruct (inline_metadata_execs _ _ _ _ _ H M) as [Ho _]. discriminate. }
  rewrite Hend, Hno in Hsh. simpl in Hsh.
  apply orb_true_iff in Hsh as [A|A]; apply sameStates_eq in A; auto.
Qed.

Lemma call_limits (r : Run StateName) b ws input fn :
  execs (definition b) ws ProcessDocumentWithTextract input
        (trace r) (outcome r) ->
  withinCallLimits b (shape (trace r)) = true ->
  callsOf b fn (map stage (history r)) <= callLimit fn.
Proof.
  destruct r as [tr o]. unfold history. cbn [trace outcome].
  intros H Hl.
  rewrite (execs_history_stages _ _ _ _ _ _ H).
  unfold withinCallLimits in Hl. rewrite forallb_forall in Hl.
  apply Nat.leb_le. apply Hl. destruct fn; simpl; auto 7.
Qed.

Lemma budgets (r : Run StateName) b ws input :
  execs (definition b) ws ProcessDocumentWithTextract input
        (trace r) (outcome r) ->
  withinBudgets b (shape (trace r)) = true ->
  (workerBudget b (map stage (history r)) <= minutes 56)%Z
  /\ (In AddToBedrockKnowledgeBase (map stage (history r)) ->
      (minutes 50 <= workerBudget b (map stage (history r)))%Z).
Proof.
  destruct r as [tr o]. unfold history. cbn [trace outcome].
  intros H Hb.
  rewrite (execs_history_stages _ _ _ _ _ _ H).
  unfold withinBudgets, calledStates in Hb.
  apply andb_true_iff in Hb as [H1 H2]. split.
  - now apply Z.leb_le.
  - intro Hin. apply mem_In in Hin. rewrite Hin in H2.
    now apply Z.leb_le.
Qed.

(** ** The retries of the tasks *)

(** Every task of the definition has the retrier of the construct. *)
Lemma definition_retry b s fn payload outputPath retry next :
  definition b s = LambdaInvoke fn payload outputPath retry next ->
  retry = retryOnServiceExceptions.
Proof.
  destruct s; simpl; intro H; inversion H; reflexivity.
Qed.


Lemma definition_retry_bound b s fn payload outputPath props next :
  definition b s = LambdaInvoke fn payload outputPath (Some props) next ->
  maxAttempts props <= 6.
Proof.
  intro H. apply definition_retry in H. inversion H. simpl. lia.
Qed.

Lemma run_recorded b ws input e :
  In e (trace (run b ws input)) -> recorded 6 e.
Proof.
  exact (execs_recorded _ _ 6 (definition_retry_bound b) _ _ _ _
           (run_execs b ws input) e).
Qed.

(** Timeouts, retries included. *)
Lemma workerBudget_app b l1 l2 :
  workerBudget b (l1 ++ l2)
  = (workerBudget b l1 + workerBudget b l2)%Z.
Proof.
  induction l1 as [|s l1 IH]; cbn [workerBudget app]; [reflexivity|].
  rewrite IH. lia.
Qed.

Lemma workerBudget_nonneg b l : (0 <= workerBudget b l)%Z.
Proof.
  induction l as [|s l IH]; cbn [workerBudget]; [lia|].
  assert (0 <= match lambdaAt b s with
               | Some fn => lambdaTimeout fn
               | None => 0
               end)%Z
    by (destruct (lambdaAt b s) as [[]|]; unfold lambdaTimeout, minutes; lia).
  lia.
Qed.

Lemma workerBudget_attempts b (tr : list (Event StateName)) :
  (workerBudget b (map stage (invocations tr))
   <= workerBudget b (map stage (flat_map callsAt tr)))%Z.
Proof.
  induction tr as [|e tr IH]; cbn [invocations flat_map]; [simpl; lia|].
  rewrite map_app, workerBudget_app. unfold callsAt at 1.
  rewrite map_app, workerBudget_app.
  pose proof (workerBudget_nonneg b (map stage (retried e))) as Hr.
  destruct (invocation e) as [inv|]; cbn [map workerBudget] in *; lia.
Qed.


End FlowFacts.

(* ================================================================== *)
(** * Further properties of the current machine *)
(* ================================================================== *)

Import TraceFacts Flow FlowFacts.

(** X1.  An execution succeeds only if the extractor, the metadata
    extractor and the ingestor each answered with the status code 200;
    its output is the task result of the ingestor, whose payload carries
    that status code. *)
Theorem X1_success_needs_status_200 b ws input out :
  outcome (run b ws input) = Succeeded out ->
  (exists v,
     out = invokeResult v /\ lookup ["statusCode"] v = Some (JNum 200))
  /\ forall inv chk,
       In inv (history (run b ws input)) ->
       statusCheck (stage inv) = Some chk ->
       exists v,
         response inv = Returned v
         /\ lookup ["statusCode"] v = Some (JNum 200).
Proof.
  intro Ho. pose proof (run_execs b ws input) as H. rewrite Ho in H.
  split.
  - exact (success_output _ _ _ _ _ H).
  - intros inv chk. exact (success_checked_stage _ _ _ _ _ inv chk H).
Qed.

Lemma X1_success_witness :
  let r := run "processed" (wsExternalized 200) JNull in
  outcome r = Succeeded (invokeResult status200)
  /\ exists v,
       invokeResult status200 = invokeResult v
       /\ lookup ["statusCode"] v = Some (JNum 200).
Proof.
  intro r.
  assert (Ho : outcome r = Succeeded (invokeResult status200))
    by (vm_compute; reflexivity).
  split; [exact Ho|].
  exact (proj1 (X1_success_needs_status_200
                  "processed" (wsExternalized 200) JNull _ Ho)).
Defined.

(** X2.  An execution that succeeds has externalized the metadata
    output: it ran through one of two paths, which differ in the branch
    of the extraction decision only and both go through
    [StoreMetadataResult], [RetrievePayload] and the captioner. *)
Theorem X2_success_goes_through_the_store b ws input out :
  outcome (run b ws input) = Succeeded out ->
  visited (run b ws input) = successPathInline
  \/ visited (run b ws input) = successPathExternalized.
Proof.
  intro Ho.
  exact (success_path (run b ws input) b ws input out
           (run_execs b ws input) (proj1 (run_flow b ws input)) Ho).
Qed.

Lemma X2_success_path_witness :
  let r := run "processed" (wsExternalized 200) JNull in
  outcome r = Succeeded (invokeResult status200)
  /\ (visited r = successPathInline
      \/ visited r = successPathExternalized).
Proof.
  intro r.
  assert (Ho : outcome r = Succeeded (invokeResult status200))
    by (vm_compute; reflexivity).
  split; [exact Ho|].
  exact (X2_success_goes_through_the_store
           "processed" (wsExternalized 200) JNull _ Ho).
Defined.



(** X4.  When the extractor, the metadata extractor or the ingestor
    answers without a status code, the execution fails at that stage's
    check with a run-time error of the machine, not with the error of the
    [Fail] state: [ProcessingFailed] is not entered. *)
Theorem X4_missing_status_code_is_a_runtime_failure
  b ws input pre e post t chk req out :
  trace (run b ws input) = pre ++ e :: post ->
  invocation e = Some (mkInvocation t req (Returned out)) ->
  statusCheck t = Some chk ->
  lookup ["statusCode"] out = None ->
  map state post = [chk]
  /\ outcome (run b ws input) = Failed "States.Runtime" "Variable".
Proof.
  intros Htr Hinv Hchk Hnone.
  destruct (missing_status_execs _ _ _ _ _ _ _ _ _ _ _ _
              (run_execs b ws input) Htr Hinv Hchk Hnone) as [-> Ho].
  split; [reflexivity|exact Ho].
Qed.

Lemma X4_missing_status_witness :
  let r := run "processed" wsNoStatus JNull in
  let e :=
    mkEvent ProcessDocumentWithTextract
      (Some (mkInvocation ProcessDocumentWithTextract JNull
               (Returned (JObj [("body", JStr "text")])))) [] in
  trace r = [] ++ e :: skipn 1 (trace r)
  /\ map state (skipn 1 (trace r)) = [CheckTextractProcessing]
  /\ outcome r = Failed "States.Runtime" "Variable".
Proof.
  intros r e.
  assert (Htr : trace r = [] ++ e :: skipn 1 (trace r))
    by (vm_compute; reflexivity).
  split; [exact Htr|].
  exact (X4_missing_status_code_is_a_runtime_failure
           "processed" wsNoStatus JNull _ _ _
           ProcessDocumentWithTextract CheckTextractProcessing JNull
           (JObj [("body", JStr "text")]) Htr eq_refl eq_refl eq_refl).
Defined.

(** X5.  The payload store is called only after the extractor or the
    metadata extractor, and it is sent the whole output that this stage
    returned, under the operation store: an output whose status code is
    200 and whose body is a string that sorts after 204800. *)
Theorem X5_store_is_sent_the_whole_output b ws input inv :
  In inv (history (run b ws input)) ->
  lambdaAt b (stage inv) = Some payloadUtilsLambda ->
  exists prev output,
    In prev (history (run b ws input))
    /\ (stage prev = ProcessDocumentWithTextract
        /\ stage inv = StoreTextractResult
        \/ stage prev = ExtractAndStoreMetadata
           /\ stage inv = StoreMetadataResult)
    /\ response prev = Returned output
    /\ oversized output
    /\ request inv = JObj [("operation", JStr "store"); ("payload", output)].
Proof.
  exact (store_payload_execs _ _ _ _ _ inv (run_execs b ws input)).
Qed.

Lemma X5_store_request_witness :
  let r := run "processed" (wsExternalized 200) JNull in
  let inv := nth 1 (history r)
               (mkInvocation ProcessingFailed JNull (Returned JNull)) in
  In inv (history r)
  /\ stage inv = StoreTextractResult
  /\ exists prev output,
       In prev (history r)
       /\ (stage prev = ProcessDocumentWithTextract
           /\ stage inv = StoreTextractResult
           \/ stage prev = ExtractAndStoreMetadata
              /\ stage inv = StoreMetadataResult)
       /\ response prev = Returned output
       /\ oversized output
       /\ request inv
          = JObj [("operation", JStr "store"); ("payload", output)].
Proof.
  intros r inv.
  assert (Hin : In inv (history r)) by (vm_compute; tauto).
  split; [exact Hin|]. split; [reflexivity|].
  exact (X5_store_is_sent_the_whole_output
           "processed" (wsExternalized 200) JNull inv Hin eq_refl).
Defined.

(** X6.  The captioner is called at [GenerateImageDescriptionsLarge]
    only, never on the inline branch, and always with exactly a document
    id and a metadata id. *)
Theorem X6_captioner_is_called_on_the_externalized_branch_only
  b ws input inv :
  In inv (history (run b ws input)) ->
  lambdaAt b (stage inv) = Some imageDescriptionGeneratorLambda ->
  stage inv = GenerateImageDescriptionsLarge
  /\ exists doc id,
       request inv = JObj [("document_id", doc); ("metadata_id", id)].
Proof.
  exact (captioner_request_execs _ _ _ _ _ inv (run_execs b ws input)).
Qed.

Lemma X6_captioner_request_witness :
  let r := run "processed" (wsExternalized 200) JNull in
  let inv := nth 5 (history r)
               (mkInvocation ProcessingFailed JNull (Returned JNull)) in
  In inv (history r)
  /\ stage inv = GenerateImageDescriptionsLarge
  /\ exists doc id,
       request inv = JObj [("document_id", doc); ("metadata_id", id)].
Proof.
  intros r inv.
  assert (Hin : In inv (history r)) by (vm_compute; tauto).
  split; [exact Hin|].
  exact (X6_captioner_is_called_on_the_externalized_branch_only
           "processed" (wsExternalized 200) JNull inv Hin eq_refl).
Defined.

(** X7.  Whenever the ingestor is called, the captioner has answered
    before, and the ingestor is sent the bucket, the key, the document id
    and the status code of that answer, unexamined, together with the
    operation add_document_to_knowledge_base. *)
Theorem X7_ingestor_is_sent_the_captioner_answer b ws input inv :
  In inv (history (run b ws input)) ->
  stage inv = AddToBedrockKnowledgeBase ->
  exists cap described bucket key doc code,
    In cap (history (run b ws input))
    /\ stage cap = GenerateImageDescriptionsLarge
    /\ response cap = Returned described
    /\ lookup ["processed_bucket"] described = Some bucket
    /\ lookup ["processed_key"] described = Some key
    /\ lookup ["document_id"] described = Some doc
    /\ lookup ["statusCode"] described = Some code
    /\ request inv
       = JObj [("processed_bucket", bucket); ("processed_key", key);
               ("document_id", doc); ("statusCode", code);
               ("operation", JStr "add_document_to_knowledge_base")].
Proof.
  exact (ingestor_request_execs _ _ _ _ _ inv (run_execs b ws input)).
Qed.

Lemma X7_ingestor_request_witness :
  let r := run "processed" (wsExternalized 500) JNull in
  let inv := nth 6 (history r)
               (mkInvocation ProcessingFailed JNull (Returned JNull)) in
  In inv (history r)
  /\ stage inv = AddToBedrockKnowledgeBase
  /\ exists cap described bucket key doc code,
       In cap (history r)
       /\ stage cap = GenerateImageDescriptionsLarge
       /\ response cap = Returned described
       /\ lookup ["processed_bucket"] described = Some bucket
       /\ lookup ["processed_key"] described = Some key
       /\ lookup ["document_id"] described = Some doc
       /\ lookup ["statusCode"] described = Some code
       /\ request inv
          = JObj [("processed_bucket", bucket); ("processed_key", key);
                  ("document_id", doc); ("statusCode", code);
                  ("operation", JStr "add_document_to_knowledge_base")].
Proof.
  intros r inv.
  assert (Hin : In inv (history r)) by (vm_compute; tauto).
  split; [exact Hin|]. split; [reflexivity|].
  exact (X7_ingestor_is_sent_the_captioner_answer
           "processed" (wsExternalized 500) JNull inv Hin eq_refl).
Defined.

(** X8.  In one execution every Lambda function is behind at most one
    task state whose worker is called, the payload store's behind at
    most two: the two task states of the captioner never both call it.
    Each of these task states calls its function once and up to 6 times
    more, to retry a service error: no function is called more than 7
    times, the payload store's no more than 14. *)
Theorem X8_lambda_call_limits b ws input fn :
  let r := run b ws input in
  callsOf b fn (map stage (history r)) <= callLimit fn
  /\ callsOf b fn (map stage (history r))
     <= callsOf b fn (map stage (attempts r))
     <= 7 * callsOf b fn (map stage (history r))
  /\ callsOf b fn (map stage (attempts r)) <= 7 * callLimit fn.
Proof.
  intro r.
  pose proof (call_limits r b ws input fn (run_execs b ws input)
                (proj1 (proj2 (run_flow b ws input)))) as H1.
  assert (H2 : callsOf b fn (map stage (history r))
               <= callsOf b fn (map stage (attempts r))
               <= 7 * callsOf b fn (map stage (history r))).
  { unfold callsOf, attempts, history.
    apply (attempts_count 6). apply run_recorded. }
  split; [exact H1|]. split; [exact H2|]. lia.
Qed.

(** X9.  In every execution that calls the ingestor, the timeouts of the
    Lambda functions behind the task states that ran add up to at least
    50 minutes, and the timeouts of all their calls, retries included,
    to no less: more than the 30 minutes after which the state machine
    itself times out. *)
Theorem X9_worker_timeouts_exceed_the_machine_timeout b ws input :
  let r := run b ws input in
  In AddToBedrockKnowledgeBase (map stage (history r)) ->
  (timeout (documentProcessingStateMachine b) < minutes 50
   <= workerBudget b (map stage (history r)))%Z
  /\ (workerBudget b (map stage (history r))
      <= workerBudget b (map stage (attempts r)))%Z.
Proof.
  intros r Hin.
  destruct (budgets r b ws input (run_execs b ws input)
              (proj2 (proj2 (run_flow b ws input)))) as [_ H2].
  split; [split; [reflexivity|exact (H2 Hin)]|].
  apply workerBudget_attempts.
Qed.

Lemma X9_worker_timeouts_witness :
  let r := run "processed" (wsExternalized 200) JNull in
  In AddToBedrockKnowledgeBase (map stage (history r))
  /\ (minutes 30 < minutes 50
      <= workerBudget "processed" (map stage (history r)))%Z.
Proof.
  intro r.
  assert (Hin : In AddToBedrockKnowledgeBase (map stage (history r)))
    by (vm_compute; tauto).
  split; [exact Hin|].
  exact (proj1 (X9_worker_timeouts_exceed_the_machine_timeout
                  "processed" (wsExternalized 200) JNull Hin)).
Defined.

(* ================================================================== *)
(** * Facts about the inline handlers *)
(* ================================================================== *)

Module HandlerFacts.
Import ASL Py InferenceProfile.

Lemma wait_no_send B arn retries : forall n,
  forallb (fun e => negb (isSend e)) (wait B arn retries n) = true.
Proof.
  induction retries as [|retries IH]; intro n; simpl; [reflexivity|].
  destruct (bind _ _) as [status|e]; simpl; [|apply IH].
  destruct (isString status "READY"); simpl; [reflexivity|apply IH].
Qed.

Lemma wait_bounds B arn retries : forall n,
  List.length (filter isGet (wait B arn retries n)) <= retries
  /\ (0 <= slept (wait B arn retries n) <= 10 * Z.of_nat retries)%Z
  /\ filter isCreate (wait B arn retries n) = [].
Proof.
  induction retries as [|retries IH]; intro n.
  - simpl. repeat split; lia.
  - specialize (IH (S n)). destruct IH as (G & S' & C).
    cbn [wait].
    destruct (bind _ _) as [status|e];
      [destruct (isString status "READY")|]; cbn -[Z.add Z.mul Z.of_nat];
      repeat split; try assumption; try lia.
Qed.

Lemma wait_not_ready B arn retries : forall n,
  (forall k, n <= k -> notReady B k) ->
  wait B arn retries n = rounds arn retries.
Proof.
  induction retries as [|retries IH]; intros n H; [reflexivity|].
  cbn [wait rounds].
  pose proof (H n (Nat.le_refl n)) as Hn. unfold notReady in Hn.
  assert (IH' : wait B arn retries (S n) = rounds arn retries)
    by (apply IH; intros k Hk; apply H; lia).
  destruct (bind _ _) as [status|e].
  - rewrite Hn, IH'. reflexivity.
  - rewrite IH'. reflexivity.
Qed.

Lemma findProfile_first before pf after :
  (forall x, In x before ->
     exists fs, x = JObj fs
       /\ isString (dict_get fs "name") inference_profile_name = false) ->
  isString (dict_get pf "name") inference_profile_name = true ->
  findProfile (before ++ JObj pf :: after)
  = Ok (Some (orNone (dict_get pf "inferenceProfileArn"))).
Proof.
  intros Hb Hp. induction before as [|x before IH]; simpl.
  - unfold isString in Hp.
    destruct (dict_get pf "name") as [[| | |name| |]|]; try discriminate.
    now rewrite Hp.
  - destruct (Hb x (or_introl eq_refl)) as (fs & -> & Hx). simpl.
    assert (IH' := IH (fun y Hy => Hb y (or_intror Hy))).
    unfold isString in Hx.
    destruct (dict_get fs "name") as [[| | |name| |]|]; try exact IH'.
    now rewrite Hx.
Qed.

Lemma create_shape B region :
  exists pre arn,
    create B region = pre ++ [Send SUCCESS (arnData arn)]
    /\ forallb (fun e => negb (isSend e)) pre = true.
Proof.
  unfold create.
  destruct (bind _ _) as [arn|e].
  - eexists (_ :: wait B arn max_retries 0), arn. split; [reflexivity|].
    cbn [forallb isSend negb andb]. apply wait_no_send.
  - eexists [_], _. split; reflexivity.
Qed.

Lemma createOrUpdate_shape B region :
  exists pre arn,
    createOrUpdate B region = pre ++ [Send SUCCESS (arnData arn)]
    /\ forallb (fun e => negb (isSend e)) pre = true.
Proof.
  unfold createOrUpdate.
  destruct (existingProfile B) as [[arn|]|e].
  - exists [ListInferenceProfiles], arn. split; reflexivity.
  - destruct (create_shape B region) as (pre & arn & -> & Hpre).
    exists (ListInferenceProfiles :: pre), arn. split; [reflexivity|].
    exact Hpre.
  - eexists [ListInferenceProfiles], _. split; reflexivity.
Qed.

Lemma filter_snoc {A} (f : A -> bool) l x :
  filter f (l ++ [x]) = filter f l ++ (if f x then [x] else []).
Proof. now rewrite filter_app. Qed.

Lemma slept_app l l' : slept (l ++ l') = (slept l + slept l')%Z.
Proof.
  induction l as [|e l IH]; cbn -[Z.add]; [reflexivity|].
  destruct e; rewrite ?IH; lia.
Qed.

Lemma createOrUpdate_bounds B region :
  List.length (filter isGet (createOrUpdate B region)) <= 10
  /\ (0 <= slept (createOrUpdate B region) <= 100)%Z
  /\ List.length (filter isCreate (createOrUpdate B region)) <= 1.
Proof.
  unfold createOrUpdate, create.
  destruct (existingProfile B) as [[arn|]|e];
    cbn -[Z.add Z.mul Z.of_nat wait]; try (repeat split; lia).
  destruct (bind _ _) as [arn|e]; cbn -[Z.add Z.mul Z.of_nat wait];
    try (repeat split; lia).
  destruct (wait_bounds B arn max_retries 0) as (G & S' & C).
  rewrite !filter_app, slept_app, C. cbn -[Z.add Z.mul Z.of_nat wait].
  rewrite !length_app. cbn -[Z.add Z.mul Z.of_nat wait].
  unfold max_retries in *. repeat split; lia.
Qed.

Lemma no_send_filter pre :
  forallb (fun e => negb (isSend e)) pre = true -> filter isSend pre = [].
Proof.
  induction pre as [|e pre IH]; simpl; [reflexivity|].
  destruct (isSend e); simpl; [discriminate|exact IH].
Qed.

Lemma no_send_In pre status data :
  forallb (fun e => negb (isSend e)) pre = true ->
  ~ In (Send status data) pre.
Proof.
  intros H Hin. rewrite forallb_forall in H. apply H in Hin. discriminate.
Qed.

(** The four ways the handler can go. *)
Lemma lambda_handler_cases B event arn :
  (exists e,
     lambda_handler B event arn = failure e
     /\ (getitem event "RequestType" = Raise e
         \/ boto3_client B = Some e \/ regionOf arn = Raise e))
  \/ (exists region, lambda_handler B event arn = createOrUpdate B region)
  \/ (exists region,
        lambda_handler B event arn
        = [Send SUCCESS
             (arnData (JStr (default_inference_profile_arn region)))])
  \/ lambda_handler B event arn = [].
Proof.
  unfold lambda_handler.
  destruct (getitem event "RequestType") as [rt|e]; [|left; eauto].
  destruct (boto3_client B) as [e|]; [left; eauto|].
  destruct (regionOf arn) as [region|e]; [|left; eauto 6].
  destruct (isString (Some rt) "Create" || isString (Some rt) "Update");
    [right; left; eauto|].
  destruct (isString (Some rt) "Delete"); [right; right; left; eauto|].
  right; right; right; reflexivity.
Qed.

End HandlerFacts.

(* ================================================================== *)
(** * Properties of the inline handlers *)
(* ================================================================== *)

Import Py InferenceProfile HandlerFacts.

(** X10.  The trigger starts one execution, for the first record of its
    event: the input of the execution is the bucket name of that record
    and its key with [unquote_plus] applied; any further record of the
    event is dropped.  It returns its fixed answer when the start call
    returns and raises the error of the call otherwise. *)
Theorem X10_trigger_starts_one_execution_for_the_first_record
  unquote_plus arn start event record rest bucket k :
  getitem event "Records" = Ok (JArr (record :: rest)) ->
  Trigger.bucketOf record = Ok bucket ->
  Trigger.keyOf record = Ok (JStr k) ->
  let input := JObj [("bucket", bucket); ("key", JStr (unquote_plus k))] in
  let r := Trigger.lambda_handler unquote_plus arn None start event in
  Trigger.startCalls r = [(arn, input)]
  /\ (start arn input = None -> Trigger.returned r = Ok Trigger.started)
  /\ (forall e, start arn input = Some e -> Trigger.returned r = Raise e).
Proof.
  intros Hr Hb Hk input r. subst r. unfold Trigger.lambda_handler.
  rewrite Hr. cbn [bind getitem0]. rewrite Hb. cbn [bind]. rewrite Hk.
  cbn [bind Trigger.unquoted]. fold input.
  destruct (start arn input) as [e|]; cbn [Trigger.startCalls Trigger.returned].
  - split; [reflexivity|]. split; [discriminate|].
    intros e' H; inversion H; reflexivity.
  - split; [reflexivity|]. split; [reflexivity|discriminate].
Qed.

Lemma X10_trigger_first_record_witness :
  let event :=
    Trigger.s3event [Trigger.s3record "docs" "my+report.pdf";
                     Trigger.s3record "docs" "second.pdf"] in
  let r := Trigger.lambda_handler Trigger.plusToSpace "arn:machine" None
             (fun _ _ => None) event in
  getitem event "Records"
  = Ok (JArr [Trigger.s3record "docs" "my+report.pdf";
              Trigger.s3record "docs" "second.pdf"])
  /\ Trigger.startCalls r
     = [("arn:machine",
         JObj [("bucket", JStr "docs"); ("key", JStr "my report.pdf")])].
Proof.
  intros event r. split; [reflexivity|].
  exact (proj1 (X10_trigger_starts_one_execution_for_the_first_record
                  Trigger.plusToSpace "arn:machine" (fun _ _ => None) event
                  (Trigger.s3record "docs" "my+report.pdf")
                  [Trigger.s3record "docs" "second.pdf"]
                  (JStr "docs") "my+report.pdf"
                  eq_refl eq_refl eq_refl)).
Defined.

(** X11.  The trigger never reports success without having started an
    execution: it calls [start_execution] at most once, returns its
    answer only when that one call has returned, and raises whenever it
    starts nothing, as on an event whose record list is empty. *)
Theorem X11_trigger_reports_success_only_after_starting
  unquote_plus arn client start event :
  let r := Trigger.lambda_handler unquote_plus arn client start event in
  List.length (Trigger.startCalls r) <= 1
  /\ (forall v, Trigger.returned r = Ok v ->
        v = Trigger.started
        /\ exists input,
             Trigger.startCalls r = [(arn, input)]
             /\ start arn input = None)
  /\ (Trigger.startCalls r = [] -> exists e, Trigger.returned r = Raise e)
  /\ (getitem event "Records" = Ok (JArr []) ->
      Trigger.startCalls r = []
      /\ Trigger.returned r = Raise (IndexError "list index out of range")).
Proof.
  intro r. subst r. unfold Trigger.lambda_handler.
  split; [|split; [|split]].
  - destruct (bind _ _) as [input|e]; [destruct client|]; simpl; lia.
  - intros v.
    destruct (bind _ _) as [input|e]; [destruct client|]; simpl;
      try discriminate.
    destruct (start arn input) eqn:Hs; [discriminate|].
    intro H; inversion H; subst. split; [reflexivity|]. eauto.
  - destruct (bind _ _) as [input|e]; [destruct client|]; simpl;
      try discriminate; eauto.
  - intro H. rewrite H. simpl. split; reflexivity.
Qed.

Lemma X11_trigger_empty_event_witness :
  let r := Trigger.lambda_handler Trigger.plusToSpace "arn:machine" None
             (fun _ _ => None) (Trigger.s3event []) in
  getitem (Trigger.s3event []) "Records" = Ok (JArr [])
  /\ Trigger.startCalls r = []
  /\ Trigger.returned r = Raise (IndexError "list index out of range").
Proof.
  intro r. split; [reflexivity|].
  exact (proj2 (proj2 (proj2
           (X11_trigger_reports_success_only_after_starting
              Trigger.plusToSpace "arn:machine" None (fun _ _ => None)
              (Trigger.s3event [])))) eq_refl).
Defined.

(** X13.  Once the request type, the client and the region are read, a
    Create, Update or Delete request is answered exactly once, with
    SUCCESS and an inference profile ARN, whatever the Bedrock client
    answers or raises. *)
Theorem X13_profile_handler_always_reports_success
  B event arn rt region :
  getitem event "RequestType" = Ok (JStr rt) ->
  rt = "Create" \/ rt = "Update" \/ rt = "Delete" ->
  InferenceProfile.boto3_client B = None ->
  regionOf arn = Ok region ->
  exists pre answer,
    lambda_handler B event arn
    = pre ++ [Send SUCCESS [("InferenceProfileArn", answer)]]
    /\ forallb (fun e => negb (isSend e)) pre = true.
Proof.
  intros Hrt Hcases Hc Hreg. unfold lambda_handler.
  rewrite Hrt, Hc, Hreg.
  destruct Hcases as [-> | [-> | ->]]; cbn [isString String.eqb orb].
  - apply createOrUpdate_shape.
  - apply createOrUpdate_shape.
  - simpl. eexists [], _. split; reflexivity.
Qed.

Lemma X13_profile_handler_success_witness :
  getitem createEvent "RequestType" = Ok (JStr "Create")
  /\ regionOf functionArn = Ok "us-east-1"
  /\ exists pre answer,
       lambda_handler bedrockFailing createEvent functionArn
       = pre ++ [Send SUCCESS [("InferenceProfileArn", answer)]]
       /\ forallb (fun e => negb (isSend e)) pre = true.
Proof.
  split; [reflexivity|]. split; [reflexivity|].
  exact (X13_profile_handler_always_reports_success
           bedrockFailing createEvent functionArn "Create" "us-east-1"
           eq_refl (or_introl eq_refl) eq_refl eq_refl).
Defined.

(** X14.  When the listing shows a profile of the expected name, a
    Create or Update request answers with the ARN of the first such
    profile and does nothing else: no profile is created and none is
    waited for. *)
Theorem X14_existing_profile_is_reused
  B event arn rt region fs before pf after :
  getitem event "RequestType" = Ok (JStr rt) ->
  rt = "Create" \/ rt = "Update" ->
  InferenceProfile.boto3_client B = None ->
  regionOf arn = Ok region ->
  list_inference_profiles B = Ok (JObj fs) ->
  dict_get fs "inferenceProfiles" = Some (JArr (before ++ JObj pf :: after)) ->
  (forall x, In x before ->
     exists xf, x = JObj xf
       /\ isString (dict_get xf "name") inference_profile_name = false) ->
  isString (dict_get pf "name") inference_profile_name = true ->
  lambda_handler B event arn
  = [ListInferenceProfiles;
     Send SUCCESS
       [("InferenceProfileArn",
         orNone (dict_get pf "inferenceProfileArn"))]].
Proof.
  intros Hrt Hcases Hc Hreg Hl Hg Hb Hp. unfold lambda_handler.
  rewrite Hrt, Hc, Hreg.
  assert (Hif : isString (Some (JStr rt)) "Create"
                || isString (Some (JStr rt)) "Update" = true)
    by (destruct Hcases as [-> | ->]; reflexivity).
  rewrite Hif. unfold createOrUpdate, existingProfile.
  rewrite Hl. cbn [bind get]. rewrite Hg. cbn [bind iterate].
  rewrite (findProfile_first before pf after Hb Hp). reflexivity.
Qed.

Lemma X14_existing_profile_witness :
  lambda_handler bedrockListing createEvent functionArn
  = [ListInferenceProfiles;
     Send SUCCESS [("InferenceProfileArn", JStr "arn:first")]].
Proof.
  apply (X14_existing_profile_is_reused
           bedrockListing createEvent functionArn "Create" "us-east-1"
           [("inferenceProfiles",
             JArr [profileNamed "Other" "arn:other";
                   profileNamed "ClaudeInferenceProfile" "arn:first";
                   profileNamed "ClaudeInferenceProfile" "arn:second"])]
           [profileNamed "Other" "arn:other"]
           [("name", JStr "ClaudeInferenceProfile");
            ("inferenceProfileArn", JStr "arn:first")]
           [profileNamed "ClaudeInferenceProfile" "arn:second"]);
    try reflexivity.
  - now left.
  - intros x [<-|[]]. eexists. split; reflexivity.
Defined.

(** X15.  Whatever the event and the Bedrock client, one invocation asks
    for the state of the profile at most 10 times, pauses for at most 100
    seconds in all, which is within the 5 minutes the function has,
    creates at most one profile and answers at most once. *)
Theorem X15_profile_handler_is_bounded B event arn :
  let effects := lambda_handler B event arn in
  List.length (filter isGet effects) <= 10
  /\ (0 <= slept effects <= 100)%Z
  /\ (100 < functionTimeout)%Z
  /\ List.length (filter isCreate effects) <= 1
  /\ List.length (filter isSend effects) <= 1.
Proof.
  intro effects. subst effects.
  destruct (lambda_handler_cases B event arn)
    as [(e & -> & _)|[(region & ->)|[(region & ->)| ->]]];
    try (cbn -[Z.add Z.mul Z.of_nat]; unfold functionTimeout, minutes;
         repeat split; lia).
  destruct (createOrUpdate_bounds B region) as (G & S' & C).
  destruct (createOrUpdate_shape B region) as (pre & answer & Heq & Hpre).
  repeat split; try assumption; try lia.
  rewrite Heq, filter_app, (no_send_filter pre Hpre). simpl. lia.
Qed.

(** X16.  A profile that never gets ready does not fail the deployment,
    not even when its status is FAILED or ERROR: after creating it the
    handler asks 10 times, pauses 10 seconds after each answer, and then
    answers SUCCESS with the ARN of the profile it created. *)
Theorem X16_failed_status_does_not_fail_the_deployment
  B event arn rt region created :
  getitem event "RequestType" = Ok (JStr rt) ->
  rt = "Create" \/ rt = "Update" ->
  InferenceProfile.boto3_client B = None ->
  regionOf arn = Ok region ->
  existingProfile B = Ok None ->
  bind (create_inference_profile B)
       (fun response => getitem response "inferenceProfileArn")
  = Ok created ->
  (forall n, notReady B n) ->
  lambda_handler B event arn
  = ListInferenceProfiles
    :: CreateInferenceProfile inference_profile_name (model_arn region)
         [("project", "document-processing")]
    :: rounds created 10
    ++ [Send SUCCESS [("InferenceProfileArn", created)]].
Proof.
  intros Hrt Hcases Hc Hreg He Hcr Hn. unfold lambda_handler.
  rewrite Hrt, Hc, Hreg.
  assert (Hif : isString (Some (JStr rt)) "Create"
                || isString (Some (JStr rt)) "Update" = true)
    by (destruct Hcases as [-> | ->]; reflexivity).
  rewrite Hif. unfold createOrUpdate, create. rewrite He, Hcr.
  rewrite (wait_not_ready B created max_retries 0 (fun k _ => Hn k)).
  reflexivity.
Qed.

Lemma X16_failed_status_witness :
  (forall n, notReady bedrockFailing n)
  /\ lambda_handler bedrockFailing createEvent functionArn
     = ListInferenceProfiles
       :: CreateInferenceProfile inference_profile_name
            (model_arn "us-east-1") [("project", "document-processing")]
       :: rounds (JStr "arn:created") 10
       ++ [Send SUCCESS [("InferenceProfileArn", JStr "arn:created")]].
Proof.
  assert (H : forall n, notReady bedrockFailing n)
    by (intro n; reflexivity).
  split; [exact H|].
  exact (X16_failed_status_does_not_fail_the_deployment
           bedrockFailing createEvent functionArn "Create" "us-east-1"
           (JStr "arn:created")
           eq_refl (or_introl eq_refl) eq_refl eq_refl eq_refl eq_refl H).
Defined.

(** X17.  Only Create and Update requests reach Bedrock.  A Delete
    request deletes nothing and answers SUCCESS with the default ARN of
    the region; a request of any other type gets no answer at all. *)
Theorem X17_only_create_and_update_reach_bedrock B event arn rt :
  getitem event "RequestType" = Ok rt ->
  isString (Some rt) "Create" = false ->
  isString (Some rt) "Update" = false ->
  filter isBedrockCall (lambda_handler B event arn) = []
  /\ forall region,
       InferenceProfile.boto3_client B = None ->
       regionOf arn = Ok region ->
       lambda_handler B event arn
       = if isString (Some rt) "Delete"
         then [Send SUCCESS
                 [("InferenceProfileArn",
                   JStr (default_inference_profile_arn region))]]
         else [].
Proof.
  intros Hrt Hc Hu. unfold lambda_handler. rewrite Hrt, Hc, Hu.
  cbn [orb]. split.
  - destruct (InferenceProfile.boto3_client B); [reflexivity|].
    destruct (regionOf arn); [|reflexivity].
    destruct (isString (Some rt) "Delete"); reflexivity.
  - intros region Hcl Hreg. rewrite Hcl, Hreg. reflexivity.
Qed.

Lemma X17_delete_witness :
  getitem deleteEvent "RequestType" = Ok (JStr "Delete")
  /\ filter isBedrockCall
       (lambda_handler bedrockFailing deleteEvent functionArn) = []
  /\ lambda_handler bedrockFailing deleteEvent functionArn
     = [Send SUCCESS
          [("InferenceProfileArn",
            JStr (default_inference_profile_arn "us-east-1"))]].
Proof.
  split; [reflexivity|].
  destruct (X17_only_create_and_update_reach_bedrock
              bedrockFailing deleteEvent functionArn (JStr "Delete")
              eq_refl eq_refl eq_refl) as [H1 H2].
  split; [exact H1|]. exact (H2 "us-east-1" eq_refl eq_refl).
Defined.

(** X18.  The handler answers FAILED only when it cannot read the
    request type, get its client or find the region in its own ARN; it
    then has called nothing and answers with the text of that error and
    without an inference profile ARN. *)
Theorem X18_profile_handler_fails_only_before_bedrock B event arn data :
  In (Send FAILED data) (lambda_handler B event arn) ->
  lambda_handler B event arn = [Send FAILED data]
  /\ exists e,
       data = [("Error", JStr (str e))]
       /\ (getitem event "RequestType" = Raise e
           \/ InferenceProfile.boto3_client B = Some e
           \/ regionOf arn = Raise e).
Proof.
  intro Hin.
  destruct (lambda_handler_cases B event arn)
    as [(e & Heq & Hwhy)|[(region & Heq)|[(region & Heq)|Heq]]];
    rewrite Heq in *.
  - destruct Hin as [H|[]]. inversion H; subst. split; [reflexivity|].
    exists e. split; [reflexivity|exact Hwhy].
  - exfalso.
    destruct (createOrUpdate_shape B region) as (pre & answer & Hs & Hpre).
    rewrite Hs in Hin. apply in_app_or in Hin as [Hin|[Hin|[]]].
    + exact (no_send_In pre _ _ Hpre Hin).
    + discriminate.
  - destruct Hin as [H|[]]. discriminate.
  - destruct Hin.
Qed.

Lemma X18_profile_handler_failure_witness :
  let effects := lambda_handler bedrockFailing (JObj []) functionArn in
  In (Send FAILED [("Error", JStr "'RequestType'")]) effects
  /\ effects = [Send FAILED [("Error", JStr "'RequestType'")]].
Proof.
  intro effects.
  assert (Hin : In (Send FAILED [("Error", JStr "'RequestType'")]) effects)
    by (left; reflexivity).
  split; [exact Hin|].
  exact (proj1 (X18_profile_handler_fails_only_before_bedrock
                  bedrockFailing (JObj []) functionArn _ Hin)).
Defined.

(* ================================================================== *)
(** * The earlier revision, end to end *)
(* ================================================================== *)

Module StepFacts.
Import ASL ASLFacts.

Section Steps.

Context {N : Type} (m : N -> State N) (ws : N -> json -> nat -> WorkerResult).

Lemma step_task s input fn payload outputPath retry next p v out :
  m s = LambdaInvoke fn payload outputPath retry next ->
  render payload input = Some p ->
  answer m ws s p = Returned v ->
  lookup outputPath (invokeResult v) = Some out ->
  step m ws s input = (Some (mkInvocation s p (Returned v)), Goto next out).
Proof.
  intros Hm Hr Hw Ho. unfold step. unfold answer in Hw. rewrite Hm in *.
  now rewrite Hr, Hw, Ho.
Qed.

Lemma step_pass s input parameters next out :
  m s = Pass parameters next ->
  render parameters input = Some out ->
  step m ws s input = (None, Goto next out).
Proof.
  intros Hm Hr. unfold step. now rewrite Hm, Hr.
Qed.

Lemma step_choice s input c yes no (holds : bool) :
  m s = Choice [(c, yes)] (Some no) ->
  Condition.eval c input = Some holds ->
  step m ws s input = (None, Goto (if holds then yes else no) input).
Proof.
  intros Hm Hc. unfold step. rewrite Hm. cbn [select]. rewrite Hc.
  destruct holds; reflexivity.
Qed.

Lemma step_succeed s input :
  m s = Succeed -> step m ws s input = (None, Halt (Succeeded input)).
Proof.
  intros Hm. unfold step. now rewrite Hm.
Qed.

End Steps.

End StepFacts.

Import StepFacts.

Lemma sizeGuard_inline_eval output :
  sizeGuard output = Some Inline ->
  Condition.eval
    (Condition.and [Condition.isPresent ["body"];
                    Condition.stringGreaterThan ["body"] "204800"])
    output = Some false.
Proof.
  unfold sizeGuard. destruct (Condition.eval _ output) as [[|]|];
    intro H; try discriminate; reflexivity.
Qed.

Lemma mem_In_v0 s l : StackV0.mem s l = true <-> In s l.
Proof.
  unfold StackV0.mem. rewrite existsb_exists. split.
  - intros (x & Hx & E).
    apply StackV0.internal_StateName_dec_bl in E. now subst.
  - intro H. exists s. split; [assumption|].
    now apply StackV0.internal_StateName_dec_lb.
Qed.

Lemma historyBound_unpack_v0 (r : Run StackV0.StateName) :
  StackV0.historyBound (shape (trace r)) = true ->
  List.length (history r) <= 5 ->
  List.length (history r) <= 5
  /\ (In StackV0.ExtractProcessedKey (visited r) ->
      In StackV0.ExtractMetadataForBedrock (visited r) ->
      List.length (history r) <= 3
      /\ (In StackV0.CheckBedrockIntegration (visited r) ->
          List.length (history r) = 3))
  /\ (In StackV0.StoreTextractResult (visited r) ->
      In StackV0.StoreMetadataResult (visited r) ->
      In StackV0.CheckBedrockIntegration (visited r) ->
      List.length (history r) = 5).
Proof.
  destruct r as [tr o]. unfold history, visited. cbn [trace].
  intros H H5.
  assert (Hn : List.length (invocations tr) = StackV0.calls (shape tr))
    by apply invocations_shape.
  unfold StackV0.historyBound in H. rewrite <- Hn in H.
  assert (Hv : map fst (shape tr) = map state tr).
  { unfold shape. rewrite map_map. reflexivity. }
  rewrite Hv in H.
  rewrite !andb_true_iff in H. destruct H as [[[H1 H2] H3] _].
  split; [exact H5|]. split.
  - intros A B. apply mem_In_v0 in A, B. rewrite A, B in H1, H2.
    split; [now apply Nat.leb_le|].
    intro C. apply mem_In_v0 in C. rewrite C in H2. now apply Nat.eqb_eq.
  - intros A B C. apply mem_In_v0 in A, B, C. rewrite A, B, C in H3.
    now apply Nat.eqb_eq.
Qed.

Lemma definition_retry_bound_v0 b s fn payload outputPath props next :
  StackV0.definition b s
  = LambdaInvoke fn payload outputPath (Some props) next ->
  maxAttempts props <= 6.
Proof.
  destruct s; simpl; intro H; inversion H; simpl; lia.
Qed.

(** X19.  In the earlier revision the history, which has one entry per
    task state whose worker was called, has at most 5 entries; it has at
    most 3 in an execution that stays inline at both size decisions,
    exactly 3 once that execution reaches the check of the ingestor, and
    exactly 5 in one that externalizes both outputs and reaches that
    check.  An entry stands for one call and up to 6 more that retried a
    service error: the calls number at least as many as the entries and
    at most 7 times as many. *)
Theorem X19_earlier_revision_history_bounds b ws input :
  let r := StackV0.run b ws input in
  let n := List.length (history r) in
  n <= 5
  /\ (In StackV0.ExtractProcessedKey (visited r) ->
      In StackV0.ExtractMetadataForBedrock (visited r) ->
      n <= 3
      /\ (In StackV0.CheckBedrockIntegration (visited r) -> n = 3))
  /\ (In StackV0.StoreTextractResult (visited r) ->
      In StackV0.StoreMetadataResult (visited r) ->
      In StackV0.CheckBedrockIntegration (visited r) -> n = 5)
  /\ n <= List.length (attempts r) <= 7 * n.
Proof.
  intros r n.
  destruct (StackV0Facts.run_historyBound_v0 b ws input) as [H H5].
  destruct (historyBound_unpack_v0 (StackV0.run b ws input) H H5)
    as (A & B & C).
  split; [exact A|]. split; [exact B|]. split; [exact C|].
  apply (attempts_length 6).
  exact (execs_recorded _ _ 6 (definition_retry_bound_v0 b) _ _ _ _
           (StackV0Facts.run_execs_v0 b ws input)).
Qed.

Lemma X19_earlier_revision_witness :
  let r := StackV0.run "processed" StackV0.wsInline JNull in
  In StackV0.ExtractProcessedKey (visited r)
  /\ In StackV0.ExtractMetadataForBedrock (visited r)
  /\ In StackV0.CheckBedrockIntegration (visited r)
  /\ List.length (history r) = 3.
Proof.
  intro r.
  assert (A : In StackV0.ExtractProcessedKey (visited r))
    by (vm_compute; tauto).
  assert (B : In StackV0.ExtractMetadataForBedrock (visited r))
    by (vm_compute; tauto).
  assert (C : In StackV0.CheckBedrockIntegration (visited r))
    by (vm_compute; tauto).
  repeat (split; [assumption|]).
  destruct (X19_earlier_revision_history_bounds
              "processed" StackV0.wsInline JNull) as (_ & H & _).
  exact (proj2 (H A B) C).
Defined.

Lemma first_call_v0 b ws input :
  exists later,
    history (StackV0.run b ws input)
    = mkInvocation StackV0.ProcessDocumentWithTextract input
        (answer (StackV0.definition b) ws
           StackV0.ProcessDocumentWithTextract input)
      :: later.
Proof.
  rewrite StackV0Facts.run_eq_v0. unfold StackV0.fuel, history.
  rewrite exec_S. unfold step at 1, answer.
  cbn [StackV0.definition StackV0.textractTask render lookup].
  destruct (final _ (ws StackV0.ProcessDocumentWithTextract input));
    cbn [lookup invokeResult field String.eqb Ascii.eqb Bool.eqb trace
         invocations invocation];
    eexists; reflexivity.
Qed.

(** X12.  The extractor of the earlier revision is called with exactly
    what the trigger read from the first record of the S3 event: the
    bucket name and the key with [unquote_plus] applied. *)
Theorem X12_extractor_receives_bucket_and_unquoted_key
  unquote_plus arn start event record rest bucket k b ws machine input :
  getitem event "Records" = Ok (JArr (record :: rest)) ->
  Trigger.bucketOf record = Ok bucket ->
  Trigger.keyOf record = Ok (JStr k) ->
  In (machine, input)
     (Trigger.startCalls
        (Trigger.lambda_handler unquote_plus arn None start event)) ->
  let request := JObj [("bucket", bucket); ("key", JStr (unquote_plus k))] in
  exists later,
    history (StackV0.run b ws input)
    = mkInvocation StackV0.ProcessDocumentWithTextract request
        (answer (StackV0.definition b) ws
           StackV0.ProcessDocumentWithTextract request)
      :: later.
Proof.
  intros Hr Hb Hk Hin request.
  unfold Trigger.lambda_handler in Hin.
  rewrite Hr in Hin. cbn [bind getitem0] in Hin.
  rewrite Hb in Hin. cbn [bind] in Hin. rewrite Hk in Hin.
  cbn [bind Trigger.unquoted Trigger.startCalls] in Hin.
  destruct Hin as [Heq|[]]. inversion Heq; subst.
  apply first_call_v0.
Qed.

Lemma X12_extractor_request_witness :
  let event := Trigger.s3event [Trigger.s3record "docs" "my+report.pdf"] in
  let input :=
    JObj [("bucket", JStr "docs"); ("key", JStr "my report.pdf")] in
  In ("arn:machine", input)
     (Trigger.startCalls
        (Trigger.lambda_handler Trigger.plusToSpace "arn:machine" None
           (fun _ _ => None) event))
  /\ exists later,
       history (StackV0.run "processed" StackV0.wsInline input)
       = mkInvocation StackV0.ProcessDocumentWithTextract input
           (answer (StackV0.definition "processed") StackV0.wsInline
              StackV0.ProcessDocumentWithTextract input)
         :: later.
Proof.
  intros event input.
  assert (Hin : In ("arn:machine", input)
     (Trigger.startCalls
        (Trigger.lambda_handler Trigger.plusToSpace "arn:machine" None
           (fun _ _ => None) event))) by (left; reflexivity).
  split; [exact Hin|].
  exact (X12_extractor_receives_bucket_and_unquoted_key
           Trigger.plusToSpace "arn:machine" (fun _ _ => None) event
           (Trigger.s3record "docs" "my+report.pdf") [] (JStr "docs")
           "my+report.pdf" "processed" StackV0.wsInline "arn:machine" input
           eq_refl eq_refl eq_refl Hin).
Defined.

Ltac v0_task s input H :=
  rewrite exec_S;
  erewrite (step_task (StackV0.definition _) _ s input);
  [ | reflexivity | try reflexivity | exact H | reflexivity ];
  cbn [trace outcome].

Ltac v0_choice s input holds :=
  rewrite exec_S;
  erewrite (step_choice (StackV0.definition _) _ s input _ _ _ holds);
  [ | reflexivity | ];
  cbn [trace outcome].

(** X20.  In the earlier revision the all-inline path completes: when the
    extractor answers 200 with an output that stays inline, the metadata
    extractor, asked for the processed bucket and the placeholder key,
    answers 200 inline with the three metadata fields, and the ingestor,
    asked to add that document, answers 200, the execution succeeds with
    the ingestor's answer after exactly these three calls. *)
Theorem X20_earlier_revision_inline_path_succeeds
  b ws input extracted metadata bucket key doc ingested :
  answer (StackV0.definition b) ws StackV0.ProcessDocumentWithTextract input
  = Returned extracted ->
  lookup ["statusCode"] extracted = Some (JNum 200) ->
  sizeGuard extracted = Some Inline ->
  answer (StackV0.definition b) ws StackV0.ExtractAndStoreMetadata
     (JObj [("processed_bucket", JStr b);
            ("processed_key", JStr "dummy-key")])
  = Returned metadata ->
  lookup ["statusCode"] metadata = Some (JNum 200) ->
  sizeGuard metadata = Some Inline ->
  lookup ["metadata"; "processed_bucket"] metadata = Some bucket ->
  lookup ["metadata"; "processed_key"] metadata = Some key ->
  lookup ["metadata"; "document_id"] metadata = Some doc ->
  answer (StackV0.definition b) ws StackV0.AddToBedrockKnowledgeBase
     (JObj [("operation", JStr "add_document_to_knowledge_base");
            ("processed_bucket", bucket); ("processed_key", key);
            ("document_id", doc)])
  = Returned ingested ->
  lookup ["statusCode"] ingested = Some (JNum 200) ->
  outcome (StackV0.run b ws input) = Succeeded ingested
  /\ history (StackV0.run b ws input)
     = [mkInvocation StackV0.ProcessDocumentWithTextract input
          (Returned extracted);
        mkInvocation StackV0.ExtractAndStoreMetadata
          (JObj [("processed_bucket", JStr b);
                 ("processed_key", JStr "dummy-key")])
          (Returned metadata);
        mkInvocation StackV0.AddToBedrockKnowledgeBase
          (JObj [("operation", JStr "add_document_to_knowledge_base");
                 ("processed_bucket", bucket); ("processed_key", key);
                 ("document_id", doc)])
          (Returned ingested)].
Proof.
  intros Hw1 Hs1 Hg1 Hw2 Hs2 Hg2 Hb Hk Hd Hw3 Hs3.
  rewrite StackV0Facts.run_eq_v0. unfold StackV0.fuel, history.
  v0_task StackV0.ProcessDocumentWithTextract input Hw1.
  v0_choice StackV0.CheckTextractProcessing extracted true;
    [|now apply numberEquals_200_true].
  v0_choice StackV0.CheckTextractPayloadSize extracted false;
    [|now apply sizeGuard_inline_eval].
  rewrite exec_S.
  erewrite (step_pass (StackV0.definition b) ws StackV0.ExtractProcessedKey
              extracted);
    [|reflexivity|simpl; rewrite Hs1; reflexivity].
  cbn [trace outcome].
  v0_task StackV0.ExtractAndStoreMetadata
    (JObj [("processed_bucket", JStr b); ("processed_key", JStr "dummy-key");
           ("original_status_code", JNum 200)]) Hw2.
  v0_choice StackV0.CheckMetadataExtraction metadata true;
    [|now apply numberEquals_200_true].
  v0_choice StackV0.CheckMetadataPayloadSize metadata false;
    [|now apply sizeGuard_inline_eval].
  rewrite exec_S.
  erewrite (step_pass (StackV0.definition b) ws
              StackV0.ExtractMetadataForBedrock metadata);
    [|reflexivity|simpl; rewrite Hb, Hk, Hd; reflexivity].
  cbn [trace outcome].
  v0_task StackV0.AddToBedrockKnowledgeBase
    (JObj [("processed_bucket", bucket); ("processed_key", key);
           ("document_id", doc)]) Hw3.
  v0_choice StackV0.CheckBedrockIntegration ingested true;
    [|now apply numberEquals_200_true].
  rewrite exec_S, (step_succeed (StackV0.definition b) ws
                     StackV0.ProcessingSucceeded ingested eq_refl).
  split; reflexivity.
Qed.

Lemma X20_earlier_revision_inline_witness :
  let r := StackV0.run "processed" StackV0.wsInline JNull in
  outcome r = Succeeded (JObj [("statusCode", JNum 200)])
  /\ List.length (history r) = 3.
Proof.
  intro r.
  destruct (X20_earlier_revision_inline_path_succeeds
              "processed" StackV0.wsInline JNull
              (JObj [("statusCode", JNum 200); ("body", JStr "1")])
              (JObj [("statusCode", JNum 200);
                     ("metadata",
                      JObj [("processed_bucket", JStr "processed");
                            ("processed_key", JStr "doc.json");
                            ("document_id", JStr "doc-1")])])
              (JStr "processed") (JStr "doc.json") (JStr "doc-1")
              (JObj [("statusCode", JNum 200)])
              eq_refl eq_refl eq_refl eq_refl eq_refl eq_refl eq_refl eq_refl
              eq_refl eq_refl eq_refl) as [Ho Hh].
  split; [exact Ho|].
  unfold r. rewrite Hh. reflexivity.
Defined.
